(** * Recipe app: a shallow embedding of the recipe model, search view and charts

    Sources embedded here:
    - [apps/recipe/models.py]  : [Recipe], [ingredients_list], [difficulty]
    - [apps/recipe/forms.py]   : [RecipeSearchForm] validation
    - [apps/recipe/views.py]   : [RecipeListView.get_context_data], [post],
                                 pagination ([paginate_by]) and [querystring],
                                 [RecipeCreateView.form_valid]
    - [apps/recipe/utils.py]   : [get_recipename_from_id], [get_graph], [get_chart]
    - [apps/recipe/management/commands/load_sample_recipes.py] : [Command.handle]

    Python strings are modelled as Stdlib [string], one [ascii] per code point
    (the code points 0 .. 255), Python ints as [Z], the database table as its
    rows in primary-key order and its [sqlite_sequence] value. *)

From Stdlib Require Import ZArith List String Ascii Bool Lia.
From Stdlib Require Import Sorting.Sorted Sorting.Permutation.
From Stdlib Require Import Strings.Byte NArith.
Import ListNotations.
Open Scope string_scope.
Open Scope Z_scope.

(** ** Python string helpers *)

(** [str.isspace] on the code points 0 .. 255: space, \t, \n, \x0b, \x0c,
    \r, the separators \x1c .. \x1f, NEL (\x85) and NBSP (\xa0). The same
    characters are [\s] in a [str] regular expression. *)
Definition is_space (c : ascii) : bool :=
  let n := nat_of_ascii c in
  (n =? 32)%nat || ((9 <=? n)%nat && (n <=? 13)%nat)
  || ((28 <=? n)%nat && (n <=? 31)%nat)
  || (n =? 133)%nat || (n =? 160)%nat.

(** [str.lstrip()] *)
Fixpoint lstrip (s : string) : string :=
  match s with
  | EmptyString => EmptyString
  | String c t => if is_space c then lstrip t else s
  end.

(** [str.rstrip()] *)
Fixpoint rstrip (s : string) : string :=
  match s with
  | EmptyString => EmptyString
  | String c t =>
      let t' := rstrip t in
      if String.eqb t' "" && is_space c then "" else String c t'
  end.

(** [str.strip()] *)
Definition strip (s : string) : string := rstrip (lstrip s).

(** Every character is whitespace ([s.isspace()] or [s == '']). *)
Fixpoint all_space (s : string) : bool :=
  match s with
  | EmptyString => true
  | String c t => is_space c && all_space t
  end.

(** [str.split(sep)] for a one-character separator: [''.split(',') == ['']]. *)
Fixpoint py_split (sep : ascii) (s : string) : list string :=
  match s with
  | EmptyString => [""]
  | String c t =>
      let rest := py_split sep t in
      if Ascii.eqb c sep then "" :: rest
      else match rest with
           | h :: r => String c h :: r
           | [] => [String c ""]
           end
  end.

(** [','.join(parts)], used to state what [py_split] does. *)
Fixpoint join_comma (parts : list string) : string :=
  match parts with
  | [] => ""
  | [p] => p
  | p :: ps => p ++ "," ++ join_comma ps
  end.

(** ASCII [str.lower()]; SQLite's [LIKE] folds exactly the ASCII letters. *)
Definition ascii_lower (c : ascii) : ascii :=
  let n := nat_of_ascii c in
  if (65 <=? n)%nat && (n <=? 90)%nat then ascii_of_nat (n + 32) else c.

Fixpoint lower (s : string) : string :=
  match s with
  | EmptyString => EmptyString
  | String c t => String (ascii_lower c) (lower t)
  end.

(** Substring test: [needle in hay]. *)
Fixpoint contains (hay needle : string) : bool :=
  if String.prefix needle hay then true
  else match hay with
       | EmptyString => false
       | String _ t => contains t needle
       end.

(** Django's [field__icontains=term] on SQLite: [field LIKE '%term%' ESCAPE '\'],
    with the wildcards of [term] escaped, so a literal substring test up to
    ASCII case. *)
Definition icontains (field term : string) : bool :=
  contains (lower field) (lower term).

(** ** The Recipe model ([apps/recipe/models.py]) *)

Definition CATEGORY_CHOICES : list (string * string) :=
  [("breakfast", "Breakfast"); ("lunch", "Lunch"); ("dinner", "Dinner");
   ("dessert", "Dessert"); ("snack", "Snack")].

(** A row of the recipe table; [pic] is omitted (no claim reads it). *)
Record Recipe := mkRecipe {
  id : Z;
  name : string;
  cooking_time : Z;
  ingredients : string;
  description : option string;
  category : string;
  user : Z
}.

(** [Recipe.ingredients_list] *)
Definition ingredients_list (ingredients : string) : list string :=
  if String.eqb ingredients "" then []
  else map strip
         (filter (fun item => negb (String.eqb (strip item) ""))
                 (py_split "," ingredients)).

(** The body of [Recipe.difficulty], after [num_ingredients] is computed. *)
Definition difficulty_of (cooking_time : Z) (num_ingredients : nat) : string :=
  let n := Z.of_nat num_ingredients in
  if (cooking_time <? 10) && (n <? 4) then "Easy"
  else if (cooking_time <? 10) && (n >=? 4) then "Medium"
  else if (cooking_time >=? 10) && (n <? 4) then "Intermediate"
  else "Hard".

(** [Recipe.difficulty] *)
Definition difficulty (r : Recipe) : string :=
  difficulty_of (cooking_time r) (List.length (ingredients_list (ingredients r))).

(** ** Request data and [RecipeSearchForm] ([apps/recipe/forms.py]) *)

(** A [QueryDict]: the request parameters in the order they were sent. *)
Definition QueryDict := list (string * string).

(** [QueryDict.get(key)]: the last value sent for [key], or [None]. *)
Definition qd_get (d : QueryDict) (key : string) : option string :=
  fold_left (fun acc kv => if String.eqb (fst kv) key then Some (snd kv) else acc)
            d None.

(** Python truthiness of [data.get(key)]: [None] and [''] are false. *)
Definition truthy (v : option string) : option string :=
  match v with
  | Some s => if String.eqb s "" then None else Some s
  | None => None
  end.

Definition CHART_CHOICES : list (string * string) :=
  [("#1", "Bar chart"); ("#2", "Pie chart"); ("#3", "Line chart")].

Definition DIFFICULTY_CHOICES : list (string * string) :=
  [("", "All"); ("Easy", "Easy"); ("Medium", "Medium");
   ("Intermediate", "Intermediate"); ("Hard", "Hard")].

(** [ProhibitNullCharactersValidator]: ['\x00' in value] is an error. *)
Definition has_nul (s : string) : bool := contains s (String Ascii.zero "").

(** [forms.CharField(max_length=.., required=..)]: [to_python] strips the
    value, [''] is the empty value; the validators ([MaxLengthValidator] and
    [ProhibitNullCharactersValidator]) skip empty values. *)
Definition charfield_valid (max_length : nat) (required : bool) (v : option string) : bool :=
  match v with
  | None => negb required
  | Some s =>
      let s' := strip s in
      if String.eqb s' "" then negb required
      else (String.length s' <=? max_length)%nat && negb (has_nul s')
  end.

(** [forms.ChoiceField(choices=.., required=..)]: the value is not stripped;
    [''] or a missing value fails only a required field; any other value must
    be one of the choices. *)
Definition choicefield_valid (choices : list (string * string)) (required : bool)
    (v : option string) : bool :=
  match v with
  | None => negb required
  | Some s =>
      if String.eqb s "" then negb required
      else existsb (fun c => String.eqb (fst c) s) choices
  end.

(** [RecipeSearchForm(data).is_valid()]; an unbound form ([data] is [None])
    is never valid. The form has no [category] field. *)
Definition RecipeSearchForm_is_valid (data : option QueryDict) : bool :=
  match data with
  | None => false
  | Some d =>
      charfield_valid 120 false (qd_get d "recipe_name")
      && charfield_valid 120 false (qd_get d "ingredient")
      && choicefield_valid CHART_CHOICES true (qd_get d "chart_type")
      && choicefield_valid DIFFICULTY_CHOICES false (qd_get d "difficulty")
  end.

(** [RecipeSearchForm(data or None)]: an empty [QueryDict] is falsy. *)
Definition form_data (data : option QueryDict) : option QueryDict :=
  match data with
  | Some (_ :: _) => data
  | _ => None
  end.

(** ** The four filters of [RecipeListView.get_context_data] (views.py 181-210) *)

(** [qs.filter(name__icontains=recipe_name)] if [recipe_name] is truthy. *)
Definition filter_name (recipe_name : option string) (qs : list Recipe) : list Recipe :=
  match truthy recipe_name with
  | Some t => filter (fun r => icontains (name r) t) qs
  | None => qs
  end.

(** [qs.filter(ingredients__icontains=ingredient)] if [ingredient] is truthy. *)
Definition filter_ingredient (ingredient : option string) (qs : list Recipe) : list Recipe :=
  match truthy ingredient with
  | Some t => filter (fun r => icontains (ingredients r) t) qs
  | None => qs
  end.

(** [qs.filter(category=category)] if [category] is truthy. *)
Definition filter_category (cat : option string) (qs : list Recipe) : list Recipe :=
  match truthy cat with
  | Some c => filter (fun r => String.eqb (category r) c) qs
  | None => qs
  end.

(** The difficulty filter: collect the ids of the rows of [qs] whose computed
    difficulty matches, then [qs.filter(id__in=filtered_recipes)]. *)
Definition filter_difficulty (diff : option string) (qs : list Recipe) : list Recipe :=
  match truthy diff with
  | Some d =>
      let filtered_recipes :=
        fold_left (fun acc r => if String.eqb (difficulty r) d then List.app acc [id r] else acc)
                  qs [] in
      filter (fun r => existsb (Z.eqb (id r)) filtered_recipes) qs
  | None => qs
  end.

(** [qs = Recipe.objects.all()] followed by the four filters in source order. *)
Definition search (store : list Recipe)
    (recipe_name ingredient cat diff : option string) : list Recipe :=
  let qs := store in
  let qs := filter_name recipe_name qs in
  let qs := filter_ingredient ingredient qs in
  let qs := filter_category cat qs in
  filter_difficulty diff qs.

(** A Python call that returns a value or raises. *)
Inductive PyResult (A : Type) :=
  | Ok (a : A)
  | Raise (exc : string).
Arguments Ok {A} a.
Arguments Raise {A} exc.

(** ** The pyplot state machine used by [get_chart] ([apps/recipe/utils.py]) *)

(** Drawing calls recorded on a figure. Sizes are in tenths of an inch and
    [alpha] in percent, to stay in integers. *)
Inductive Artist :=
  | ABar (xs : list string) (heights : list Z) (color : string)
  | APie (sizes : list Z) (labels : list string) (autopct : string)
         (colors : list string) (startangle : Z)
  | ALine (xs : list string) (ys : list Z) (marker color : string)
          (linewidth markersize : Z)
  | AXLabel (text : string) (fontsize : Z)
  | AYLabel (text : string) (fontsize : Z)
  | ATitle (text : string) (fontsize : Z) (fontweight : string)
  | AXTicks (rotation : Z) (ha : string)
  | AGrid (visible : bool) (alpha_pct : Z).

Record Figure := mkFigure {
  figsize : Z * Z;
  artists : list Artist;
  tight : bool
}.

(** [rcParams['figure.figsize'] = (6.4, 4.8)] *)
Definition default_figure : Figure := mkFigure (64, 48) [] false.

(** Global pyplot state: the backend, the open figures (the current one
    first) and what has been printed to stdout. *)
Record Pyplot := mkPyplot {
  backend : string;
  figures : list Figure;
  stdout : list string
}.

(** [plt.switch_backend(newbackend)] of matplotlib 3.10: [rcParams['backend']]
    becomes [newbackend] as given (its validation does not lower-case it), and
    [close("all")] runs unless the old value is the same string
    ([cbook._str_equal(old_backend, newbackend)]). *)
Definition switch_backend (newbackend : string) (st : Pyplot) : Pyplot :=
  if String.eqb (backend st) newbackend
  then mkPyplot newbackend (figures st) (stdout st)
  else mkPyplot newbackend [] (stdout st).

(** Apply [f] to the current figure, creating one first if none is open
    ([plt.gcf()]). *)
Definition update_current (f : Figure -> Figure) (st : Pyplot) : Pyplot :=
  match figures st with
  | [] => mkPyplot (backend st) [f default_figure] (stdout st)
  | fig :: rest => mkPyplot (backend st) (f fig :: rest) (stdout st)
  end.

(** [plt.clf()] *)
Definition clf (st : Pyplot) : Pyplot :=
  update_current (fun fig => mkFigure (figsize fig) [] false) st.

(** [plt.figure(figsize=sz)]: a new figure, made current. *)
Definition new_figure (sz : Z * Z) (st : Pyplot) : Pyplot :=
  mkPyplot (backend st) (mkFigure sz [] false :: figures st) (stdout st).

(** Any drawing call on the current axes. *)
Definition draw (a : Artist) (st : Pyplot) : Pyplot :=
  update_current (fun fig => mkFigure (figsize fig) (artists fig ++ [a])%list (tight fig)) st.

(** [plt.tight_layout()] *)
Definition tight_layout (st : Pyplot) : Pyplot :=
  update_current (fun fig => mkFigure (figsize fig) (artists fig) true) st.

(** [print(s)] *)
Definition py_print (s : string) (st : Pyplot) : Pyplot :=
  mkPyplot (backend st) (figures st) (stdout st ++ [s])%list.

Definition current_figure (st : Pyplot) : Figure :=
  match figures st with
  | fig :: _ => fig
  | [] => default_figure
  end.

(** ** PNG output and base64 *)

(** The eight-byte PNG file signature: 89 50 4E 47 0D 0A 1A 0A. *)
Definition png_signature : list byte := [x89; x50; x4e; x47; x0d; x0a; x1a; x0a].

Definition b64_alphabet : string :=
  "ABCDEFGHIJKLMNOPQRSTUVWXYZabcdefghijklmnopqrstuvwxyz0123456789+/".

Definition b64_char (n : N) : ascii :=
  match String.get (N.to_nat (N.modulo n 64)) b64_alphabet with
  | Some c => c
  | None => "="%char
  end.

(** [base64.b64encode(bs).decode('utf-8')] *)
Fixpoint b64encode (bs : list byte) : string :=
  match bs with
  | b1 :: b2 :: b3 :: rest =>
      let n := (Byte.to_N b1 * 65536 + Byte.to_N b2 * 256 + Byte.to_N b3)%N in
      String (b64_char (n / 262144)) (String (b64_char (n / 4096))
        (String (b64_char (n / 64)) (String (b64_char n) (b64encode rest))))
  | [b1; b2] =>
      let n := (Byte.to_N b1 * 65536 + Byte.to_N b2 * 256)%N in
      String (b64_char (n / 262144)) (String (b64_char (n / 4096))
        (String (b64_char (n / 64)) "="))
  | [b1] =>
      let n := (Byte.to_N b1 * 65536)%N in
      String (b64_char (n / 262144)) (String (b64_char (n / 4096)) "==")
  | [] => ""
  end.

(** ** Pandas data for the charts *)

(** A row of [recipes_df]: the fields of [qs.values()] plus the two computed
    columns [difficulty] and [ingredients_count]. *)
Record Row := mkRow {
  row_recipe : Recipe;
  row_difficulty : string;
  row_ingredients_count : Z
}.

(** [recipes_df = pd.DataFrame(qs.values())] with the two added columns. *)
Definition annotate (qs : list Recipe) : list Row :=
  map (fun r => mkRow r (difficulty r) (Z.of_nat (List.length (ingredients_list (ingredients r)))))
      qs.

(** Occurrence counts in first-appearance order. *)
Fixpoint count_values (xs : list string) (acc : list (string * Z)) : list (string * Z) :=
  match xs with
  | [] => acc
  | x :: t =>
      let acc' :=
        if existsb (fun kv => String.eqb (fst kv) x) acc
        then map (fun kv => if String.eqb (fst kv) x then (fst kv, snd kv + 1) else kv) acc
        else (acc ++ [(x, 1)])%list in
      count_values t acc'
  end.

(** Stable insertion by descending count. *)
Fixpoint insert_desc (kv : string * Z) (l : list (string * Z)) : list (string * Z) :=
  match l with
  | [] => [kv]
  | h :: t => if snd h <? snd kv then kv :: h :: t else h :: insert_desc kv t
  end.

(** [Series.value_counts()]: counts sorted by descending frequency, ties in
    first-appearance order. *)
Definition value_counts (xs : list string) : list (string * Z) :=
  fold_left (fun l kv => insert_desc kv l) (count_values xs []) [] .
(** ** [get_graph], [get_chart] and the list view *)

Section Charts.

(** The Agg rasteriser of matplotlib (an external library): the PNG chunks
    written after the signature for a figure. *)
Variable agg_render : Figure -> list byte.

(** [plt.savefig(buffer, format='png')] on the current figure. *)
Definition savefig_png (st : Pyplot) : list byte :=
  (png_signature ++ agg_render (current_figure st))%list.

(** [get_graph()]: the base64 text of the PNG; pyplot state is unchanged. *)
Definition get_graph (st : Pyplot) : string :=
  b64encode (savefig_png st).

Definition names_of (data : list Row) : list string :=
  map (fun rw => name (row_recipe rw)) data.

Definition cooking_times_of (data : list Row) : list Z :=
  map (fun rw => cooking_time (row_recipe rw)) data.

(** Python [chart_type == lit]; [None == '#1'] is [False]. *)
Definition py_eq (v : option string) (lit : string) : bool :=
  match v with
  | Some s => String.eqb s lit
  | None => false
  end.

(** The [if / elif / else] on [chart_type] in [get_chart]. [plt.pie] raises
    [ValueError('All wedge sizes are zero')] when the sizes sum to 0 (no
    rows), before it draws anything; the result says whether the branch
    raised. *)
Definition draw_chart (chart_type : option string) (data : list Row) (st : Pyplot)
    : PyResult unit * Pyplot :=
  if py_eq chart_type "#1" then
    let st := draw (ABar (names_of data) (cooking_times_of data) "#3498db") st in
    let st := draw (AXLabel "Recipe Name" 12) st in
    let st := draw (AYLabel "Cooking Time (minutes)" 12) st in
    let st := draw (ATitle "Cooking Time by Recipe" 14 "bold") st in
    (Ok tt, draw (AXTicks 45 "right") st)
  else if py_eq chart_type "#2" then
    let colors := ["#2ecc71"; "#f39c12"; "#e67e22"; "#e74c3c"] in
    let vc := value_counts (map row_difficulty data) in
    if Z.eqb (fold_right Z.add 0 (map snd vc)) 0 then (Raise "ValueError", st)
    else
      let st := draw (APie (map snd vc) (map fst vc) "%1.1f%%" colors 90) st in
      (Ok tt, draw (ATitle "Recipe Distribution by Difficulty" 14 "bold") st)
  else if py_eq chart_type "#3" then
    let st := draw (ALine (names_of data) (cooking_times_of data) "o" "#9b59b6" 2 8) st in
    let st := draw (AXLabel "Recipe Name" 12) st in
    let st := draw (AYLabel "Cooking Time (minutes)" 12) st in
    let st := draw (ATitle "Cooking Time Trend" 14 "bold") st in
    let st := draw (AXTicks 45 "right") st in
    (Ok tt, draw (AGrid true 30) st)
  else (Ok tt, py_print "Unknown chart type" st).

(** [get_chart(chart_type, data, **kwargs)]: returns the chart text, or the
    exception it raises, and the pyplot state after the call. [labels] is
    read but not used, as in the source. *)
Definition get_chart (chart_type : option string) (data : list Row) (labels : list string)
    (st : Pyplot) : PyResult string * Pyplot :=
  let st := switch_backend "AGG" st in
  let st := clf st in
  let st := new_figure (80, 50) st in
  match draw_chart chart_type data st with
  | (Raise e, st) => (Raise e, st)
  | (Ok _, st) =>
      let st := tight_layout st in
      (Ok (get_graph st), st)
  end.

(** An HTTP request as the view sees it. *)
Record Request := mkRequest {
  method : string;
  GET : QueryDict;
  POST : QueryDict
}.

(** The part of the template context built by the search: [recipes_df]
    (kept as its rows; the view renders the columns name, cooking_time,
    difficulty, ingredients_count and category with [to_html]) and [chart]. *)
Record SearchContext := mkSearchContext {
  recipes_df : option (list Row);
  chart : option string
}.

(** The request data: [request.POST], [request.GET] or [None]. *)
Definition request_data (req : Request) : option QueryDict :=
  if String.eqb (method req) "POST" then Some (POST req)
  else if String.eqb (method req) "GET" then Some (GET req)
  else None.

(** [RecipeListView.get_context_data], search and chart part (views.py 153-239).
    [store] is the recipe table, [st] the global pyplot state; an exception
    of [get_chart] propagates. *)
Definition get_context_data (req : Request) (store : list Recipe) (st : Pyplot)
    : PyResult SearchContext * Pyplot :=
  let data := request_data req in
  let form := form_data data in
  if existsb (String.eqb (method req)) ["POST"; "GET"] && RecipeSearchForm_is_valid form then
    let d := match data with Some d => d | None => [] end in
    let recipe_name := qd_get d "recipe_name" in
    let ingredient := qd_get d "ingredient" in
    let chart_type := qd_get d "chart_type" in
    let diff := qd_get d "difficulty" in
    let cat := qd_get d "category" in
    let qs := search store recipe_name ingredient cat diff in
    match qs with
    | [] => (Ok (mkSearchContext None None), st)
    | _ :: _ =>
        let df := annotate qs in
        match get_chart chart_type df (names_of df) st with
        | (Ok c, st') => (Ok (mkSearchContext (Some df) (Some c)), st')
        | (Raise e, st') => (Raise e, st')
        end
    end
  else (Ok (mkSearchContext None None), st).

(** [RecipeListView.get]: the list view renders the context. *)
Definition list_get (req : Request) (store : list Recipe) (st : Pyplot)
    : PyResult SearchContext * Pyplot :=
  get_context_data req store st.

(** [RecipeListView.post]: [return self.get(request, *args, **kwargs)]. *)
Definition list_post (req : Request) (store : list Recipe) (st : Pyplot)
    : PyResult SearchContext * Pyplot :=
  list_get req store st.

End Charts.

(** ** [get_recipename_from_id] ([apps/recipe/utils.py]) *)

(** Outcome of [Recipe.objects.get(...)]. *)
Inductive GetResult :=
  | Found (r : Recipe)
  | DoesNotExist
  | MultipleObjectsReturned.

(** [Recipe.objects.get(id=val)] *)
Definition objects_get_id (store : list Recipe) (val : Z) : GetResult :=
  match filter (fun r => Z.eqb (id r) val) store with
  | [] => DoesNotExist
  | [r] => Found r
  | _ => MultipleObjectsReturned
  end.

(** [get_recipename_from_id(val)]: only [Recipe.DoesNotExist] is caught. *)
Definition get_recipename_from_id (store : list Recipe) (val : Z) : PyResult string :=
  match objects_get_id store val with
  | Found recipename => Ok (name recipename)
  | DoesNotExist => Ok "Unknown Recipe"
  | MultipleObjectsReturned => Raise "MultipleObjectsReturned"
  end.

(** ** Creating and changing recipes *)

(** [Recipe(...)] with the model defaults: [category] defaults to ['lunch']. *)
Definition new_recipe (i : Z) (nm : string) (ct : Z) (ingr : string)
    (descr : option string) (cat : option string) (u : Z) : Recipe :=
  mkRecipe i nm ct ingr descr (match cat with Some c => c | None => "lunch" end) u.

Definition digit_value (c : ascii) : option Z :=
  let n := nat_of_ascii c in
  if (48 <=? n)%nat && (n <=? 57)%nat then Some (Z.of_nat n - 48) else None.

(** The whitespace [int()] skips: [Py_ISSPACE] on ASCII (space and \t .. \r)
    and, in a string with non-ASCII characters, NEL (\x85) and NBSP (\xa0),
    which [_PyUnicode_TransformDecimalAndSpaceToASCII] turns into spaces. *)
Definition int_space (c : ascii) : bool :=
  let n := nat_of_ascii c in
  (n =? 32)%nat || ((9 <=? n)%nat && (n <=? 13)%nat) || (n =? 133)%nat || (n =? 160)%nat.

Fixpoint skip_int_space (s : string) : string :=
  match s with
  | EmptyString => EmptyString
  | String c t => if int_space c then skip_int_space t else s
  end.

(** The loop of [long_from_string_base] for base 10: digits with single
    underscores between them. Returns the value, the number of digits and
    the rest of the string. *)
Fixpoint scan_digits (s : string) (prev_us : bool) (acc : Z) (digits : nat)
    : option (Z * nat * string) :=
  match s with
  | EmptyString => if prev_us then None else Some (acc, digits, EmptyString)
  | String c t =>
      if Ascii.eqb c "_" then
        if prev_us then None else scan_digits t true acc digits
      else match digit_value c with
           | Some v => scan_digits t false (acc * 10 + v) (S digits)
           | None => if prev_us then None else Some (acc, digits, s)
           end
  end.

(** [int(s)] for a [str] (CPython [PyLong_FromString], base 10): leading and
    trailing whitespace, an optional sign, no leading underscore, at least one
    digit and at most [sys.get_int_max_str_digits()] = 4300 digits. [None] is
    [ValueError]. *)
Definition py_int (s : string) : option Z :=
  let s := skip_int_space s in
  let '(sign, s) :=
    match s with
    | String "+" t => (1, t)
    | String "-" t => (-1, t)
    | _ => (1, s)
    end in
  match s with
  | String "_" _ => None
  | _ =>
      match scan_digits s false 0 0 with
      | Some (v, digits, rest) =>
          if (digits =? 0)%nat then None
          else if negb (String.eqb (skip_int_space rest) "") then None
          else if (4300 <? digits)%nat then None
          else Some (sign * v)
      | None => None
      end
  end.

(** [s] is in [0*\s*]. *)
Fixpoint zeros_then_space (s : string) : bool :=
  match s with
  | EmptyString => true
  | String c t => if Ascii.eqb c "0" then zeros_then_space t else all_space s
  end.

(** [IntegerField.re_decimal.sub('', s)] with [re_decimal = r'\.0*\s*$']:
    a '.' followed only by zeros and then whitespace is removed with all that
    follows it (at most one '.' can match, since no '.' follows it). *)
Fixpoint strip_decimal (s : string) : string :=
  match s with
  | EmptyString => EmptyString
  | String c t =>
      if Ascii.eqb c "." && zeros_then_space t then EmptyString
      else String c (strip_decimal t)
  end.

(** The form field of [cooking_time], [forms.IntegerField(min_value=0)]
    ([PositiveIntegerField.formfield]): [to_python] gives [None] for a missing
    value or [''] (a required error) and otherwise
    [int(re_decimal.sub('', str(value)))]; [MinValueValidator(0)] follows. The
    model field's validators, run by [full_clean] in [ModelForm._post_clean],
    add SQLite's range of a [PositiveIntegerField], 0 .. 9223372036854775807.
    [None] is a form error. *)
Definition clean_positive_int (v : option string) : option Z :=
  match v with
  | None => None
  | Some s =>
      if String.eqb s "" then None
      else match py_int (strip_decimal s) with
           | Some n => if (0 <=? n) && (n <=? 9223372036854775807) then Some n else None
           | None => None
           end
  end.

(** A required [forms.CharField] (stripped), with an optional max length and
    [ProhibitNullCharactersValidator]. *)
Definition clean_required_char (max_length : option nat) (v : option string) : option string :=
  match v with
  | None => None
  | Some s =>
      let s' := strip s in
      if String.eqb s' "" then None
      else if has_nul s' then None
      else match max_length with
           | Some m => if (String.length s' <=? m)%nat then Some s' else None
           | None => Some s'
           end
  end.

(** The optional [description] field, [TextField(blank=True, null=True)]: its
    form field is a [forms.CharField(required=False)] whose empty value is
    [''] ([TextField.formfield] sets no [empty_value=None]), so a blank or
    missing description is saved as [''], not as NULL. [None] is a form error
    (a NUL character). *)
Definition clean_description (v : option string) : option string :=
  match v with
  | None => Some ""
  | Some s =>
      let s' := strip s in
      if String.eqb s' "" then Some ""
      else if has_nul s' then None
      else Some s'
  end.

(** The required [TypedChoiceField] of [category] (no blank choice, since the
    model field has a default and [blank=False]). *)
Definition clean_category (v : option string) : option string :=
  match v with
  | Some s =>
      if existsb (fun c => String.eqb (fst c) s) CATEGORY_CHOICES then Some s else None
  | None => None
  end.

(** The cleaned fields of the recipe [ModelForm] (name, cooking_time,
    ingredients, description, category), or [None] when a field has an
    error and the form is re-rendered. *)
Definition clean_recipe_form (d : QueryDict)
    : option (string * Z * string * string * string) :=
  match clean_required_char (Some 120%nat) (qd_get d "name"),
        clean_positive_int (qd_get d "cooking_time"),
        clean_required_char None (qd_get d "ingredients"),
        clean_description (qd_get d "description"),
        clean_category (qd_get d "category") with
  | Some nm, Some ct, Some ingr, Some descr, Some cat => Some (nm, ct, ingr, descr, cat)
  | _, _, _, _, _ => None
  end.

(** The recipe table on SQLite: its rows in primary-key order and the
    [sqlite_sequence] value of its [AUTOINCREMENT] primary key (0 while the
    table never had a row). *)
Record Table := mkTable {
  rows : list Recipe;
  sqlite_seq : Z
}.

Definition max_id (rs : list Recipe) : Z :=
  fold_left (fun m r => Z.max m (id r)) rs 0.

(** The key SQLite gives a new row of an [AUTOINCREMENT] table: one more than
    the larger of [sqlite_sequence] and the largest key in the table; when
    that is 9223372036854775807 the insert fails with [SQLITE_FULL]. *)
Definition next_id (t : Table) : option Z :=
  let m := Z.max (sqlite_seq t) (max_id (rows t)) in
  if 9223372036854775807 <=? m then None else Some (m + 1).

(** [INSERT] of the row [mk i] under the new key [i], which becomes the
    [sqlite_sequence] value; [None] when the insert fails. *)
Definition insert_row (t : Table) (mk : Z -> Recipe) : option Table :=
  match next_id t with
  | Some i => Some (mkTable (rows t ++ [mk i])%list i)
  | None => None
  end.

(** [RecipeCreateView.form_valid]: the owner is the current user and the new
    row is appended. An invalid form, or an insert that fails (the request
    ends with [OperationalError]), leaves the table unchanged. *)
Definition create_via_form (t : Table) (d : QueryDict) (owner : Z) : Table :=
  match clean_recipe_form d with
  | Some (nm, ct, ingr, descr, cat) =>
      match insert_row t (fun i => new_recipe i nm ct ingr (Some descr) (Some cat) owner) with
      | Some t' => t'
      | None => t
      end
  | None => t
  end.

(** The admin change form for the recipe with primary key [pk]. *)
Definition change_via_admin (t : Table) (pk : Z) (d : QueryDict) : Table :=
  match clean_recipe_form d with
  | Some (nm, ct, ingr, descr, cat) =>
      mkTable (map (fun r => if Z.eqb (id r) pk
                             then mkRecipe (id r) nm ct ingr (Some descr) cat (user r) else r)
                   (rows t))
              (sqlite_seq t)
  | None => t
  end.

(** The admin's delete of the recipe with primary key [pk]
    ([sqlite_sequence] is kept). *)
Definition delete_via_admin (t : Table) (pk : Z) : Table :=
  mkTable (filter (fun r => negb (Z.eqb (id r) pk)) (rows t)) (sqlite_seq t).

(** Deleting the user [u]: [on_delete=models.CASCADE] deletes their recipes. *)
Definition delete_user (t : Table) (u : Z) : Table :=
  mkTable (filter (fun r => negb (Z.eqb (user r) u)) (rows t)) (sqlite_seq t).

(** [SAMPLE_RECIPES] of the [load_sample_recipes] command. *)
Definition SAMPLE_RECIPES : list (string * Z * string * string) :=
  [("Classic Pancakes", 15, "flour, milk, egg, sugar, baking powder, butter", "breakfast");
   ("Veggie Omelette", 10, "egg, bell pepper, onion, tomato, cheese", "breakfast");
   ("Grilled Chicken", 30, "chicken, olive oil, garlic, lemon, pepper, salt", "dinner");
   ("Tomato Pasta", 25, "pasta, tomato, garlic, basil, olive oil, parmesan", "lunch");
   ("Beef Stir Fry", 20, "beef, soy sauce, broccoli, carrot, garlic, ginger", "dinner");
   ("Fruit Salad", 8, "apple, banana, orange, grapes, honey, mint", "snack");
   ("Avocado Toast", 7, "bread, avocado, lemon, chili flakes, salt", "breakfast");
   ("Chocolate Brownies", 40, "flour, cocoa, sugar, egg, butter, chocolate", "dessert");
   ("Caesar Salad", 12, "lettuce, croutons, parmesan, chicken, caesar dressing", "lunch");
   ("Fish Tacos", 25, "fish, tortilla, cabbage, lime, salsa, avocado", "dinner");
   ("Lentil Soup", 35, "lentils, carrot, onion, celery, garlic, cumin", "lunch");
   ("Banana Smoothie", 5, "banana, milk, honey, ice", "snack");
   ("Margarita Pizza", 18, "pizza dough, tomato, mozzarella, basil, olive oil", "dinner");
   ("Chicken Biryani", 60, "rice, chicken, yogurt, onion, spices, saffron", "dinner");
   ("Veggie Sandwich", 10, "bread, cucumber, tomato, lettuce, mayo, cheese", "lunch")].

(** [Recipe.objects.get_or_create(name=nm, defaults={...})]: [Some t']
    or [None] when [MultipleObjectsReturned] is raised or the insert fails. *)
Definition get_or_create (t : Table) (nm : string) (ct : Z) (ingr : string)
    (descr : option string) (cat : string) (owner : Z) : option Table :=
  match filter (fun r => String.eqb (name r) nm) (rows t) with
  | [] => insert_row t (fun i => new_recipe i nm ct ingr descr (Some cat) owner)
  | [_] => Some t
  | _ => None
  end.

(** [Command.handle] of [load_sample_recipes]: the loop stops at the first
    exception, keeping the rows already created. *)
Fixpoint load_samples (samples : list (string * Z * string * string))
    (t : Table) (owner : Z) : Table :=
  match samples with
  | [] => t
  | (nm, ct, ingr, cat) :: rest =>
      let descr := Some ("Delicious " ++ nm ++ " recipe. Easy to make and perfect for any occasion!") in
      match get_or_create t nm ct ingr descr cat owner with
      | Some t' => load_samples rest t' owner
      | None => t
      end
  end.

(** The operations of the application that write the recipe table. *)
Inductive StoreOp :=
  | FormCreate (d : QueryDict) (owner : Z)
  | AdminChange (pk : Z) (d : QueryDict)
  | AdminDelete (pk : Z)
  | UserDelete (u : Z)
  | LoadSampleRecipes (owner : Z).

Definition store_step (t : Table) (op : StoreOp) : Table :=
  match op with
  | FormCreate d owner => create_via_form t d owner
  | AdminChange pk d => change_via_admin t pk d
  | AdminDelete pk => delete_via_admin t pk
  | UserDelete u => delete_user t u
  | LoadSampleRecipes owner => load_samples SAMPLE_RECIPES t owner
  end.

Definition run_ops (t : Table) (ops : list StoreOp) : Table :=
  fold_left store_step ops t.

(** The data-model invariants of a stored recipe. *)
Definition recipe_invariant (r : Recipe) : bool :=
  (0 <=? cooking_time r)
  && existsb (fun c => String.eqb (fst c) (category r)) CATEGORY_CHOICES
  && (String.length (name r) <=? 120)%nat.

(** ** Auxiliary predicates used in statements *)

(** A string that neither starts nor ends with whitespace. *)
Definition trimmed (t : string) : Prop :=
  match t with
  | EmptyString => True
  | String c _ => is_space c = false
  end
  /\ (t = "" \/ exists u c, t = u ++ String c "" /\ is_space c = false).

(** A supplied filter value [v] admits a row when [p] holds of the value; an
    absent value ([None] or [''], falsy in Python) admits every row. *)
Definition passes (v : option string) (p : string -> bool) : bool :=
  match truthy v with
  | Some t => p t
  | None => true
  end.

(** Going from table [t] to table [t'] keeps primary keys unique and the
    [sqlite_sequence] value at least the largest key, never lowers that
    value, and every key of [t'] is a key of [t] or above the old
    [sqlite_sequence] value: no key is reused. *)
Definition ids_ok (t t' : Table) : Prop :=
  (NoDup (map id (rows t)) -> NoDup (map id (rows t')))
  /\ max_id (rows t') <= sqlite_seq t'
  /\ sqlite_seq t <= sqlite_seq t'
  /\ (forall r, In r (rows t') -> In (id r) (map id (rows t)) \/ sqlite_seq t < id r).

(** A three-row table used by the examples and witnesses. *)
Definition sample_store : list Recipe :=
  [mkRecipe 1 "Spaghetti Carbonara" 20 "spaghetti, egg, pecorino, guanciale, pepper" None "dinner" 1;
   mkRecipe 2 "Banana Smoothie" 5 "banana, milk, honey, ice" None "snack" 1;
   mkRecipe 3 "Tomato Soup" 9 "tomato, onion, salt" None "lunch" 2].

(** The current figure of two pyplot states is the same open figure. *)
Definition same_head (st1 st2 : Pyplot) : Prop :=
  exists fig, hd_error (figures st1) = Some fig /\ hd_error (figures st2) = Some fig.

Definition sample_df : list Row := annotate sample_store.

(** A pyplot state with no open figure. *)
Definition st0 : Pyplot := mkPyplot "agg" [] [].

(** The keys the search reads from the request data. *)
Definition search_keys : list string :=
  ["recipe_name"; "ingredient"; "chart_type"; "difficulty"; "category"].

(** A row of [SAMPLE_RECIPES] meets the invariants. *)
Definition sample_ok (sample : string * Z * string * string) : bool :=
  let '(nm, ct, ingr, cat) := sample in
  recipe_invariant (new_recipe 0 nm ct ingr None (Some cat) 0).

(** ** Pagination, querystring, base64 and the recipe table *)

(** A table of 13 recipes: two pages of the list view. *)
Definition soup_store : list Recipe :=
  map (fun i => mkRecipe (Z.of_nat i) "Vegetable Soup" 30 "carrot, onion, celery, water"
                         None "lunch" 1) (seq 1 13).


(** ** The pagination querystring of the list view (views.py 241-251) *)

(** [params.pop('page')]: the key goes with all its values. *)
Definition qd_pop (key : string) (d : QueryDict) : QueryDict :=
  filter (fun kv => negb (String.eqb (fst kv) key)) d.

(** The keys of a [MultiValueDict] in order of first insertion. *)
Fixpoint qd_keys (d : QueryDict) : list string :=
  match d with
  | [] => []
  | (k, _) :: t => k :: filter (fun k' => negb (String.eqb k' k)) (qd_keys t)
  end.

(** [MultiValueDict.lists()]: each key with its values in insertion order. *)
Definition qd_lists (d : QueryDict) : list (string * list string) :=
  map (fun k => (k, map snd (filter (fun kv => String.eqb (fst kv) k) d))) (qd_keys d).

(** The [(key, value)] items of [lists()], one per value. *)
Definition qd_items (l : list (string * list string)) : QueryDict :=
  flat_map (fun kl => map (fun v => (fst kl, v)) (snd kl)) l.

(** [str.encode('utf-8')] of the 8-bit characters of this model. *)
Definition utf8_char (c : ascii) : list N :=
  let n := N_of_ascii c in
  if (n <? 128)%N then [n] else [(192 + n / 64)%N; (128 + n mod 64)%N].

Fixpoint utf8 (s : string) : list N :=
  match s with
  | EmptyString => []
  | String c t => (utf8_char c ++ utf8 t)%list
  end.

(** [urllib.parse._ALWAYS_SAFE]: ASCII letters, digits and [_.-~]. *)
Definition always_safe (b : N) : bool :=
  ((65 <=? b) && (b <=? 90))%N || ((97 <=? b) && (b <=? 122))%N
  || ((48 <=? b) && (b <=? 57))%N
  || (b =? 95)%N || (b =? 46)%N || (b =? 45)%N || (b =? 126)%N.

Definition hex_digit (n : N) : ascii :=
  match String.get (N.to_nat n) "0123456789ABCDEF" with
  | Some c => c
  | None => "0"%char
  end.

(** [quote_plus(bytes, safe='')] on one byte: a safe byte stands for itself,
    the space becomes [+] and any other byte [%XX] (upper-case hex). *)
Definition quote_plus_byte (b : N) : string :=
  if always_safe b then String (ascii_of_N b) ""
  else if (b =? 32)%N then "+"
  else String "%" (String (hex_digit (b / 16)) (String (hex_digit (b mod 16)) "")).

Fixpoint quote_plus (bs : list N) : string :=
  match bs with
  | [] => ""
  | b :: t => quote_plus_byte b ++ quote_plus t
  end.

(** The [encode(k, v)] of [QueryDict.urlencode()]: [urlencode({k: v})] on the
    UTF-8 bytes of the key and the value. *)
Definition encode_pair (k v : string) : string :=
  quote_plus (utf8 k) ++ "=" ++ quote_plus (utf8 v).

(** ['&'.join(output)] *)
Fixpoint join_amp (xs : list string) : string :=
  match xs with
  | [] => ""
  | [x] => x
  | x :: t => x ++ "&" ++ join_amp t
  end.

(** [QueryDict.urlencode()] *)
Definition qd_urlencode (d : QueryDict) : string :=
  join_amp (flat_map (fun kl => map (encode_pair (fst kl)) (snd kl)) (qd_lists d)).

(** [context['querystring']] of [RecipeListView.get_context_data]. *)
Definition querystring (req : Request) : string :=
  let params := if String.eqb (method req) "GET" then GET req else POST req in
  let params :=
    if existsb (fun kv => String.eqb (fst kv) "page") params then qd_pop "page" params
    else params in
  let q := qd_urlencode params in
  if String.eqb q "" then "" else "&" ++ q.

(** *** Parsing a query string back: [QueryDict(query_string)] *)

Definition hex_value (c : ascii) : option N :=
  let n := N_of_ascii c in
  if ((48 <=? n) && (n <=? 57))%N then Some (n - 48)%N
  else if ((65 <=? n) && (n <=? 70))%N then Some (n - 55)%N
  else if ((97 <=? n) && (n <=? 102))%N then Some (n - 87)%N
  else None.

(** [urllib.parse._unquote_impl] on a run of ASCII characters: [%XX] with two
    hex digits is the byte [XX]; any other [%] is kept. *)
Fixpoint pct_decode (s : string) : list N :=
  match s with
  | EmptyString => []
  | String c t =>
      if Ascii.eqb c "%" then
        match t with
        | String a (String b u) =>
            match hex_value a, hex_value b with
            | Some x, Some y => (x * 16 + y)%N :: pct_decode u
            | _, _ => 37%N :: pct_decode t
            end
        | _ => 37%N :: pct_decode t
        end
      else N_of_ascii c :: pct_decode t
  end.

(** [bytes.decode('utf-8', 'replace')] where the result is in the 8-bit range
    of this model; [None] when Python would produce any other character
    (a code point above U+00FF, or U+FFFD for an invalid sequence). *)
Fixpoint utf8_decode (bs : list N) : option string :=
  match bs with
  | [] => Some ""
  | b :: t =>
      if (b <? 128)%N then option_map (String (ascii_of_N b)) (utf8_decode t)
      else match t with
           | c :: t' =>
               if ((b =? 194) || (b =? 195))%N && (128 <=? c)%N && (c <? 192)%N then
                 option_map (String (ascii_of_N ((b - 192) * 64 + (c - 128))))
                            (utf8_decode t')
               else None
           | [] => None
           end
  end.

(** [urllib.parse._generate_unquoted_parts]: each maximal run of ASCII
    characters is percent-decoded and decoded as UTF-8; other characters are
    kept. [run] is the ASCII run read so far. *)
Fixpoint unquote_runs (s : string) (run : string) : option string :=
  match s with
  | EmptyString => utf8_decode (pct_decode run)
  | String c t =>
      if (nat_of_ascii c <? 128)%nat then unquote_runs t (run ++ String c "")
      else match utf8_decode (pct_decode run), unquote_runs t "" with
           | Some a, Some b => Some (a ++ String c b)
           | _, _ => None
           end
  end.

(** [urllib.parse.unquote(s)] *)
Definition unquote (s : string) : option string :=
  if contains s "%" then unquote_runs s "" else Some s.

Fixpoint replace_plus (s : string) : string :=
  match s with
  | EmptyString => EmptyString
  | String c t => String (if Ascii.eqb c "+" then " "%char else c) (replace_plus t)
  end.

(** [urllib.parse.unquote_plus(s)] *)
Definition unquote_plus (s : string) : option string := unquote (replace_plus s).

(** [name_value.split('=', 1)] *)
Fixpoint split_eq (s : string) : string * option string :=
  match s with
  | EmptyString => ("", None)
  | String c t =>
      if Ascii.eqb c "=" then ("", Some t)
      else let (a, b) := split_eq t in (String c a, b)
  end.

(** The loop of [parse_qsl] with [keep_blank_values=True]: empty pieces are
    skipped, a piece without [=] has the empty value. *)
Fixpoint parse_pairs (pieces : list string) : option QueryDict :=
  match pieces with
  | [] => Some []
  | p :: ps =>
      if String.eqb p "" then parse_pairs ps
      else
        let (nm, v) := split_eq p in
        let v := match v with Some v => v | None => "" end in
        match unquote_plus nm, unquote_plus v, parse_pairs ps with
        | Some a, Some b, Some r => Some ((a, b) :: r)
        | _, _, _ => None
        end
  end.

Fixpoint count_char (c : ascii) (s : string) : nat :=
  match s with
  | EmptyString => 0
  | String d t => (if Ascii.eqb d c then 1 else 0) + count_char c t
  end.

(** Outcome of [QueryDict(query_string)]. *)
Inductive QueryParse :=
  | QOk (d : QueryDict)
  | QTooManyFields          (* [TooManyFieldsSent], a 400 response *)
  | QOutOfModel.            (* a character outside the 8-bit range of this model *)

(** [QueryDict(query_string)] (Django 5.2): [parse_qsl(query_string,
    keep_blank_values=True, max_num_fields=DATA_UPLOAD_MAX_NUMBER_FIELDS)]
    with the default limit of 1000 fields and the separator [&]. *)
Definition QueryDict_parse (qs : string) : QueryParse :=
  if negb (String.eqb qs "") && (1000 <? 1 + count_char "&" qs)%nat then QTooManyFields
  else match (if String.eqb qs "" then Some [] else parse_pairs (py_split "&" qs)) with
       | Some d => QOk d
       | None => QOutOfModel
       end.


Fixpoint str_forall (p : ascii -> bool) (s : string) : bool :=
  match s with
  | EmptyString => true
  | String c t => p c && str_forall p t
  end.

Definition ascii7 (c : ascii) : bool := (nat_of_ascii c <? 128)%nat.

Definition no_amp_eq (c : ascii) : bool := negb (Ascii.eqb c "&") && negb (Ascii.eqb c "=").

(** The percent-decoding of one quoted byte gives the byte back. *)
Definition decodes_to (b : N) (r : string) : bool :=
  match r with
  | String c EmptyString => negb (Ascii.eqb c "%") && (N_of_ascii c =? b)%N
  | String c (String a (String d EmptyString)) =>
      Ascii.eqb c "%"
      && match hex_value a, hex_value d with
         | Some x, Some y => (x * 16 + y =? b)%N
         | _, _ => false
         end
  | _ => false
  end.

Definition quoted_byte_ok (b : N) : bool :=
  let q := quote_plus_byte b in
  str_forall no_amp_eq q && str_forall ascii7 (replace_plus q)
  && decodes_to b (replace_plus q).

Definition utf8_char_ok (c : ascii) : bool :=
  forallb (fun b => (b <? 256)%N) (utf8_char c)
  && match utf8_char c with
     | [b] => (b <? 128)%N && Ascii.eqb (ascii_of_N b) c
     | [b1; b2] =>
         negb (b1 <? 128)%N && ((b1 =? 194) || (b1 =? 195))%N && (128 <=? b2)%N && (b2 <? 192)%N
         && Ascii.eqb (ascii_of_N ((b1 - 192) * 64 + (b2 - 128))) c
     | _ => false
     end.

Definition enc_item (kv : string * string) : string := encode_pair (fst kv) (snd kv).

Definition key_is (k : string) (kv : string * string) : bool := String.eqb (fst kv) k.

Definition link_query (p : string) (req : Request) : string :=
  encode_pair "page" p ++ querystring req.


(** ** Pagination of the list view ([paginate_by = 12], views.py 101) *)

Definition paginate_by : nat := 12.

(** [Paginator.num_pages] with [orphans=0] and [allow_empty_first_page=True]:
    [ceil(max(1, count) / per_page)]. *)
Definition num_pages (count per_page : nat) : nat :=
  (Nat.max 1 count + per_page - 1) / per_page.

(** [MultipleObjectMixin.paginate_queryset(queryset, page_size)]: the page
    number comes from [self.kwargs.get('page') or self.request.GET.get('page')
    or 1] (the URL pattern has no [page] argument); [int(page)], else
    ['last'], else [Http404]; then [Paginator.page(number)], whose
    [InvalidPage] becomes [Http404]. Returns the page number and the objects
    of the page, [object_list[bottom:top]]. *)
Definition paginate_queryset {A} (object_list : list A) (page_size : nat) (page : option string)
    : PyResult (nat * list A) :=
  let count := List.length object_list in
  let np := num_pages count page_size in
  let page_number :=
    match truthy page with
    | None => Some 1
    | Some s =>
        match py_int s with
        | Some n => Some n
        | None => if String.eqb s "last" then Some (Z.of_nat np) else None
        end
    end in
  match page_number with
  | None => Raise "Http404"
  | Some n =>
      if (n <? 1) || (Z.of_nat np <? n) then Raise "Http404"
      else
        let bottom := ((Z.to_nat n - 1) * page_size)%nat in
        let top := (bottom + page_size)%nat in
        let top := if (count <=? top)%nat then count else top in
        Ok (Z.to_nat n, firstn (top - bottom) (skipn bottom object_list))
  end.

(** The template context of [RecipeListView]: the page ([page_obj.number],
    [object_list], [is_paginated = page.has_other_pages()]), the search part
    and the querystring. *)
Record ListContext := mkListContext {
  page_number : nat;
  page_objects : list Recipe;
  is_paginated : bool;
  search_context : SearchContext;
  querystring_ctx : string
}.

(** [RecipeListView.get]: [get_queryset()] is the whole table;
    [get_context_data] first calls [MultipleObjectMixin.get_context_data],
    which paginates (and may raise [Http404]), then runs the search and the
    chart, then builds the querystring. *)
Definition list_view (agg_render : Figure -> list byte) (req : Request) (store : list Recipe)
    (st : Pyplot) : PyResult ListContext * Pyplot :=
  match paginate_queryset store paginate_by (qd_get (GET req) "page") with
  | Raise e => (Raise e, st)
  | Ok (n, objs) =>
      match get_context_data agg_render req store st with
      | (Ok sc, st') =>
          (Ok (mkListContext n objs
                 ((1 <? n)%nat || (n <? num_pages (List.length store) paginate_by)%nat) sc
                 (querystring req)), st')
      | (Raise e, st') => (Raise e, st')
      end
  end.

(** The objects of a paginated result; nothing for [Http404]. *)
Definition result_objects {A} (r : PyResult (nat * list A)) : list A :=
  match r with
  | Ok (_, objs) => objs
  | Raise _ => []
  end.


(** The total count of [k] in a list of (value, count) pairs. *)
Definition count_of (k : string) (l : list (string * Z)) : Z :=
  fold_right (fun kv s => (if String.eqb (fst kv) k then snd kv else 0) + s) 0 l.

Definition sum_counts (l : list (string * Z)) : Z :=
  fold_right (fun kv s => snd kv + s) 0 l.

Definition pie_colors : list string := ["#2ecc71"; "#f39c12"; "#e67e22"; "#e74c3c"].

Definition bump (x : string) (acc : list (string * Z)) : list (string * Z) :=
  map (fun kv => if String.eqb (fst kv) x then (fst kv, snd kv + 1) else kv) acc.

Definition desc (a b : string * Z) : Prop := snd b <= snd a.


(** [get_chart] called once per element of [calls] (chart type, data,
    labels), each call on the pyplot state the previous one left, as in
    successive requests served by one process (an exception ends only its
    own request). *)
Definition run_charts (agg_render : Figure -> list byte)
    (calls : list (option string * list Row * list string)) (st : Pyplot) : Pyplot :=
  fold_left (fun st c => snd (get_chart agg_render (fst (fst c)) (snd (fst c)) (snd c) st)) calls st.

(** The open figures below the current one are [r] and the backend is [b]. *)
Definition figs_below (b : string) (r : list Figure) (st : Pyplot) : Prop :=
  (exists h, figures st = h :: r) /\ backend st = b.

Definition sample_name (s : string * Z * string * string) : string := fst (fst (fst s)).


Fixpoint str_index (c : ascii) (s : string) (i : N) : option N :=
  match s with
  | EmptyString => None
  | String d t => if Ascii.eqb d c then Some i else str_index c t (i + 1)%N
  end.

Definition b64_index (c : ascii) : option N := str_index c b64_alphabet 0%N.

Fixpoint b64decode (s : string) : option (list N) :=
  match s with
  | EmptyString => Some []
  | String c1 (String c2 (String c3 (String c4 rest))) =>
      if Ascii.eqb c4 "=" && String.eqb rest "" then
        if Ascii.eqb c3 "=" then
          match b64_index c1, b64_index c2 with
          | Some i1, Some i2 =>
              let n := (i1 * 262144 + i2 * 4096)%N in Some [(n / 65536)%N]
          | _, _ => None
          end
        else
          match b64_index c1, b64_index c2, b64_index c3 with
          | Some i1, Some i2, Some i3 =>
              let n := (i1 * 262144 + i2 * 4096 + i3 * 64)%N in
              Some [(n / 65536)%N; ((n / 256) mod 256)%N]
          | _, _, _ => None
          end
      else
        match b64_index c1, b64_index c2, b64_index c3, b64_index c4 with
        | Some i1, Some i2, Some i3, Some i4 =>
            let n := (i1 * 262144 + i2 * 4096 + i3 * 64 + i4)%N in
            option_map (fun r => (n / 65536)%N :: ((n / 256) mod 256)%N :: (n mod 256)%N :: r)
                       (b64decode rest)
        | _, _, _, _ => None
        end
  | _ => None
  end.

(** * Proofs *)

(** ** Difficulty *)

Lemma difficulty_labels_distinct :
  "Easy" <> "Medium" /\ "Easy" <> "Intermediate" /\ "Easy" <> "Hard"
  /\ "Medium" <> "Intermediate" /\ "Medium" <> "Hard" /\ "Intermediate" <> "Hard".
Proof. repeat split; discriminate. Qed.

(** C1: [difficulty] follows the four-row table; each label holds exactly on
    its own region, so the regions partition all inputs with the boundaries
    [10] and [4] on the "not easy" / "not few" side, and the result is always
    one of the four labels. *)
Theorem difficulty_table :
  forall (t : Z) (n : nat),
    (difficulty_of t n = "Easy" <-> t < 10 /\ (n < 4)%nat)
    /\ (difficulty_of t n = "Medium" <-> t < 10 /\ (4 <= n)%nat)
    /\ (difficulty_of t n = "Intermediate" <-> 10 <= t /\ (n < 4)%nat)
    /\ (difficulty_of t n = "Hard" <-> 10 <= t /\ (4 <= n)%nat)
    /\ In (difficulty_of t n) ["Easy"; "Medium"; "Intermediate"; "Hard"].
Proof.
  intros t n. unfold difficulty_of.
  destruct (Z.ltb_spec t 10) as [Ht|Ht];
  destruct (Z.ltb_spec (Z.of_nat n) 4) as [Hn|Hn]; simpl;
  repeat rewrite Z.geb_leb;
  try (destruct (Z.leb_spec 4 (Z.of_nat n)); [|lia]);
  try (destruct (Z.leb_spec 10 t); [|lia]);
  try (destruct (Z.leb_spec 4 (Z.of_nat n)); [lia|]);
  try (destruct (Z.leb_spec 10 t); [lia|]);
  simpl; repeat split; intros; try lia; try discriminate; auto 6.
Qed.

(** ** Ingredient parsing *)

Lemma py_split_not_nil : forall sep s, py_split sep s <> [].
Proof.
  intros sep s; destruct s as [|c t]; simpl; [discriminate|].
  destruct (Ascii.eqb c sep); [discriminate|].
  destruct (py_split sep t); discriminate.
Qed.

Lemma join_comma_cons_char : forall a h r,
  join_comma (String a h :: r) = String a (join_comma (h :: r)).
Proof. intros a h [|x r]; reflexivity. Qed.

Lemma join_py_split : forall s, join_comma (py_split "," s) = s.
Proof.
  induction s as [|c t IH]; [reflexivity|]. simpl.
  destruct (Ascii.eqb_spec c ","%char) as [->|Hc].
  - destruct (py_split "," t) as [|x r] eqn:E.
    + exfalso; exact (py_split_not_nil _ _ E).
    + rewrite <- IH. reflexivity.
  - destruct (py_split "," t) as [|x r] eqn:E.
    + exfalso; exact (py_split_not_nil _ _ E).
    + rewrite join_comma_cons_char. now rewrite IH.
Qed.

Lemma contains_comma_cons : forall a h,
  a <> ","%char -> contains h "," = false -> contains (String a h) "," = false.
Proof.
  intros a h Ha Hh. cbn [contains String.prefix].
  destruct (Ascii.ascii_dec "," a) as [E|_]; [congruence|]. exact Hh.
Qed.

Lemma py_split_no_comma : forall s,
  Forall (fun p => contains p "," = false) (py_split "," s).
Proof.
  induction s as [|c t IH]; simpl; [constructor; [reflexivity|constructor]|].
  destruct (Ascii.eqb_spec c ","%char) as [->|Hc].
  - constructor; [reflexivity|exact IH].
  - destruct (py_split "," t) as [|x r] eqn:E.
    + constructor; [|constructor]. apply contains_comma_cons; auto.
    + inversion IH; subst. constructor; auto. apply contains_comma_cons; auto.
Qed.

Lemma lstrip_decomp : forall s, exists pre,
  s = pre ++ lstrip s /\ all_space pre = true
  /\ match lstrip s with EmptyString => True | String c _ => is_space c = false end.
Proof.
  induction s as [|c t IH]; simpl.
  - exists ""; auto.
  - destruct (is_space c) eqn:Hc.
    + destruct IH as [pre [E [Hp Hh]]]. exists (String c pre). simpl.
      rewrite Hc, Hp. rewrite <- E. auto.
    + exists ""; simpl; auto.
Qed.

Lemma rstrip_decomp : forall s, exists suf,
  s = rstrip s ++ suf /\ all_space suf = true
  /\ (rstrip s = "" \/ exists u c, rstrip s = u ++ String c "" /\ is_space c = false).
Proof.
  induction s as [|c t IH]; simpl.
  - exists ""; auto.
  - destruct IH as [suf [E [Hs Hl]]].
    destruct (String.eqb_spec (rstrip t) "") as [Ht|Ht]; destruct (is_space c) eqn:Hc; simpl.
    + exists (String c t). simpl. rewrite Hc. rewrite E, Ht. simpl. auto.
    + exists suf. rewrite Ht in *. simpl in E. subst t. simpl.
      split; [reflexivity|]. split; [exact Hs|].
      right. exists "", c. auto.
    + exists suf. rewrite E at 1. split; [reflexivity|]. split; [exact Hs|].
      right. destruct Hl as [Hl|[u [c0 [Hu Hc0]]]]; [congruence|].
      exists (String c u), c0. rewrite Hu. auto.
    + exists suf. rewrite E at 1. split; [reflexivity|]. split; [exact Hs|].
      right. destruct Hl as [Hl|[u [c0 [Hu Hc0]]]]; [congruence|].
      exists (String c u), c0. rewrite Hu. auto.
Qed.

Lemma append_assoc_str : forall a b c : string, (a ++ b) ++ c = a ++ (b ++ c).
Proof. induction a as [|x a IH]; intros; simpl; [reflexivity|now rewrite IH]. Qed.

(** [strip] removes exactly the leading and trailing whitespace. *)
Lemma strip_decomp : forall p, exists pre suf,
  p = pre ++ strip p ++ suf /\ all_space pre = true /\ all_space suf = true
  /\ trimmed (strip p).
Proof.
  intros p. unfold strip.
  destruct (lstrip_decomp p) as [pre [E1 [Hp Hh]]].
  destruct (rstrip_decomp (lstrip p)) as [suf [E2 [Hs Hl]]].
  exists pre, suf. split; [rewrite E1 at 1; rewrite E2 at 1; reflexivity|].
  split; [exact Hp|]. split; [exact Hs|]. split; [|exact Hl].
  destruct (rstrip (lstrip p)) as [|c u] eqn:R; [exact I|].
  rewrite E2 in Hh. simpl in Hh. exact Hh.
Qed.

(** C5: [ingredients_list] splits on commas, strips each piece and drops the
    empty ones, in order and keeping duplicates; the pieces are the maximal
    comma-free segments of the text and [strip] removes exactly the surrounding
    whitespace. The three examples of the spec hold. *)
Theorem ingredients_list_spec :
  ingredients_list "salt, water, sugar" = ["salt"; "water"; "sugar"]
  /\ ingredients_list "" = []
  /\ ingredients_list "  tomato  ,  onion ,, garlic " = ["tomato"; "onion"; "garlic"]
  /\ forall s,
       ingredients_list s
         = map strip (filter (fun item => negb (String.eqb (strip item) ""))
                             (py_split "," s))
       /\ join_comma (py_split "," s) = s
       /\ Forall (fun item => contains item "," = false) (py_split "," s)
       /\ (forall item, exists pre suf,
             item = pre ++ strip item ++ suf /\ all_space pre = true
             /\ all_space suf = true /\ trimmed (strip item))
       /\ Forall (fun t => t <> "") (ingredients_list s).
Proof.
  split; [reflexivity|]. split; [reflexivity|]. split; [reflexivity|].
  intros s.
  assert (Hform : ingredients_list s
         = map strip (filter (fun item => negb (String.eqb (strip item) ""))
                             (py_split "," s))).
  { unfold ingredients_list. destruct (String.eqb_spec s "") as [->|_]; reflexivity. }
  split; [exact Hform|]. split; [apply join_py_split|].
  split; [apply py_split_no_comma|]. split; [apply strip_decomp|].
  rewrite Hform. apply Forall_forall. intros t Ht.
  apply in_map_iff in Ht. destruct Ht as [item [<- Hi]].
  apply filter_In in Hi. destruct Hi as [_ Hi].
  destruct (String.eqb_spec (strip item) "") as [E|E]; [discriminate|exact E].
Qed.

(** ** The search filters *)

Lemma filter_filter_and {A} (p q : A -> bool) (l : list A) :
  filter q (filter p l) = filter (fun x => p x && q x) l.
Proof.
  induction l as [|x l IH]; simpl; [reflexivity|].
  destruct (p x); simpl; [destruct (q x); simpl|]; now rewrite IH.
Qed.

Lemma collect_ids : forall (P : Recipe -> bool) qs acc,
  fold_left (fun acc r => if P r then List.app acc [id r] else acc) qs acc
  = List.app acc (map id (filter P qs)).
Proof.
  intros P qs; induction qs as [|r qs IH]; intros acc; simpl.
  - now rewrite app_nil_r.
  - destruct (P r); simpl; rewrite IH; [now rewrite <- app_assoc|reflexivity].
Qed.

(** Unique primary keys stay unique in any sub-selection of the table. *)
Lemma unique_ids_filter : forall (keep : Recipe -> bool) (rows : list Recipe),
  NoDup (map id rows) -> NoDup (map id (filter keep rows)).
Proof.
  intros keep rows. induction rows as [|row rows IH]; intros Hu; [constructor|].
  cbn [map] in Hu. apply NoDup_cons_iff in Hu as [Hfresh Hu].
  cbn [filter]. destruct (keep row); [|exact (IH Hu)].
  cbn [map]. apply NoDup_cons_iff. split; [|exact (IH Hu)].
  intros Hin. apply Hfresh.
  destruct (proj1 (in_map_iff id _ _) Hin) as [row' [Hid Hrow']].
  rewrite <- Hid. apply in_map. exact (proj1 (proj1 (filter_In _ _ _) Hrow')).
Qed.

(** Two rows of a table with unique primary keys that share a key are the
    same row. *)
Lemma unique_ids_same_row : forall (rows : list Recipe) (a b : Recipe),
  NoDup (map id rows) -> In a rows -> In b rows -> id a = id b -> a = b.
Proof.
  intros rows. induction rows as [|row rows IH]; intros a b Hu Ha Hb Hab; [destruct Ha|].
  cbn [map] in Hu. apply NoDup_cons_iff in Hu as [Hfresh Hu].
  destruct Ha as [Ha|Ha], Hb as [Hb|Hb]; subst.
  - reflexivity.
  - destruct Hfresh. rewrite Hab. apply in_map. exact Hb.
  - destruct Hfresh. rewrite <- Hab. apply in_map. exact Ha.
  - exact (IH a b Hu Ha Hb Hab).
Qed.

(** Filtering on the collected primary keys is filtering on the predicate,
    because primary keys are unique. *)
Lemma filter_by_ids : forall (P : Recipe -> bool) qs,
  NoDup (map id qs) ->
  filter (fun r => existsb (Z.eqb (id r)) (map id (filter P qs))) qs = filter P qs.
Proof.
  intros P qs Hnd. apply filter_ext_in. intros r Hr.
  destruct (P r) eqn:HP.
  - apply existsb_exists. exists (id r). split; [|apply Z.eqb_refl].
    apply in_map. apply filter_In. auto.
  - destruct (existsb (Z.eqb (id r)) (map id (filter P qs))) eqn:E; [|reflexivity].
    apply existsb_exists in E. destruct E as [k [Hk Ek]]. apply Z.eqb_eq in Ek. subst k.
    apply in_map_iff in Hk. destruct Hk as [r' [Hid Hr']]. apply filter_In in Hr'.
    destruct Hr' as [Hin HP'].
    rewrite (unique_ids_same_row qs r' r Hnd Hin Hr Hid) in HP'. congruence.
Qed.

Lemma filter_name_pass : forall nm qs,
  filter_name nm qs = filter (fun r => passes nm (icontains (name r))) qs.
Proof.
  intros nm qs. unfold filter_name, passes.
  destruct (truthy nm); [reflexivity|now rewrite filter_true].
Qed.

Lemma filter_ingredient_pass : forall ing qs,
  filter_ingredient ing qs = filter (fun r => passes ing (icontains (ingredients r))) qs.
Proof.
  intros ing qs. unfold filter_ingredient, passes.
  destruct (truthy ing); [reflexivity|now rewrite filter_true].
Qed.

Lemma filter_category_pass : forall cat qs,
  filter_category cat qs = filter (fun r => passes cat (String.eqb (category r))) qs.
Proof.
  intros cat qs. unfold filter_category, passes.
  destruct (truthy cat); [reflexivity|now rewrite filter_true].
Qed.

Lemma filter_difficulty_pass : forall diff qs,
  NoDup (map id qs) ->
  filter_difficulty diff qs = filter (fun r => passes diff (String.eqb (difficulty r))) qs.
Proof.
  intros diff qs Hnd. unfold filter_difficulty, passes.
  destruct (truthy diff) as [d|]; [|now rewrite filter_true].
  rewrite collect_ids. simpl. apply filter_by_ids. exact Hnd.
Qed.

Lemma absent_filters_pass : forall v qs,
  truthy v = None ->
  filter_name v qs = qs /\ filter_ingredient v qs = qs
  /\ filter_category v qs = qs /\ filter_difficulty v qs = qs.
Proof.
  intros v qs H. unfold filter_name, filter_ingredient, filter_category, filter_difficulty.
  rewrite H. auto.
Qed.

(** C2: over a table with unique primary keys, the search applies the name,
    ingredient, category and difficulty filters in that order, the last one
    computing [difficulty] on the rows left by the first three; the result is
    the rows of the table meeting all supplied criteria, and an absent
    criterion ([None] or the empty string) admits every row. *)
Theorem search_conjunctive :
  forall (store : list Recipe) (nm ing cat diff : option string),
    NoDup (map id store) ->
    search store nm ing cat diff
      = filter_difficulty diff (filter_category cat (filter_ingredient ing (filter_name nm store)))
    /\ search store nm ing cat diff
      = filter (fun r => passes nm (icontains (name r))
                         && passes ing (icontains (ingredients r))
                         && passes cat (String.eqb (category r))
                         && passes diff (String.eqb (difficulty r))) store
    /\ (forall v qs, truthy v = None ->
          filter_name v qs = qs /\ filter_ingredient v qs = qs
          /\ filter_category v qs = qs /\ filter_difficulty v qs = qs).
Proof.
  intros store nm ing cat diff Hnd.
  split; [reflexivity|]. split; [|exact absent_filters_pass].
  unfold search.
  rewrite filter_difficulty_pass.
  - rewrite filter_category_pass, filter_ingredient_pass, filter_name_pass.
    rewrite !filter_filter_and. apply filter_ext. intros r. now rewrite !andb_assoc.
  - rewrite filter_category_pass, filter_ingredient_pass, filter_name_pass.
    apply unique_ids_filter, unique_ids_filter, unique_ids_filter. exact Hnd.
Qed.

Lemma search_conjunctive_witness :
  NoDup (map id sample_store)
  /\ search sample_store None None None (Some "Medium")
     = filter (fun r => passes None (icontains (name r))
                        && passes None (icontains (ingredients r))
                        && passes None (String.eqb (category r))
                        && passes (Some "Medium") (String.eqb (difficulty r))) sample_store.
Proof.
  assert (H : NoDup (map id sample_store)) by (repeat constructor; simpl; intuition discriminate).
  split; [exact H|].
  exact (proj1 (proj2 (search_conjunctive sample_store None None None (Some "Medium") H))).
Defined.

Lemma prefix_spec : forall n h, String.prefix n h = true <-> exists s, h = n ++ s.
Proof.
  induction n as [|a n IH]; intros h.
  - split; [intros _; exists h; reflexivity|intros _; destruct h; reflexivity].
  - destruct h as [|b h]; cbn [String.prefix].
    + split; [discriminate|intros [s E]; discriminate].
    + destruct (Ascii.ascii_dec a b) as [<-|Hab].
      * rewrite IH. split; intros [s E]; exists s; [now rewrite E|now inversion E].
      * split; [discriminate|intros [s E]; inversion E; congruence].
Qed.

(** [contains] is the substring relation. *)
Lemma contains_spec : forall h n, contains h n = true <-> exists p s, h = p ++ n ++ s.
Proof.
  induction h as [|c h IH]; intros n.
  - cbn [contains]. destruct (String.prefix n "") eqn:P.
    + split; [intros _|reflexivity]. apply prefix_spec in P. destruct P as [s E].
      exists "", s. exact E.
    + split; [discriminate|]. intros [p [s E]].
      destruct p; [|discriminate]. simpl in E.
      assert (Hp : String.prefix n "" = true) by (apply prefix_spec; exists s; exact E).
      congruence.
  - cbn [contains]. destruct (String.prefix n (String c h)) eqn:P.
    + split; [intros _|reflexivity]. apply prefix_spec in P. destruct P as [s E].
      exists "", s. exact E.
    + rewrite IH. split.
      * intros [p [s E]]. exists (String c p), s. simpl. now rewrite E.
      * intros [p [s E]]. destruct p as [|c' p].
        -- simpl in E. assert (Hp : String.prefix n (String c h) = true)
             by (apply prefix_spec; exists s; exact E). congruence.
        -- simpl in E. inversion E; subst. exists p, s. reflexivity.
Qed.

Lemma icontains_spec : forall field term,
  icontains field term = true <-> exists p s, lower field = p ++ lower term ++ s.
Proof. intros. apply contains_spec. Qed.

(** C6: a supplied (non-empty) name or ingredient term keeps, in table order,
    exactly the rows whose name, respectively raw ingredients text, contains
    the term as a substring up to ASCII case. Examples: "SPAGHETTI" finds
    "Spaghetti Carbonara"; the ingredient term "o, on" spans the comma of
    "tomato, onion, salt" and "mat" lies inside the token "tomato". *)
Theorem icontains_filters :
  forall (term : string) (qs : list Recipe),
    term <> "" ->
    filter_name (Some term) qs = filter (fun r => icontains (name r) term) qs
    /\ filter_ingredient (Some term) qs = filter (fun r => icontains (ingredients r) term) qs
    /\ (forall r, In r (filter_name (Some term) qs)
                  <-> In r qs /\ exists p s, lower (name r) = p ++ lower term ++ s)
    /\ (forall r, In r (filter_ingredient (Some term) qs)
                  <-> In r qs /\ exists p s, lower (ingredients r) = p ++ lower term ++ s)
    /\ map name (filter_name (Some "SPAGHETTI") sample_store) = ["Spaghetti Carbonara"]
    /\ map name (filter_ingredient (Some "o, on") sample_store) = ["Tomato Soup"]
    /\ map name (filter_ingredient (Some "MAT") sample_store) = ["Tomato Soup"].
Proof.
  intros term qs Ht.
  assert (Htr : truthy (Some term) = Some term).
  { simpl. destruct (String.eqb_spec term ""); [contradiction|reflexivity]. }
  assert (En : filter_name (Some term) qs = filter (fun r => icontains (name r) term) qs)
    by (unfold filter_name; now rewrite Htr).
  assert (Ei : filter_ingredient (Some term) qs
               = filter (fun r => icontains (ingredients r) term) qs)
    by (unfold filter_ingredient; now rewrite Htr).
  split; [exact En|]. split; [exact Ei|].
  split; [|split; [|repeat split; reflexivity]].
  - intros r. rewrite En, filter_In, icontains_spec. reflexivity.
  - intros r. rewrite Ei, filter_In, icontains_spec. reflexivity.
Qed.

Lemma icontains_filters_witness :
  "SPAGHETTI" <> ""
  /\ filter_name (Some "SPAGHETTI") sample_store
     = filter (fun r => icontains (name r) "SPAGHETTI") sample_store.
Proof.
  assert (H : "SPAGHETTI" <> "") by discriminate.
  split; [exact H|].
  exact (proj1 (icontains_filters "SPAGHETTI" sample_store H)).
Defined.

(** ** Charts *)

Lemma bump_keys : forall x acc, map fst (bump x acc) = map fst acc.
Proof.
  intros x acc. unfold bump. rewrite map_map. apply map_ext. intros [k c]. cbn [fst].
  destruct (String.eqb k x); reflexivity.
Qed.

Lemma bump_count : forall x k acc,
  count_of k (bump x acc)
  = count_of k acc + (if String.eqb x k then Z.of_nat (count_occ string_dec (map fst acc) x) else 0).
Proof.
  intros x k acc. induction acc as [|[a c] acc IH]; cbn [bump map count_of fold_right fst snd count_occ].
  - destruct (String.eqb x k); reflexivity.
  - unfold bump in IH. unfold count_of in IH. rewrite IH.
    destruct (String.eqb_spec a x) as [->|E]; cbn [fst snd].
    + destruct (string_dec x x) as [_|]; [|congruence].
      destruct (String.eqb_spec x k); lia.
    + destruct (string_dec a x) as [|_]; [congruence|].
      destruct (String.eqb_spec a k), (String.eqb_spec x k); subst; try congruence; lia.
Qed.

Lemma bump_sum : forall x acc,
  sum_counts (bump x acc) = sum_counts acc + Z.of_nat (count_occ string_dec (map fst acc) x).
Proof.
  intros x acc. induction acc as [|[a c] acc IH]; [reflexivity|].
  unfold bump, sum_counts in *. cbn [map fold_right fst snd count_occ]. rewrite IH.
  destruct (String.eqb_spec a x) as [->|E].
  - destruct (string_dec x x); [cbn [snd]; lia|congruence].
  - destruct (string_dec a x); [congruence|cbn [snd]; lia].
Qed.

Lemma existsb_key : forall x (acc : list (string * Z)),
  existsb (fun kv => String.eqb (fst kv) x) acc = true <-> In x (map fst acc).
Proof.
  intros x acc. rewrite existsb_exists. split.
  - intros (kv & H & E). apply String.eqb_eq in E. subst. now apply in_map.
  - intros H. apply in_map_iff in H as (kv & <- & H). exists kv. split; [exact H|apply String.eqb_refl].
Qed.

Lemma count_of_app : forall k a b, count_of k (a ++ b) = count_of k a + count_of k b.
Proof. intros k a b. unfold count_of. rewrite fold_right_app. induction a as [|x a IH]; simpl; lia. Qed.

Lemma sum_counts_app : forall a b, sum_counts (a ++ b) = sum_counts a + sum_counts b.
Proof. intros a b. unfold sum_counts. rewrite fold_right_app. induction a as [|x a IH]; simpl; lia. Qed.

Lemma count_values_spec : forall xs acc, NoDup (map fst acc) ->
  let r := count_values xs acc in
  NoDup (map fst r)
  /\ (forall k, In k (map fst r) <-> In k (map fst acc) \/ In k xs)
  /\ (forall k, count_of k r = count_of k acc + Z.of_nat (count_occ string_dec xs k))
  /\ sum_counts r = sum_counts acc + Z.of_nat (List.length xs).
Proof.
  induction xs as [|x xs IH]; intros acc Hnd r; subst r.
  - cbn [count_values count_occ In List.length]. split; [exact Hnd|]. split; [tauto|].
    split; intros; lia.
  - cbn [count_values].
    destruct (existsb (fun kv => String.eqb (fst kv) x) acc) eqn:E.
    + apply existsb_key in E.
      assert (Hn : NoDup (map fst (bump x acc))) by (rewrite bump_keys; exact Hnd).
      destruct (IH _ Hn) as (H1 & H2 & H3 & H4). fold (bump x acc).
      pose proof (proj1 (NoDup_count_occ' string_dec (map fst acc)) Hnd x E) as Hc.
      split; [exact H1|]. split; [|split].
      * intros k. rewrite H2, bump_keys. cbn [In].
        split; [tauto|]. intros [H|[<-|H]]; tauto.
      * intros k. rewrite H3, bump_count, Hc. cbn [count_occ].
        destruct (String.eqb_spec x k), (string_dec x k); subst; try congruence; lia.
      * rewrite H4, bump_sum, Hc. cbn [List.length]. lia.
    + assert (E' : ~ In x (map fst acc)) by (rewrite <- existsb_key; congruence).
      assert (Hn : NoDup (map fst (acc ++ [(x, 1)]))).
      { rewrite map_app. cbn [map fst]. apply NoDup_app; [exact Hnd|constructor; [tauto|constructor]|].
        intros y Hy [<-|[]]. contradiction. }
      destruct (IH _ Hn) as (H1 & H2 & H3 & H4).
      split; [exact H1|]. split; [|split].
      * intros k. rewrite H2, map_app, in_app_iff. cbn [map fst In]. tauto.
      * intros k. rewrite H3, count_of_app. cbn [count_occ count_of fold_right fst snd].
        destruct (String.eqb_spec x k), (string_dec x k); subst; try congruence; lia.
      * rewrite H4, sum_counts_app. cbn [List.length sum_counts fold_right snd]. lia.
Qed.

Lemma insert_desc_perm : forall kv l, Permutation (insert_desc kv l) (kv :: l).
Proof.
  intros kv l. induction l as [|h t IH]; [reflexivity|]. cbn [insert_desc].
  destruct (snd h <? snd kv); [reflexivity|].
  rewrite IH. apply perm_swap.
Qed.

Lemma sort_perm : forall l acc,
  Permutation (fold_left (fun l kv => insert_desc kv l) l acc) (rev l ++ acc).
Proof.
  induction l as [|kv l IH]; intros acc; [reflexivity|]. cbn [fold_left rev].
  rewrite IH, insert_desc_perm, <- app_assoc. cbn [List.app].
  apply Permutation_app_head. reflexivity.
Qed.

Lemma insert_desc_sorted : forall kv l, Sorted desc l -> Sorted desc (insert_desc kv l).
Proof.
  intros kv l. induction l as [|h t IH]; intros H; cbn [insert_desc].
  - repeat constructor.
  - destruct (Z.ltb_spec (snd h) (snd kv)).
    + constructor; [exact H|]. constructor. unfold desc. lia.
    + apply Sorted_inv in H as [Ht Hr]. constructor; [apply IH, Ht|].
      destruct t as [|h2 t]; cbn [insert_desc].
      * constructor. unfold desc. lia.
      * inversion Hr; subst. destruct (snd h2 <? snd kv); constructor; unfold desc in *; lia.
Qed.

Lemma sort_sorted : forall l acc, Sorted desc acc ->
  Sorted desc (fold_left (fun l kv => insert_desc kv l) l acc).
Proof.
  induction l as [|kv l IH]; intros acc H; [exact H|]. cbn [fold_left].
  apply IH, insert_desc_sorted, H.
Qed.

Lemma count_of_perm : forall k l l', Permutation l l' -> count_of k l = count_of k l'.
Proof.
  intros k l l' P. unfold count_of. induction P; cbn [fold_right]; lia.
Qed.

Lemma sum_counts_perm : forall l l', Permutation l l' -> sum_counts l = sum_counts l'.
Proof.
  intros l l' P. unfold sum_counts. induction P; cbn [fold_right]; lia.
Qed.

Lemma count_of_member : forall l k c, NoDup (map fst l) -> In (k, c) l -> c = count_of k l.
Proof.
  induction l as [|[a b] l IH]; intros k c Hnd H; [contradiction|].
  inversion Hnd as [|? ? Ha Hl]; subst. cbn [count_of fold_right fst snd].
  destruct H as [E|H].
  - injection E as <- <-. rewrite String.eqb_refl. fold (count_of a l).
    assert (count_of a l = 0); [|lia].
    clear -Ha. induction l as [|[a' b'] l IH]; [reflexivity|]. cbn [count_of fold_right fst snd].
    cbn [map fst In] in Ha. destruct (String.eqb_spec a' a); [subst; tauto|].
    fold (count_of a l). rewrite IH by tauto. lia.
  - destruct (String.eqb_spec a k) as [->|_].
    + exfalso. apply Ha. change k with (fst (k, c)). now apply in_map.
    + fold (count_of k l). apply IH; assumption.
Qed.

Lemma value_counts_spec : forall xs,
  let vc := value_counts xs in
  NoDup (map fst vc)
  /\ (forall x, In x (map fst vc) <-> In x xs)
  /\ (forall x c, In (x, c) vc -> c = Z.of_nat (count_occ string_dec xs x))
  /\ Sorted desc vc
  /\ sum_counts vc = Z.of_nat (List.length xs).
Proof.
  intros xs vc.
  destruct (count_values_spec xs [] (NoDup_nil _)) as (H1 & H2 & H3 & H4).
  assert (P : Permutation vc (count_values xs [])).
  { unfold vc, value_counts. rewrite sort_perm, app_nil_r. symmetry. apply Permutation_rev. }
  assert (Hnd : NoDup (map fst vc)).
  { apply (Permutation_NoDup (Permutation_map fst (Permutation_sym P))). exact H1. }
  split; [exact Hnd|]. split; [|split; [|split]].
  - intros x. split; intros H.
    + apply (Permutation_in _ (Permutation_map fst P)) in H. apply H2 in H. cbn in H. tauto.
    + apply (Permutation_in _ (Permutation_map fst (Permutation_sym P))). apply H2. tauto.
  - intros x c H. rewrite (count_of_member vc x c Hnd H), (count_of_perm x _ _ P), H3.
    reflexivity.
  - apply sort_sorted. constructor.
  - rewrite (sum_counts_perm _ _ P), H4. reflexivity.
Qed.

Lemma sum_counts_map : forall l, fold_right Z.add 0 (map snd l) = sum_counts l.
Proof. induction l as [|kv l IH]; cbn; [reflexivity|]. now rewrite IH. Qed.

(** The pie sizes sum to the number of rows, so [plt.pie] raises only on an
    empty table. *)
Lemma pie_sum_pos : forall data, data <> [] ->
  Z.eqb (fold_right Z.add 0 (map snd (value_counts (map row_difficulty data)))) 0 = false.
Proof.
  intros data H. destruct (value_counts_spec (map row_difficulty data)) as (_ & _ & _ & _ & E).
  rewrite sum_counts_map, E, length_map. apply Z.eqb_neq.
  destruct data; [congruence|]. cbn [List.length]. lia.
Qed.

Lemma same_head_update : forall f st1 st2,
  same_head st1 st2 -> same_head (update_current f st1) (update_current f st2).
Proof.
  intros f [b1 fs1 o1] [b2 fs2 o2] [fig [H1 H2]]. simpl in *.
  destruct fs1 as [|f1 r1]; [discriminate|]. destruct fs2 as [|f2 r2]; [discriminate|].
  simpl in *. inversion H1; inversion H2; subst. exists (f fig). auto.
Qed.

Lemma same_head_draw : forall a st1 st2,
  same_head st1 st2 -> same_head (draw a st1) (draw a st2).
Proof. intros. now apply same_head_update. Qed.

Lemma same_head_print : forall s st1 st2,
  same_head st1 st2 -> same_head (py_print s st1) (py_print s st2).
Proof. intros s [b1 fs1 o1] [b2 fs2 o2] H. exact H. Qed.

Lemma same_head_tight : forall st1 st2,
  same_head st1 st2 -> same_head (tight_layout st1) (tight_layout st2).
Proof. intros. now apply same_head_update. Qed.

Lemma same_head_draw_chart : forall ct data st1 st2,
  same_head st1 st2 ->
  fst (draw_chart ct data st1) = fst (draw_chart ct data st2)
  /\ same_head (snd (draw_chart ct data st1)) (snd (draw_chart ct data st2)).
Proof.
  intros ct data st1 st2 H. unfold draw_chart.
  destruct (py_eq ct "#1"); [|destruct (py_eq ct "#2"); [|destruct (py_eq ct "#3")]];
  try destruct (Z.eqb _ 0); cbn zeta; cbn [fst snd]; split; try reflexivity;
  repeat apply same_head_draw; try apply same_head_print; exact H.
Qed.

Lemma same_head_current : forall st1 st2,
  same_head st1 st2 -> current_figure st1 = current_figure st2.
Proof.
  intros [b1 fs1 o1] [b2 fs2 o2] [fig [H1 H2]]. unfold current_figure. simpl in *.
  destruct fs1; destruct fs2; simpl in *; congruence.
Qed.

(** Before drawing, [get_chart] always stands on a fresh empty 8x5 figure. *)
Lemma get_chart_fresh_figure : forall st,
  hd_error (figures (new_figure (80, 50) (clf (switch_backend "AGG" st))))
  = Some (mkFigure (80, 50) [] false).
Proof. intros st. unfold new_figure. cbn [figures hd_error]. reflexivity. Qed.

(** The figure and text produced by [get_chart] depend only on its arguments. *)
Lemma get_chart_output_indep : forall agg_render ct data labels st1 st2,
  fst (get_chart agg_render ct data labels st1) = fst (get_chart agg_render ct data labels st2)
  /\ current_figure (snd (get_chart agg_render ct data labels st1))
     = current_figure (snd (get_chart agg_render ct data labels st2)).
Proof.
  intros agg_render ct data labels st1 st2.
  destruct (same_head_draw_chart ct data (new_figure (80, 50) (clf (switch_backend "AGG" st1)))
              (new_figure (80, 50) (clf (switch_backend "AGG" st2)))) as [E H].
  { exists (mkFigure (80, 50) [] false). split; apply get_chart_fresh_figure. }
  unfold get_chart. cbn zeta.
  destruct (draw_chart ct data (new_figure (80, 50) (clf (switch_backend "AGG" st1))))
    as [r1 s1].
  destruct (draw_chart ct data (new_figure (80, 50) (clf (switch_backend "AGG" st2))))
    as [r2 s2].
  cbn [fst snd] in E, H. subst r2. destruct r1 as [u|e]; cbn [fst snd].
  - apply same_head_tight, same_head_current in H.
    unfold get_graph, savefig_png. rewrite H. auto.
  - split; [reflexivity|]. now apply same_head_current.
Qed.

(** [get_chart] returns the base64 text of its current figure, unless the pie
    chart is asked for an empty table: then [plt.pie] raises [ValueError]. *)
Lemma get_chart_cases : forall agg_render ct data labels st,
  fst (get_chart agg_render ct data labels st)
    = Ok (get_graph agg_render (snd (get_chart agg_render ct data labels st)))
  \/ (fst (get_chart agg_render ct data labels st) = Raise "ValueError"
      /\ py_eq ct "#2" = true /\ data = []).
Proof.
  intros agg_render ct data labels st. unfold get_chart. cbn zeta. unfold draw_chart.
  destruct (py_eq ct "#1"); [left; reflexivity|].
  destruct (py_eq ct "#2") eqn:E2.
  - destruct (Z.eqb _ 0) eqn:Ez; [|left; reflexivity].
    right. split; [reflexivity|]. split; [reflexivity|].
    destruct data as [|r rs]; [reflexivity|].
    rewrite pie_sum_pos in Ez by discriminate. discriminate.
  - destruct (py_eq ct "#3"); left; reflexivity.
Qed.

Lemma get_chart_ok : forall agg_render ct data labels st, data <> [] ->
  exists c st', get_chart agg_render ct data labels st = (Ok c, st').
Proof.
  intros agg_render ct data labels st H.
  destruct (get_chart_cases agg_render ct data labels st) as [E|[_ [_ E]]]; [|congruence].
  destruct (get_chart agg_render ct data labels st) as [r st']. cbn [fst] in E.
  rewrite E. eauto.
Qed.

(** C7: [get_chart] draws on a new empty figure (after [switch_backend] and
    [clf]), so whatever figures, drawings or output earlier calls left in the
    global pyplot state, the chart text it returns, and the figure it was
    rendered from, are the same. *)
Theorem get_chart_no_leak :
  forall (agg_render : Figure -> list byte) (chart_type : option string)
         (data : list Row) (labels : list string) (st1 st2 : Pyplot),
    hd_error (figures (new_figure (80, 50) (clf (switch_backend "AGG" st1))))
      = Some (mkFigure (80, 50) [] false)
    /\ fst (get_chart agg_render chart_type data labels st1)
       = fst (get_chart agg_render chart_type data labels st2)
    /\ current_figure (snd (get_chart agg_render chart_type data labels st1))
       = current_figure (snd (get_chart agg_render chart_type data labels st2)).
Proof.
  intros. split; [apply get_chart_fresh_figure|apply get_chart_output_indep].
Qed.

Lemma get_graph_nonempty : forall agg_render st, get_graph agg_render st <> "".
Proof. intros. unfold get_graph, savefig_png. cbn [png_signature List.app b64encode]. discriminate. Qed.

Lemma stdout_update : forall f st, stdout (update_current f st) = stdout st.
Proof. intros f [b [|fig r] o]; reflexivity. Qed.

Lemma get_chart_stdout : forall agg_render ct data labels st,
  stdout (snd (get_chart agg_render ct data labels st))
  = (stdout st
     ++ (if py_eq ct "#1" || py_eq ct "#2" || py_eq ct "#3" then []
         else ["Unknown chart type"]))%list.
Proof.
  intros. unfold get_chart. cbn zeta. cbn [snd].
  unfold tight_layout, draw_chart, draw, clf.
  destruct (py_eq ct "#1"); [|destruct (py_eq ct "#2"); [|destruct (py_eq ct "#3")]];
  cbn [orb];
  try destruct (Z.eqb _ 0); cbn zeta; cbn [fst snd];
  repeat first [rewrite stdout_update | progress cbn [stdout new_figure py_print]];
  unfold switch_backend; destruct (String.eqb (backend st) "AGG");
  cbn [stdout]; now rewrite ?app_nil_r.
Qed.

(** C3 (as the code behaves): [get_chart] with an unknown chart type prints
    "Unknown chart type" and still returns the base64 text of a PNG (of an
    empty figure); with an empty table it also returns an image. Its docstring
    promises [None] in both cases. *)
Theorem get_chart_unknown_type_returns_image :
  forall (agg_render : Figure -> list byte) (st : Pyplot),
    (exists s, fst (get_chart agg_render (Some "#4") sample_df (names_of sample_df) st) = Ok s
               /\ s <> "")
    /\ stdout (snd (get_chart agg_render (Some "#4") sample_df (names_of sample_df) st))
       = (stdout st ++ ["Unknown chart type"])%list
    /\ (exists s, fst (get_chart agg_render (Some "#1") [] [] st) = Ok s /\ s <> "").
Proof.
  intros agg_render st. split; [|split].
  - destruct (get_chart_cases agg_render (Some "#4") sample_df (names_of sample_df) st)
      as [E|[_ [E _]]]; [|discriminate].
    eexists. split; [exact E|apply get_graph_nonempty].
  - rewrite get_chart_stdout. reflexivity.
  - destruct (get_chart_cases agg_render (Some "#1") [] [] st) as [E|[_ [E _]]]; [|discriminate].
    eexists. split; [exact E|apply get_graph_nonempty].
Qed.

Lemma chart_choice_valid : forall v,
  choicefield_valid CHART_CHOICES true v = true -> In v [Some "#1"; Some "#2"; Some "#3"].
Proof.
  intros [s|] H; [|discriminate]. unfold choicefield_valid in H.
  destruct (String.eqb s ""); [discriminate|]. revert H.
  cbn [existsb fst CHART_CHOICES].
  destruct (String.eqb_spec "#1" s) as [<-|_]; [simpl; auto|].
  destruct (String.eqb_spec "#2" s) as [<-|_]; [simpl; auto|].
  destruct (String.eqb_spec "#3" s) as [<-|_]; [simpl; auto|].
  intros H; discriminate.
Qed.

Lemma form_valid_chart : forall d,
  RecipeSearchForm_is_valid d = true ->
  exists d', d = Some d' /\ In (qd_get d' "chart_type") [Some "#1"; Some "#2"; Some "#3"].
Proof.
  intros [d|] H; [|discriminate]. exists d. split; [reflexivity|].
  simpl in H. apply andb_prop in H as [H _]. apply andb_prop in H as [_ H].
  now apply chart_choice_valid.
Qed.

Lemma form_data_some : forall data d, form_data data = Some d -> data = Some d.
Proof. intros [[|x l]|] d H; simpl in H; congruence. Qed.

(** In the list view, [get_chart] is reached only with one of the three chart
    types and a non-empty search result; otherwise the context has no chart. *)
Lemma view_chart_guard : forall agg_render req store st sc c,
  fst (get_context_data agg_render req store st) = Ok sc -> chart sc = Some c ->
  exists d, request_data req = Some d
    /\ In (qd_get d "chart_type") [Some "#1"; Some "#2"; Some "#3"]
    /\ search store (qd_get d "recipe_name") (qd_get d "ingredient")
              (qd_get d "category") (qd_get d "difficulty") <> [].
Proof.
  intros agg_render req store st sc c H Hc'. unfold get_context_data in H.
  destruct (existsb (String.eqb (method req)) ["POST"; "GET"]
            && RecipeSearchForm_is_valid (form_data (request_data req))) eqn:V;
    [|cbn [fst] in H; injection H as <-; discriminate].
  apply andb_prop in V as [_ V]. apply form_valid_chart in V as [d [Hd Hc]].
  apply form_data_some in Hd. exists d. split; [exact Hd|]. split; [exact Hc|].
  rewrite Hd in H.
  destruct (search store _ _ _ _) as [|r rs]; [|discriminate].
  cbn [fst] in H. injection H as <-. discriminate.
Qed.

(** The list view's search never raises: [get_chart] is called only on a
    non-empty table. *)
Lemma get_context_data_ok : forall agg_render req store st,
  exists sc, fst (get_context_data agg_render req store st) = Ok sc.
Proof.
  intros agg_render req store st. unfold get_context_data. cbn zeta.
  destruct (_ && _); [|eexists; reflexivity].
  destruct (search store _ _ _ _) as [|r rs]; [eexists; reflexivity|].
  lazymatch goal with
  | |- context [get_chart ?ag ?ct ?df ?lb ?s] =>
      destruct (get_chart_ok ag ct df lb s ltac:(discriminate)) as (c & st' & E); rewrite E
  end.
  eexists; reflexivity.
Qed.

(** ** The list view *)

Lemma request_data_method : forall req d,
  request_data req = Some d -> existsb (String.eqb (method req)) ["POST"; "GET"] = true.
Proof.
  intros req d H. unfold request_data in H. cbn [existsb].
  destruct (String.eqb (method req) "POST"); [reflexivity|].
  destruct (String.eqb (method req) "GET"); [reflexivity|discriminate].
Qed.

(** [data or None] does not change validity: an empty [QueryDict] has no
    [chart_type], so the bound form would be invalid too. *)
Lemma form_data_valid : forall d,
  RecipeSearchForm_is_valid (form_data (Some d)) = RecipeSearchForm_is_valid (Some d).
Proof. intros [|x l]; reflexivity. Qed.

(** The view reads nothing of the request but its method and its data. *)
Lemma get_context_data_on : forall agg_render req store st d,
  request_data req = Some d ->
  get_context_data agg_render req store st
  = get_context_data agg_render (mkRequest "GET" d []) store st.
Proof.
  intros agg_render req store st d H. unfold get_context_data. cbn zeta.
  rewrite H, (request_data_method req d H).
  assert (HG : request_data (mkRequest "GET" d []) = Some d) by reflexivity.
  rewrite HG, (request_data_method _ d HG). reflexivity.
Qed.

Lemma charfield_absent : forall m v, truthy v = None -> charfield_valid m false v = true.
Proof.
  intros m [s|] H; [|reflexivity]. unfold truthy in H.
  destruct (String.eqb_spec s "") as [E|]; [rewrite E; reflexivity|discriminate].
Qed.

Lemma choicefield_absent : forall cs v, truthy v = None -> choicefield_valid cs false v = true.
Proof.
  intros cs [s|] H; [|reflexivity]. unfold truthy in H. unfold choicefield_valid.
  destruct (String.eqb s ""); [reflexivity|discriminate].
Qed.

Lemma chart_choice_in : forall v,
  In v [Some "#1"; Some "#2"; Some "#3"] -> choicefield_valid CHART_CHOICES true v = true.
Proof. intros v [<-|[<-|[<-|[]]]]; reflexivity. Qed.

Lemma search_absent : forall store nm ing cat diff,
  truthy nm = None -> truthy ing = None -> truthy cat = None -> truthy diff = None ->
  search store nm ing cat diff = store.
Proof.
  intros store nm ing cat diff H1 H2 H3 H4. unfold search.
  destruct (absent_filters_pass nm store H1) as [-> _].
  destruct (absent_filters_pass ing store H2) as [_ [-> _]].
  destruct (absent_filters_pass cat store H3) as [_ [_ [-> _]]].
  destruct (absent_filters_pass diff store H4) as [_ [_ [_ ->]]].
  reflexivity.
Qed.

(** C4 fails: with no parameters at all, or with a name filter but no chart
    type, the list view runs no search and shows no result table, although the
    table holds recipes: the chart type is a required form field. *)
Lemma no_criteria_no_search :
  sample_store <> []
  /\ fst (list_get (fun _ => []) (mkRequest "GET" [] []) sample_store st0)
     = Ok (mkSearchContext None None)
  /\ fst (list_get (fun _ => []) (mkRequest "GET" [("recipe_name", "Soup")] []) sample_store st0)
     = Ok (mkSearchContext None None).
Proof. split; [discriminate|]. split; reflexivity. Qed.

(** C4 (amended): the four filters are optional but the chart type is not.
    A request whose data (if any) has no valid chart type runs no search: the
    context has no result table and no chart, and the pyplot state is
    untouched. When the request data has a valid chart type and none of the
    four filters (each missing or empty), the result table is the whole
    table, annotated, in table order, with a chart; there is neither when the
    table is empty. *)
Theorem search_no_filters_full_collection :
  forall (agg_render : Figure -> list byte) (req : Request) (store : list Recipe)
         (st : Pyplot),
    ((forall d, request_data req = Some d ->
        ~ In (qd_get d "chart_type") [Some "#1"; Some "#2"; Some "#3"]) ->
     list_get agg_render req store st = (Ok (mkSearchContext None None), st))
    /\ (forall d, request_data req = Some d ->
         truthy (qd_get d "recipe_name") = None ->
         truthy (qd_get d "ingredient") = None ->
         truthy (qd_get d "category") = None ->
         truthy (qd_get d "difficulty") = None ->
         In (qd_get d "chart_type") [Some "#1"; Some "#2"; Some "#3"] ->
         exists c, fst (list_get agg_render req store st)
                   = Ok (mkSearchContext
                           (match store with [] => None | _ :: _ => Some (annotate store) end) c)
                   /\ (c = None <-> store = [])).
Proof.
  intros agg_render req store st. split.
  - intros Hn. unfold list_get, get_context_data. cbn zeta.
    destruct (existsb (String.eqb (method req)) ["POST"; "GET"]
              && RecipeSearchForm_is_valid (form_data (request_data req))) eqn:V;
      [|reflexivity].
    exfalso. apply andb_prop in V as [_ V]. apply form_valid_chart in V as [d [Hd Hc]].
    apply form_data_some in Hd. exact (Hn d Hd Hc).
  - intros d Hd H1 H2 H3 H4 Hc.
    unfold list_get. rewrite (get_context_data_on _ _ _ _ d Hd).
    unfold get_context_data. cbn zeta.
    assert (HG : request_data (mkRequest "GET" d []) = Some d) by reflexivity.
    rewrite HG, (request_data_method _ d HG), form_data_valid. cbn [andb].
    rewrite (search_absent store _ _ _ _ H1 H2 H3 H4).
    unfold RecipeSearchForm_is_valid.
    rewrite (charfield_absent 120 _ H1), (charfield_absent 120 _ H2),
            (choicefield_absent _ _ H4), (chart_choice_in _ Hc). cbn [andb].
    destruct store as [|r rs].
    + exists None. split; [reflexivity|]. tauto.
    + destruct (get_chart_ok agg_render (qd_get d "chart_type") (annotate (r :: rs))
                  (names_of (annotate (r :: rs))) st ltac:(discriminate)) as (c & st' & E).
      rewrite E. exists (Some c). split; [reflexivity|]. split; discriminate.
Qed.

Lemma search_no_filters_full_collection_witness :
  list_get (fun _ => []) (mkRequest "GET" [("recipe_name", "Soup"); ("chart_type", "#9")] [])
    sample_store st0
  = (Ok (mkSearchContext None None), st0)
  /\ exists c,
    fst (list_get (fun _ => []) (mkRequest "GET" [("chart_type", "#1")] []) sample_store st0)
    = Ok (mkSearchContext (Some (annotate sample_store)) c) /\ (c = None <-> sample_store = []).
Proof.
  split.
  - apply (proj1 (search_no_filters_full_collection (fun _ => [])
             (mkRequest "GET" [("recipe_name", "Soup"); ("chart_type", "#9")] [])
             sample_store st0)).
    intros d Hd. injection Hd as <-. cbn. intuition discriminate.
  - exact (proj2 (search_no_filters_full_collection (fun _ => [])
                  (mkRequest "GET" [("chart_type", "#1")] []) sample_store st0)
                  [("chart_type", "#1")] eq_refl eq_refl eq_refl eq_refl eq_refl
                  (or_introl eq_refl)).
Defined.

Lemma form_valid_keys : forall d1 d2,
  (forall k, In k search_keys -> qd_get d1 k = qd_get d2 k) ->
  RecipeSearchForm_is_valid (Some d1) = RecipeSearchForm_is_valid (Some d2).
Proof.
  intros d1 d2 H. unfold RecipeSearchForm_is_valid.
  rewrite !H by (simpl; tauto). reflexivity.
Qed.

(** C8: [post] delegates to [get], and a POST whose body and a GET whose query
    string give the same values for the search keys (other keys, such as the
    CSRF token, may differ) produce the same result rows, with the same
    difficulty and ingredient-count columns, and the same chart, whatever
    pyplot state each request starts from. *)
Theorem post_get_same_search :
  forall (agg_render : Figure -> list byte) (store : list Recipe)
         (get_params1 post_data get_params2 post_params2 : QueryDict) (st1 st2 : Pyplot),
    (forall k, In k search_keys -> qd_get post_data k = qd_get get_params2 k) ->
    list_post agg_render (mkRequest "POST" get_params1 post_data) store st1
      = list_get agg_render (mkRequest "POST" get_params1 post_data) store st1
    /\ fst (list_post agg_render (mkRequest "POST" get_params1 post_data) store st1)
       = fst (list_get agg_render (mkRequest "GET" get_params2 post_params2) store st2).
Proof.
  intros agg_render store g1 d1 d2 p2 st1 st2 Hk.
  split; [reflexivity|].
  unfold list_post, list_get.
  rewrite (get_context_data_on _ (mkRequest "POST" g1 d1) _ _ d1 eq_refl).
  rewrite (get_context_data_on _ (mkRequest "GET" d2 p2) _ _ d2 eq_refl).
  unfold get_context_data. cbn zeta.
  assert (HG1 : request_data (mkRequest "GET" d1 []) = Some d1) by reflexivity.
  assert (HG2 : request_data (mkRequest "GET" d2 []) = Some d2) by reflexivity.
  rewrite HG1, HG2, (request_data_method _ d1 HG1), (request_data_method _ d2 HG2),
          !form_data_valid, (form_valid_keys d1 d2 Hk).
  cbn [andb].
  rewrite !Hk by (simpl; tauto).
  destruct (RecipeSearchForm_is_valid (Some d2)); [|reflexivity].
  destruct (search store _ _ _ _) as [|r rs]; [reflexivity|].
  destruct (get_chart_output_indep agg_render (qd_get d2 "chart_type")
              (annotate (r :: rs)) (names_of (annotate (r :: rs))) st1 st2) as [Hc _].
  destruct (get_chart agg_render _ _ _ st1) as [c1 s1].
  destruct (get_chart agg_render _ _ _ st2) as [c2 s2].
  simpl in Hc. subst c2. destruct c1; reflexivity.
Qed.

Lemma post_get_same_search_witness :
  fst (list_post (fun _ => []) (mkRequest "POST" []
         [("csrfmiddlewaretoken", "t0k3n"); ("chart_type", "#2"); ("difficulty", "Easy")])
         sample_store st0)
  = fst (list_get (fun _ => []) (mkRequest "GET" [("difficulty", "Easy"); ("chart_type", "#2")] [])
         sample_store (mkPyplot "tkagg" [default_figure] ["x"])).
Proof.
  refine (proj2 (post_get_same_search (fun _ => []) sample_store [] _ _ [] st0 _ _)).
  intros k Hk. simpl in Hk.
  destruct Hk as [<-|[<-|[<-|[<-|[<-|[]]]]]]; reflexivity.
Defined.

(** ** Recipe lookup by primary key *)

Lemma objects_get_id_cases : forall store v,
  NoDup (map id store) ->
  (objects_get_id store v = DoesNotExist /\ forall r, In r store -> id r <> v)
  \/ (exists r, In r store /\ id r = v /\ objects_get_id store v = Found r).
Proof.
  intros store v Hnd. unfold objects_get_id.
  pose proof (unique_ids_filter (fun r => Z.eqb (id r) v) store Hnd) as Hf.
  destruct (filter (fun r => Z.eqb (id r) v) store) as [|r1 [|r2 rest]] eqn:E.
  - left. split; [reflexivity|]. intros r Hr Hid.
    assert (Hin : In r (filter (fun r => Z.eqb (id r) v) store))
      by (apply filter_In; split; [exact Hr|now apply Z.eqb_eq]).
    rewrite E in Hin. contradiction.
  - right. exists r1.
    assert (Hin : In r1 (filter (fun r => Z.eqb (id r) v) store)) by (rewrite E; left; reflexivity).
    apply filter_In in Hin as [Hin Hid]. apply Z.eqb_eq in Hid. auto.
  - exfalso.
    assert (H1 : In r1 (filter (fun r => Z.eqb (id r) v) store)) by (rewrite E; left; reflexivity).
    assert (H2 : In r2 (filter (fun r => Z.eqb (id r) v) store)) by (rewrite E; right; left; reflexivity).
    apply filter_In in H1 as [_ H1]. apply filter_In in H2 as [_ H2].
    apply Z.eqb_eq in H1. apply Z.eqb_eq in H2.
    simpl in Hf. inversion Hf as [|? ? Hn _]. apply Hn. left. congruence.
Qed.

(** C10: over a table with unique primary keys, [get_recipename_from_id v]
    returns the name of the recipe with primary key [v] when there is one, the
    string "Unknown Recipe" when there is none, and never raises. *)
Theorem get_recipename_from_id_spec :
  forall (store : list Recipe) (v : Z),
    NoDup (map id store) ->
    (forall r, In r store -> id r = v -> get_recipename_from_id store v = Ok (name r))
    /\ ((forall r, In r store -> id r <> v) -> get_recipename_from_id store v = Ok "Unknown Recipe")
    /\ (forall exc, get_recipename_from_id store v <> Raise exc).
Proof.
  intros store v Hnd. unfold get_recipename_from_id.
  destruct (objects_get_id_cases store v Hnd) as [[E Hno]|[r [Hr [Hid E]]]]; rewrite E.
  - split; [intros r Hr Hid; exfalso; exact (Hno r Hr Hid)|].
    split; [reflexivity|discriminate].
  - split; [|split; [intros Hno; exfalso; exact (Hno r Hr Hid)|discriminate]].
    intros r' Hr' Hid'. rewrite (unique_ids_same_row store r' r Hnd Hr' Hr (eq_trans Hid' (eq_sym Hid))).
    reflexivity.
Qed.

Lemma get_recipename_from_id_spec_witness :
  NoDup (map id sample_store)
  /\ get_recipename_from_id sample_store 2 = Ok "Banana Smoothie"
  /\ get_recipename_from_id sample_store 999 = Ok "Unknown Recipe".
Proof.
  assert (H : NoDup (map id sample_store)) by (repeat constructor; simpl; intuition discriminate).
  destruct (get_recipename_from_id_spec sample_store 2 H) as [H2 _].
  destruct (get_recipename_from_id_spec sample_store 999 H) as [_ [H999 _]].
  split; [exact H|]. split.
  - exact (H2 (mkRecipe 2 "Banana Smoothie" 5 "banana, milk, honey, ice" None "snack" 1)
              (or_intror (or_introl eq_refl)) eq_refl).
  - apply H999. intros r Hr. simpl in Hr.
    destruct Hr as [<-|[<-|[<-|[]]]]; discriminate.
Defined.

(** ** Model invariants *)

Lemma clean_required_char_len : forall v nm,
  clean_required_char (Some 120%nat) v = Some nm -> (String.length nm <= 120)%nat.
Proof.
  intros [s|] nm H; [|discriminate]. unfold clean_required_char in H.
  destruct (String.eqb (strip s) ""); [discriminate|].
  destruct (has_nul (strip s)); [discriminate|].
  destruct (Nat.leb_spec (String.length (strip s)) 120); [|discriminate].
  inversion H; subst. assumption.
Qed.

Lemma clean_positive_int_nonneg : forall v ct, clean_positive_int v = Some ct -> 0 <= ct.
Proof.
  intros [s|] ct H; [|discriminate]. unfold clean_positive_int in H.
  destruct (String.eqb s ""); [discriminate|].
  destruct (py_int (strip_decimal s)) as [n|]; [|discriminate].
  destruct (Z.leb_spec 0 n); [|discriminate]. cbn [andb] in H.
  destruct (n <=? 9223372036854775807); [|discriminate]. inversion H; subst. assumption.
Qed.

Lemma clean_category_choice : forall v cat,
  clean_category v = Some cat
  -> existsb (fun c => String.eqb (fst c) cat) CATEGORY_CHOICES = true.
Proof.
  intros [s|] cat H; [|discriminate]. unfold clean_category in H.
  destruct (existsb _ CATEGORY_CHOICES) eqn:E; [|discriminate].
  inversion H; subst. exact E.
Qed.

Lemma clean_recipe_form_inv : forall d nm ct ingr descr cat,
  clean_recipe_form d = Some (nm, ct, ingr, descr, cat) ->
  forall i ds u, recipe_invariant (mkRecipe i nm ct ingr ds cat u) = true.
Proof.
  intros d nm ct ingr descr cat H i ds u. unfold clean_recipe_form in H.
  destruct (clean_required_char (Some 120%nat) (qd_get d "name")) as [nm'|] eqn:E1;
    [|discriminate].
  destruct (clean_positive_int (qd_get d "cooking_time")) as [ct'|] eqn:E2; [|discriminate].
  destruct (clean_required_char None (qd_get d "ingredients")) as [ingr'|]; [|discriminate].
  destruct (clean_description (qd_get d "description")) as [descr'|]; [|discriminate].
  destruct (clean_category (qd_get d "category")) as [cat'|] eqn:E4; [|discriminate].
  inversion H; subst.
  apply clean_required_char_len in E1. apply clean_positive_int_nonneg in E2.
  apply clean_category_choice in E4.
  unfold recipe_invariant. cbn [cooking_time category name]. rewrite E4.
  apply Z.leb_le in E2. apply Nat.leb_le in E1. rewrite E2, E1. reflexivity.
Qed.

Lemma samples_ok : Forall (fun s => sample_ok s = true) SAMPLE_RECIPES.
Proof.
  apply Forall_forall. intros s Hs.
  assert (Hall : forallb sample_ok SAMPLE_RECIPES = true) by (vm_compute; reflexivity).
  rewrite forallb_forall in Hall. exact (Hall s Hs).
Qed.

Lemma invariant_fields : forall r r',
  cooking_time r = cooking_time r' -> category r = category r' -> name r = name r' ->
  recipe_invariant r = recipe_invariant r'.
Proof. intros r r' E1 E2 E3. unfold recipe_invariant. now rewrite E1, E2, E3. Qed.

Lemma insert_row_rows : forall t mk t', insert_row t mk = Some t' ->
  exists i, next_id t = Some i /\ t' = mkTable (rows t ++ [mk i])%list i.
Proof.
  intros t mk t' H. unfold insert_row in H.
  destruct (next_id t) as [i|]; [|discriminate]. injection H as <-. eauto.
Qed.

Lemma Forall_filter_keep {A} (P : A -> Prop) (f : A -> bool) (l : list A) :
  Forall P l -> Forall P (filter f l).
Proof.
  intros H. apply Forall_forall. intros x Hx. apply filter_In in Hx as [Hx _].
  rewrite Forall_forall in H. exact (H x Hx).
Qed.

Lemma load_samples_inv : forall samples t owner,
  Forall (fun s => sample_ok s = true) samples ->
  Forall (fun r => recipe_invariant r = true) (rows t) ->
  Forall (fun r => recipe_invariant r = true) (rows (load_samples samples t owner)).
Proof.
  induction samples as [|[[[nm ct] ingr] cat] rest IH]; intros t owner Hs Hst;
    cbn [load_samples]; [exact Hst|].
  inversion Hs as [|? ? Hok Hrest]; subst.
  unfold get_or_create.
  destruct (filter (fun r => String.eqb (name r) nm) (rows t)) as [|x [|y l]].
  - destruct (insert_row t _) as [t'|] eqn:Ei; [|exact Hst].
    apply IH; [exact Hrest|]. destruct (insert_row_rows _ _ _ Ei) as [i [_ ->]].
    cbn [rows]. apply Forall_app. split; [exact Hst|]. constructor; [|constructor].
    simpl in Hok. rewrite <- Hok. now apply invariant_fields.
  - apply IH; assumption.
  - exact Hst.
Qed.

Lemma store_step_inv : forall t op,
  Forall (fun r => recipe_invariant r = true) (rows t) ->
  Forall (fun r => recipe_invariant r = true) (rows (store_step t op)).
Proof.
  intros t [d owner|pk d|pk|u|owner] H; unfold store_step.
  - unfold create_via_form.
    destruct (clean_recipe_form d) as [[[[[nm ct] ingr] descr] cat]|] eqn:E; [|exact H].
    destruct (insert_row t _) as [t'|] eqn:Ei; [|exact H].
    destruct (insert_row_rows _ _ _ Ei) as [i [_ ->]].
    cbn [rows]. apply Forall_app. split; [exact H|]. constructor; [|constructor].
    exact (clean_recipe_form_inv d nm ct ingr descr cat E _ _ _).
  - unfold change_via_admin.
    destruct (clean_recipe_form d) as [[[[[nm ct] ingr] descr] cat]|] eqn:E; [|exact H].
    cbn [rows]. apply Forall_map. apply Forall_forall. intros r Hr.
    destruct (Z.eqb (id r) pk).
    + exact (clean_recipe_form_inv d nm ct ingr descr cat E _ _ _).
    + rewrite Forall_forall in H. exact (H r Hr).
  - apply Forall_filter_keep. exact H.
  - apply Forall_filter_keep. exact H.
  - apply load_samples_inv; [exact samples_ok|exact H].
Qed.

(** What the form cleaning accepts, on concrete inputs: [int()] takes a
    decimal point followed by zeros, single underscores between digits and
    padding by any Python whitespace (here a no-break space); the value must
    lie in [0, 9223372036854775807]; the description defaults to [''] and a
    NUL character is refused. *)
Lemma form_cleaning_examples :
  clean_positive_int (Some "15.0") = Some 15
  /\ clean_positive_int (Some "1_5") = Some 15
  /\ clean_positive_int (Some (String (ascii_of_nat 160) "15 ")) = Some 15
  /\ clean_positive_int (Some "15.5") = None
  /\ clean_positive_int (Some "1__5") = None
  /\ clean_positive_int (Some "-1") = None
  /\ clean_positive_int (Some "9223372036854775807") = Some 9223372036854775807
  /\ clean_positive_int (Some "9223372036854775808") = None
  /\ clean_description None = Some ""
  /\ clean_description (Some " ") = Some ""
  /\ clean_required_char (Some 120%nat) (Some (String (ascii_of_nat 160) "Soup")) = Some "Soup"
  /\ clean_required_char (Some 120%nat) (Some (String "a" (String Ascii.zero ""))) = None.
Proof. vm_compute. repeat split. Qed.

(** C9: every stored recipe has [cooking_time >= 0], a category among
    breakfast, lunch, dinner, dessert and snack, and a name of at most 120
    characters, and every write path of the application (the create form, the
    admin change and delete, the cascade of a user's deletion and
    [load_sample_recipes]) keeps it so; a recipe built without a category
    gets [lunch]. *)
Theorem recipe_invariants_preserved :
  forall (t : Table) (ops : list StoreOp),
    Forall (fun r => recipe_invariant r = true) (rows t) ->
    Forall (fun r => recipe_invariant r = true) (rows (run_ops t ops))
    /\ (forall r, In r (rows (run_ops t ops)) ->
          0 <= cooking_time r
          /\ In (category r) ["breakfast"; "lunch"; "dinner"; "dessert"; "snack"]
          /\ (String.length (name r) <= 120)%nat)
    /\ (forall i nm ct ingr descr u,
          category (new_recipe i nm ct ingr descr None u) = "lunch").
Proof.
  intros t ops H.
  assert (Hrun : Forall (fun r => recipe_invariant r = true) (rows (run_ops t ops))).
  { unfold run_ops. revert t H.
    induction ops as [|op ops IH]; intros t H; simpl; [exact H|].
    apply IH. now apply store_step_inv. }
  split; [exact Hrun|]. split; [|reflexivity].
  intros r Hr. rewrite Forall_forall in Hrun. specialize (Hrun r Hr).
  unfold recipe_invariant in Hrun.
  apply andb_prop in Hrun as [Hrun Hlen]. apply andb_prop in Hrun as [Hct Hcat].
  apply Z.leb_le in Hct. apply Nat.leb_le in Hlen.
  split; [exact Hct|]. split; [|exact Hlen].
  cbn [existsb CATEGORY_CHOICES fst] in Hcat.
  destruct (String.eqb_spec "breakfast" (category r)) as [<-|_]; [simpl; auto|].
  destruct (String.eqb_spec "lunch" (category r)) as [<-|_]; [simpl; auto|].
  destruct (String.eqb_spec "dinner" (category r)) as [<-|_]; [simpl; auto|].
  destruct (String.eqb_spec "dessert" (category r)) as [<-|_]; [simpl; auto 6|].
  destruct (String.eqb_spec "snack" (category r)) as [<-|_]; [simpl; auto 7|].
  discriminate.
Qed.

Lemma recipe_invariants_preserved_witness :
  Forall (fun r => recipe_invariant r = true)
    (rows (run_ops (mkTable [] 0)
       [LoadSampleRecipes 1;
        FormCreate [("name", " Pasta "); ("cooking_time", "15.0");
                    ("ingredients", "pasta, tomato"); ("category", "dinner")] 1;
        FormCreate [("name", "Bad"); ("cooking_time", "-3");
                    ("ingredients", "x"); ("category", "brunch")] 1;
        AdminChange 2 [("name", "Omelette"); ("cooking_time", "1_0");
                       ("ingredients", "egg"); ("category", "breakfast")];
        AdminDelete 3; UserDelete 7])).
Proof.
  exact (proj1 (recipe_invariants_preserved (mkTable [] 0) _ (Forall_nil _))).
Defined.

(** ** Pagination, querystring, charts and the recipe table *)

Lemma all_bytes_quoted_ok : forall b, (b < 256)%N -> quoted_byte_ok b = true.
Proof.
  assert (H : forallb quoted_byte_ok (map N.of_nat (seq 0 256)) = true) by (vm_compute; reflexivity).
  intros b Hb. rewrite forallb_forall in H. apply H.
  apply in_map_iff. exists (N.to_nat b). split; [apply N2Nat.id|apply in_seq; lia].
Qed.

Lemma all_chars_utf8_ok : forall c, utf8_char_ok c = true.
Proof.
  assert (H : forallb (fun n => utf8_char_ok (ascii_of_nat n)) (seq 0 256) = true)
    by (vm_compute; reflexivity).
  intros c. rewrite <- (ascii_nat_embedding c).
  rewrite forallb_forall in H. apply H. apply in_seq.
  pose proof (nat_ascii_bounded c). lia.
Qed.

Lemma str_forall_app : forall p a b, str_forall p (a ++ b) = str_forall p a && str_forall p b.
Proof. induction a as [|c a IH]; intros b; simpl; [reflexivity|]. rewrite IH. apply andb_assoc. Qed.

Lemma replace_plus_app : forall a b, replace_plus (a ++ b) = replace_plus a ++ replace_plus b.
Proof. induction a as [|c a IH]; intros b; simpl; [reflexivity|now rewrite IH]. Qed.

Lemma utf8_app : forall a b, utf8 (a ++ b) = (utf8 a ++ utf8 b)%list.
Proof. induction a as [|c a IH]; intros b; simpl; [reflexivity|now rewrite IH, app_assoc]. Qed.

Lemma utf8_bytes : forall s, Forall (fun b => (b < 256)%N) (utf8 s).
Proof.
  induction s as [|c t IH]; simpl; [constructor|]. apply Forall_app. split; [|exact IH].
  pose proof (all_chars_utf8_ok c) as H. unfold utf8_char_ok in H.
  apply andb_prop in H as [H _]. rewrite forallb_forall in H.
  apply Forall_forall. intros b Hb. apply N.ltb_lt. auto.
Qed.

Lemma utf8_decode_char : forall c rest,
  utf8_decode (utf8_char c ++ rest) = option_map (String c) (utf8_decode rest).
Proof.
  intros c rest. pose proof (all_chars_utf8_ok c) as H. unfold utf8_char_ok in H.
  apply andb_prop in H as [_ H].
  destruct (utf8_char c) as [|b1 [|b2 [|b3 l]]]; try discriminate.
  - apply andb_prop in H as [H1 H2]. apply Ascii.eqb_eq in H2.
    simpl. rewrite H1, H2. reflexivity.
  - repeat match goal with H : _ && _ = true |- _ => apply andb_prop in H as [? ?] end.
    match goal with H : Ascii.eqb _ c = true |- _ => apply Ascii.eqb_eq in H end.
    simpl. apply negb_true_iff in H. rewrite H.
    repeat match goal with H : ?x = true |- _ => rewrite H; clear H end.
    simpl. destruct (utf8_decode rest); simpl; congruence.
Qed.

Lemma utf8_decode_utf8 : forall s, utf8_decode (utf8 s) = Some s.
Proof.
  induction s as [|c t IH]; [reflexivity|]. simpl. rewrite utf8_decode_char, IH. reflexivity.
Qed.

Lemma pct_decode_quoted_byte : forall b rest, (b < 256)%N ->
  pct_decode (replace_plus (quote_plus_byte b) ++ rest) = b :: pct_decode rest.
Proof.
  intros b rest Hb. pose proof (all_bytes_quoted_ok b Hb) as H. unfold quoted_byte_ok in H.
  apply andb_prop in H as [_ H]. revert H.
  generalize (replace_plus (quote_plus_byte b)) as r. intros r H.
  destruct r as [|c [|a [|d [|e r]]]]; try discriminate; unfold decodes_to in H.
  - apply andb_prop in H as [H1 H2]. apply negb_true_iff in H1. apply N.eqb_eq in H2.
    simpl. rewrite H1. now rewrite H2.
  - apply andb_prop in H as [H1 H2]. apply Ascii.eqb_eq in H1. subst c.
    destruct (hex_value a) as [x|] eqn:Ha; [|discriminate].
    destruct (hex_value d) as [y|] eqn:Hd; [|discriminate].
    apply N.eqb_eq in H2. simpl. rewrite Ha, Hd. now rewrite H2.
Qed.

Lemma pct_decode_quote_plus : forall bs, Forall (fun b => (b < 256)%N) bs ->
  pct_decode (replace_plus (quote_plus bs)) = bs.
Proof.
  induction bs as [|b bs IH]; intros H; [reflexivity|]. inversion H; subst.
  simpl. rewrite replace_plus_app, pct_decode_quoted_byte by assumption. now rewrite IH.
Qed.

Lemma quote_plus_chars : forall bs, Forall (fun b => (b < 256)%N) bs ->
  str_forall no_amp_eq (quote_plus bs) = true
  /\ str_forall ascii7 (replace_plus (quote_plus bs)) = true.
Proof.
  induction bs as [|b bs IH]; intros H; [split; reflexivity|]. inversion H; subst.
  destruct (IH H3) as [IH1 IH2].
  pose proof (all_bytes_quoted_ok b H2) as Hb. unfold quoted_byte_ok in Hb.
  apply andb_prop in Hb as [Hb _]. apply andb_prop in Hb as [Hb1 Hb2].
  simpl. rewrite str_forall_app, replace_plus_app, str_forall_app, Hb1, Hb2, IH1, IH2.
  split; reflexivity.
Qed.

Lemma str_app_empty : forall s : string, s ++ "" = s.
Proof. induction s as [|c s IH]; simpl; [reflexivity|now rewrite IH]. Qed.

Lemma unquote_runs_ascii : forall x run, str_forall ascii7 x = true ->
  unquote_runs x run = utf8_decode (pct_decode (run ++ x)).
Proof.
  induction x as [|c x IH]; intros run H.
  - simpl. now rewrite str_app_empty.
  - simpl in H. apply andb_prop in H as [Hc Hx]. unfold ascii7 in Hc.
    simpl. rewrite Hc. rewrite IH by exact Hx. now rewrite append_assoc_str.
Qed.

Lemma decode_no_pct : forall x, str_forall ascii7 x = true -> contains x "%" = false ->
  utf8_decode (pct_decode x) = Some x.
Proof.
  induction x as [|c x IH]; intros H Hp; [reflexivity|].
  simpl in H. apply andb_prop in H as [Hc Hx].
  assert (Hc' : c <> "%"%char).
  { intros ->. assert (contains (String "%" x) "%" = true) by
      (apply contains_spec; exists "", x; reflexivity). congruence. }
  assert (Hx' : contains x "%" = false).
  { destruct (contains x "%") eqn:E; [|reflexivity].
    apply contains_spec in E as (p & s & ->).
    assert (contains (String c (p ++ "%" ++ s)) "%" = true) by
      (apply contains_spec; exists (String c p), s; reflexivity). congruence. }
  cbn [pct_decode]. destruct (Ascii.eqb_spec c "%") as [E'|_]; [congruence|].
  cbn [utf8_decode]. unfold ascii7 in Hc.
  assert (Hn : (N_of_ascii c <? 128)%N = true).
  { apply N.ltb_lt. apply Nat.ltb_lt in Hc. unfold nat_of_ascii in Hc. lia. }
  rewrite Hn, ascii_N_embedding, IH by assumption. reflexivity.
Qed.

Lemma unquote_ascii : forall x, str_forall ascii7 x = true ->
  unquote x = utf8_decode (pct_decode x).
Proof.
  intros x H. unfold unquote. destruct (contains x "%") eqn:E.
  - now rewrite unquote_runs_ascii.
  - now rewrite decode_no_pct.
Qed.

Lemma unquote_plus_quote : forall s, unquote_plus (quote_plus (utf8 s)) = Some s.
Proof.
  intros s. destruct (quote_plus_chars _ (utf8_bytes s)) as [_ H2].
  unfold unquote_plus. rewrite unquote_ascii by exact H2.
  rewrite pct_decode_quote_plus by apply utf8_bytes. apply utf8_decode_utf8.
Qed.

Lemma split_eq_app : forall x y, str_forall no_amp_eq x = true ->
  split_eq (x ++ "=" ++ y) = (x, Some y).
Proof.
  induction x as [|c x IH]; intros y H; [reflexivity|].
  simpl in H. apply andb_prop in H as [Hc Hx]. unfold no_amp_eq in Hc.
  apply andb_prop in Hc as [_ Hc]. apply negb_true_iff in Hc.
  change (String c x ++ "=" ++ y) with (String c (x ++ "=" ++ y)).
  cbn [split_eq]. rewrite Hc, IH by exact Hx. reflexivity.
Qed.

Lemma py_split_amp_app : forall x s, str_forall no_amp_eq x = true ->
  py_split "&" (x ++ s) = (x ++ hd "" (py_split "&" s)) :: tl (py_split "&" s).
Proof.
  induction x as [|c x IH]; intros s H.
  - simpl. destruct (py_split "&" s) eqn:E; [now apply py_split_not_nil in E|reflexivity].
  - simpl in H. apply andb_prop in H as [Hc Hx]. unfold no_amp_eq in Hc.
    apply andb_prop in Hc as [Hc _]. apply negb_true_iff in Hc.
    change (String c x ++ s) with (String c (x ++ s)).
    cbn [py_split]. rewrite Hc, IH by exact Hx. reflexivity.
Qed.

Lemma encode_pair_chars : forall k v, str_forall no_amp_eq (quote_plus (utf8 k)) = true
  /\ str_forall (fun c => negb (Ascii.eqb c "&")) (encode_pair k v) = true.
Proof.
  intros k v. destruct (quote_plus_chars _ (utf8_bytes k)) as [Hk _].
  destruct (quote_plus_chars _ (utf8_bytes v)) as [Hv _]. split; [exact Hk|].
  assert (G : forall s, str_forall no_amp_eq s = true ->
             str_forall (fun c => negb (Ascii.eqb c "&")) s = true).
  { induction s as [|c s IH]; [reflexivity|]. simpl. intros H.
    apply andb_prop in H as [Hc Hs]. unfold no_amp_eq in Hc.
    apply andb_prop in Hc as [Hc _]. rewrite Hc. simpl. auto. }
  unfold encode_pair. rewrite !str_forall_app, (G _ Hk), (G _ Hv). reflexivity.
Qed.

Lemma py_split_noamp : forall x s, str_forall (fun c => negb (Ascii.eqb c "&")) x = true ->
  py_split "&" (x ++ s) = (x ++ hd "" (py_split "&" s)) :: tl (py_split "&" s).
Proof.
  induction x as [|c x IH]; intros s H.
  - simpl. destruct (py_split "&" s) eqn:E; [now apply py_split_not_nil in E|reflexivity].
  - simpl in H. apply andb_prop in H as [Hc Hx]. apply negb_true_iff in Hc.
    change (String c x ++ s) with (String c (x ++ s)).
    cbn [py_split]. rewrite Hc, IH by exact Hx. reflexivity.
Qed.

Lemma count_char_app : forall c a b, count_char c (a ++ b) = (count_char c a + count_char c b)%nat.
Proof. induction a as [|d a IH]; intros b; simpl; [reflexivity|]. rewrite IH. lia. Qed.

Lemma count_char_noamp : forall x, str_forall (fun c => negb (Ascii.eqb c "&")) x = true ->
  count_char "&" x = 0%nat.
Proof.
  induction x as [|c x IH]; intros H; [reflexivity|]. simpl in H.
  apply andb_prop in H as [Hc Hx]. apply negb_true_iff in Hc. simpl. rewrite Hc. auto.
Qed.

Lemma join_amp_split : forall xs,
  Forall (fun x => str_forall (fun c => negb (Ascii.eqb c "&")) x = true) xs -> xs <> [] ->
  py_split "&" (join_amp xs) = xs /\ count_char "&" (join_amp xs) = (List.length xs - 1)%nat.
Proof.
  induction xs as [|x [|y t] IH]; intros H Hne; [congruence| |].
  - inversion H; subst. cbn [join_amp].
    rewrite <- (str_app_empty x) at 1. rewrite py_split_noamp by assumption.
    cbn. rewrite str_app_empty, count_char_noamp by assumption. split; reflexivity.
  - inversion H; subst. destruct (IH H3 ltac:(discriminate)) as [IH1 IH2].
    change (join_amp (x :: y :: t)) with (x ++ "&" ++ join_amp (y :: t)).
    rewrite py_split_noamp by assumption.
    replace (py_split "&" ("&" ++ join_amp (y :: t))) with ("" :: py_split "&" (join_amp (y :: t)))
      by reflexivity.
    rewrite IH1. cbn [hd tl]. rewrite str_app_empty.
    rewrite count_char_app, count_char_noamp by assumption.
    replace (count_char "&" ("&" ++ join_amp (y :: t))) with (1 + count_char "&" (join_amp (y :: t)))%nat
      by reflexivity.
    rewrite IH2. cbn [List.length]. split; [reflexivity|lia].
Qed.

Lemma parse_pairs_enc : forall items, parse_pairs (map enc_item items) = Some items.
Proof.
  induction items as [|[k v] t IH]; [reflexivity|].
  cbn [map parse_pairs]. change (enc_item (k, v)) with (encode_pair k v).
  assert (Hne : String.eqb (encode_pair k v) "" = false).
  { apply String.eqb_neq. unfold encode_pair. destruct (quote_plus (utf8 k)); discriminate. }
  rewrite Hne. destruct (encode_pair_chars k v) as [Hk _]. unfold encode_pair.
  rewrite split_eq_app by exact Hk. rewrite !unquote_plus_quote, IH. reflexivity.
Qed.

Lemma qd_keys_in : forall d k, In k (qd_keys d) <-> In k (map fst d).
Proof.
  induction d as [|[k0 v0] t IH]; intros k; [simpl; tauto|].
  cbn [qd_keys map fst]. simpl. rewrite filter_In, <- IH.
  destruct (String.eqb_spec k k0) as [->|E]; simpl; [tauto|].
  split; [intros [H|[H _]]; [congruence|auto] | intros [H|H]; [congruence|]].
  right. split; [exact H|reflexivity].
Qed.

Lemma qd_keys_nodup : forall d, NoDup (qd_keys d).
Proof.
  induction d as [|[k0 v0] t IH]; cbn [qd_keys]; constructor.
  - rewrite filter_In. intros [_ H]. rewrite String.eqb_refl in H. discriminate.
  - apply NoDup_filter. exact IH.
Qed.

Lemma qd_items_lists : forall d,
  qd_items (qd_lists d) = flat_map (fun k => filter (key_is k) d) (qd_keys d).
Proof.
  intros d. unfold qd_items, qd_lists. generalize (qd_keys d) as K.
  induction K as [|k K IH]; [reflexivity|]. cbn [map flat_map fst snd]. rewrite IH. f_equal.
  clear. induction d as [|[k0 v0] t IH]; [reflexivity|]. unfold key_is in *. cbn [filter fst].
  destruct (String.eqb_spec k0 k) as [->|_]; cbn [map snd]; [now rewrite IH|exact IH].
Qed.

Lemma filter_key_flat : forall d k K, NoDup K ->
  filter (key_is k) (flat_map (fun k' => filter (key_is k') d) K)
  = if existsb (String.eqb k) K then filter (key_is k) d else [].
Proof.
  intros d k K. induction K as [|k' K IH]; intros HK; [reflexivity|].
  inversion HK; subst. cbn [flat_map existsb]. rewrite filter_app, IH by assumption.
  destruct (String.eqb_spec k k') as [->|E].
  - assert (Hn : existsb (String.eqb k') K = false).
    { apply not_true_is_false. intros Hx. apply existsb_exists in Hx as (x & Hx & Ex).
      apply String.eqb_eq in Ex. subst. contradiction. }
    rewrite Hn, app_nil_r. simpl. clear. induction d as [|kv d IH]; [reflexivity|].
    cbn [filter]. destruct (key_is k' kv) eqn:E; cbn [filter]; rewrite ?E; congruence.
  - cbn [orb]. replace (filter (key_is k) (filter (key_is k') d)) with (@nil (string * string)).
    + reflexivity.
    + clear -E. induction d as [|kv d IH]; [reflexivity|]. cbn [filter].
      destruct (key_is k' kv) eqn:E1; [|exact IH]. cbn [filter].
      destruct (key_is k kv) eqn:E2; [|exact IH].
      unfold key_is in *. apply String.eqb_eq in E1, E2. congruence.
Qed.

Lemma existsb_keys : forall d k, existsb (String.eqb k) (qd_keys d) = false ->
  filter (key_is k) d = [].
Proof.
  intros d k H. apply not_true_iff_false in H.
  induction d as [|[k0 v0] t IH]; [reflexivity|]. cbn [filter]. unfold key_is at 1. cbn [fst].
  destruct (String.eqb_spec k0 k) as [->|E].
  - exfalso. apply H. cbn [qd_keys existsb]. now rewrite String.eqb_refl.
  - apply IH. intros Hx. apply H. apply existsb_exists in Hx as (x & Hx & Ex).
    apply existsb_exists. exists x. split; [|exact Ex]. cbn [qd_keys]. right.
    apply filter_In. split; [exact Hx|]. apply String.eqb_eq in Ex. subst x.
    apply negb_true_iff, String.eqb_neq. congruence.
Qed.

(** [lists()] regroups the values but keeps, for each key, its values in order. *)
Lemma qd_items_lists_filter : forall d k,
  filter (key_is k) (qd_items (qd_lists d)) = filter (key_is k) d.
Proof.
  intros d k. rewrite qd_items_lists, filter_key_flat by apply qd_keys_nodup.
  destruct (existsb (String.eqb k) (qd_keys d)) eqn:E; [reflexivity|].
  symmetry. now apply existsb_keys.
Qed.

Lemma flat_map_cons_length : forall kv d K,
  List.length (flat_map (fun k => filter (key_is k) (kv :: d)) K)
  = (List.length (filter (String.eqb (fst kv)) K)
     + List.length (flat_map (fun k => filter (key_is k) d) K))%nat.
Proof.
  intros kv d K. induction K as [|k K IH]; [reflexivity|].
  cbn [flat_map]. rewrite !length_app, IH. cbn [filter]. unfold key_is at 1.
  destruct (String.eqb (fst kv) k); cbn [List.length]; rewrite ?length_app; lia.
Qed.

Lemma count_key_nodup : forall a K, NoDup K -> In a K ->
  List.length (filter (String.eqb a) K) = 1%nat.
Proof.
  intros a K HK Ha. induction K as [|k K IH]; [contradiction|]. inversion HK; subst.
  cbn [filter]. destruct (String.eqb_spec a k) as [->|E].
  - cbn [List.length]. f_equal. destruct (filter (String.eqb k) K) eqn:F; [reflexivity|].
    exfalso. assert (Hs : In s (filter (String.eqb k) K)) by (rewrite F; left; reflexivity).
    apply filter_In in Hs as [Hs Es]. apply String.eqb_eq in Es. subst. contradiction.
  - destruct Ha as [Ha|Ha]; [congruence|]. auto.
Qed.

Lemma flat_map_filter_length : forall d K, NoDup K -> (forall k, In k (map fst d) -> In k K) ->
  List.length (flat_map (fun k => filter (key_is k) d) K) = List.length d.
Proof.
  induction d as [|kv d IH]; intros K HK Hin.
  - induction K as [|k K IHK]; [reflexivity|]. inversion HK; subst. cbn. apply IHK; auto.
    intros _ [].
  - rewrite flat_map_cons_length, count_key_nodup, IH; auto.
    + intros k Hk. apply Hin. right. exact Hk.
    + apply Hin. left. reflexivity.
Qed.

Lemma qd_items_lists_length : forall d, List.length (qd_items (qd_lists d)) = List.length d.
Proof.
  intros d. rewrite qd_items_lists. apply flat_map_filter_length; [apply qd_keys_nodup|].
  intros k. apply qd_keys_in.
Qed.

Lemma qd_urlencode_items : forall d,
  qd_urlencode d = join_amp (map enc_item (qd_items (qd_lists d))).
Proof.
  intros d. unfold qd_urlencode, qd_items. f_equal. generalize (qd_lists d) as L.
  induction L as [|[k vs] L IH]; [reflexivity|]. cbn [flat_map fst snd].
  rewrite map_app, IH, map_map. reflexivity.
Qed.

Lemma qd_pop_absent : forall k d, existsb (key_is k) d = false -> qd_pop k d = d.
Proof.
  intros k d. unfold qd_pop. induction d as [|kv d IH]; [reflexivity|].
  cbn [existsb filter]. intros H. apply orb_false_iff in H as [H1 H2].
  unfold key_is in H1. rewrite H1. cbn [negb]. now rewrite IH.
Qed.

Lemma enc_items_noamp : forall items,
  Forall (fun x => str_forall (fun c => negb (Ascii.eqb c "&")) x = true) (map enc_item items).
Proof.
  intros items. apply Forall_forall. intros x Hx. apply in_map_iff in Hx as ([k v] & <- & _).
  apply encode_pair_chars.
Qed.

Lemma join_amp_enc_empty : forall items, String.eqb (join_amp (map enc_item items)) "" = true ->
  items = [].
Proof.
  intros [|[k v] t] H; [reflexivity|]. exfalso. apply String.eqb_eq in H.
  destruct t as [|kv t]; cbn [map join_amp] in H; unfold enc_item, encode_pair in H;
    cbn [fst snd] in H; destruct (quote_plus (utf8 k)); discriminate.
Qed.

Lemma link_query_items : forall p req,
  link_query p req
  = join_amp (map enc_item (("page", p) :: qd_items (qd_lists (qd_pop "page"
      (if String.eqb (method req) "GET" then GET req else POST req))))).
Proof.
  intros p req. unfold link_query, querystring.
  set (params := if String.eqb (method req) "GET" then GET req else POST req).
  replace (if existsb (fun kv => String.eqb (fst kv) "page") params then qd_pop "page" params
           else params) with (qd_pop "page" params).
  2:{ destruct (existsb (fun kv => String.eqb (fst kv) "page") params) eqn:E; [reflexivity|].
      apply qd_pop_absent. exact E. }
  rewrite qd_urlencode_items.
  destruct (String.eqb (join_amp (map enc_item (qd_items (qd_lists (qd_pop "page" params))))) "")
    eqn:E.
  - apply join_amp_enc_empty in E. rewrite E. cbn. now rewrite str_app_empty.
  - destruct (qd_items (qd_lists (qd_pop "page" params))) as [|kv t]; [discriminate|].
    reflexivity.
Qed.

Lemma parse_link_items : forall p params, (List.length params < 1000)%nat ->
  QueryDict_parse (join_amp (map enc_item (("page", p) :: qd_items (qd_lists (qd_pop "page" params)))))
  = QOk (("page", p) :: qd_items (qd_lists (qd_pop "page" params))).
Proof.
  intros p params Hlen. set (items := ("page", p) :: _).
  assert (Hne : map enc_item items <> []) by discriminate.
  destruct (join_amp_split _ (enc_items_noamp items) Hne) as [Hs Hc].
  unfold QueryDict_parse. rewrite Hc, Hs, length_map, parse_pairs_enc.
  assert (Hl : (List.length items <= List.length params + 1)%nat).
  { subst items. cbn [List.length]. rewrite qd_items_lists_length. unfold qd_pop.
    pose proof (filter_length_le (fun kv => negb (String.eqb (fst kv) "page")) params). lia. }
  replace (1000 <? 1 + (List.length items - 1))%nat with false by (symmetry; apply Nat.ltb_ge; lia).
  rewrite andb_false_r.
  destruct (String.eqb (join_amp (map enc_item items)) "") eqn:E; [|reflexivity].
  apply join_amp_enc_empty in E. discriminate.
Qed.

(** X1: the pagination link [page=p] followed by [querystring] parses back
    ([QueryDict(query_string)]) to the [page] entry and then every value of
    the request data except the old [page] entries, grouped by key in order
    of first appearance with each key's values in order: the
    [quote_plus]/[unquote_plus] round trip loses, alters or duplicates no
    value. This holds when the request data has fewer than 1000 entries. *)
Theorem pagination_link_round_trip : forall (req : Request) (p : string),
  (List.length (if String.eqb (method req) "GET" then GET req else POST req) < 1000)%nat ->
  QueryDict_parse (encode_pair "page" p ++ querystring req)
  = QOk (("page", p) :: qd_items (qd_lists (qd_pop "page"
           (if String.eqb (method req) "GET" then GET req else POST req)))).
Proof.
  intros req p Hlen. fold (link_query p req). rewrite link_query_items.
  apply parse_link_items. exact Hlen.
Qed.

Lemma pagination_link_round_trip_witness :
  (List.length [("page", "2"); ("recipe_name", "tom soup")] < 1000)%nat
  /\ QueryDict_parse (encode_pair "page" "3"
       ++ querystring (mkRequest "GET" [("page", "2"); ("recipe_name", "tom soup")] []))
     = QOk [("page", "3"); ("recipe_name", "tom soup")].
Proof.
  split; [cbn; lia|].
  exact (pagination_link_round_trip
           (mkRequest "GET" [("page", "2"); ("recipe_name", "tom soup")] []) "3"
           ltac:(cbn; lia)).
Defined.

Lemma qd_get_filter : forall d k, qd_get d k = qd_get (filter (key_is k) d) k.
Proof.
  intros d k. unfold qd_get. generalize (@None string) as acc.
  induction d as [|kv d IH]; intros acc; [reflexivity|].
  cbn [fold_left filter]. change (key_is k kv) with (String.eqb (fst kv) k).
  destruct (String.eqb (fst kv) k) eqn:E; cbn [fold_left]; rewrite ?E; apply IH.
Qed.

Lemma filter_key_pop_other : forall k k' d, k <> k' ->
  filter (key_is k) (qd_pop k' d) = filter (key_is k) d.
Proof.
  intros k k' d E. unfold qd_pop. rewrite filter_filter_and. apply filter_ext.
  intros [a b]. unfold key_is. cbn [fst].
  destruct (String.eqb_spec a k) as [->|_]; [|apply andb_false_r].
  destruct (String.eqb_spec k k') as [|_]; [congruence|reflexivity].
Qed.

Lemma filter_key_pop_same : forall k d, filter (key_is k) (qd_pop k d) = [].
Proof.
  intros k d. unfold qd_pop. rewrite filter_filter_and.
  induction d as [|[a b] d IH]; [reflexivity|]. cbn [filter].
  change (key_is k (a, b)) with (String.eqb a k). cbn [fst].
  destruct (String.eqb a k); exact IH.
Qed.

Lemma qd_keys_app : forall a b : QueryDict,
  qd_keys (a ++ b)%list
  = (qd_keys a ++ filter (fun k => negb (existsb (String.eqb k) (map fst a))) (qd_keys b))%list.
Proof.
  induction a as [|[k v] a IH]; intros b.
  - cbn. symmetry. induction (qd_keys b) as [|x l IHl]; [reflexivity|]. cbn. now rewrite IHl.
  - cbn [List.app qd_keys]. rewrite IH, filter_app, filter_filter_and. cbn [List.app].
    do 2 f_equal. apply filter_ext. intros x. cbn [map fst existsb].
    rewrite negb_orb. apply andb_comm.
Qed.

Lemma qd_keys_one_key : forall k l, (forall kv, In kv l -> fst kv = k) ->
  qd_keys l = match l with [] => [] | _ => [k] end.
Proof.
  intros k l H. induction l as [|[a b] l IH]; [reflexivity|].
  assert (Ha : a = k) by (apply (H (a, b)); left; reflexivity). subst a.
  cbn [qd_keys]. rewrite IH by (intros kv Hkv; apply H; right; exact Hkv).
  destruct l; cbn; [reflexivity|]. now rewrite String.eqb_refl.
Qed.

Lemma filter_key_fst : forall k d kv, In kv (filter (key_is k) d) -> fst kv = k.
Proof. intros k d kv H. apply filter_In in H as [_ H]. now apply String.eqb_eq. Qed.

Lemma filter_keep_all {A} (f : A -> bool) (l : list A) :
  (forall x, In x l -> f x = true) -> filter f l = l.
Proof.
  induction l as [|x l IH]; intros H; [reflexivity|]. cbn [filter].
  rewrite H by (left; reflexivity). f_equal. apply IH. intros y Hy. apply H. right. exact Hy.
Qed.

Lemma qd_keys_flat : forall P K, NoDup K -> (forall k, In k K -> filter (key_is k) P <> []) ->
  qd_keys (flat_map (fun k => filter (key_is k) P) K) = K.
Proof.
  intros P K HK Hne. induction K as [|k K IH]; [reflexivity|]. inversion HK; subst.
  cbn [flat_map]. rewrite qd_keys_app, IH by (auto; intros; apply Hne; right; assumption).
  rewrite (qd_keys_one_key k) by apply filter_key_fst.
  destruct (filter (key_is k) P) as [|kv l] eqn:F; [exfalso; apply (Hne k); auto; left; auto|].
  cbn [List.app]. f_equal. rewrite <- F.
  apply filter_keep_all. intros x Hx. apply negb_true_iff, not_true_iff_false. intros Ex.
  apply existsb_exists in Ex as (y & Hy & Ey). apply String.eqb_eq in Ey. subst y.
  apply in_map_iff in Hy as (kv' & <- & Hkv'). apply filter_key_fst in Hkv'.
  rewrite Hkv' in Hx. contradiction.
Qed.

Lemma qd_keys_items : forall P, qd_keys (qd_items (qd_lists P)) = qd_keys P.
Proof.
  intros P. rewrite qd_items_lists. apply qd_keys_flat; [apply qd_keys_nodup|].
  intros k Hk. apply qd_keys_in, in_map_iff in Hk as (kv & <- & Hkv).
  intros F. assert (Hf : In kv (filter (key_is (fst kv)) P))
    by (apply filter_In; split; [exact Hkv|apply String.eqb_refl]).
  rewrite F in Hf. contradiction.
Qed.

Lemma qd_lists_items : forall P, qd_lists (qd_items (qd_lists P)) = qd_lists P.
Proof.
  intros P. unfold qd_lists at 1 3. rewrite qd_keys_items. apply map_ext. intros k.
  change (fun kv : string * string => String.eqb (fst kv) k) with (key_is k).
  now rewrite qd_items_lists_filter.
Qed.

Lemma qd_pop_nokey : forall k l, filter (key_is k) l = [] -> qd_pop k l = l.
Proof.
  intros k l H. apply qd_pop_absent. apply not_true_iff_false. intros Ex.
  apply existsb_exists in Ex as (kv & Hkv & Ek).
  assert (Hf : In kv (filter (key_is k) l)) by (apply filter_In; auto).
  rewrite H in Hf. contradiction.
Qed.

Lemma querystring_params : forall req,
  querystring req
  = let q := qd_urlencode (qd_pop "page"
               (if String.eqb (method req) "GET" then GET req else POST req)) in
    if String.eqb q "" then "" else "&" ++ q.
Proof.
  intros req. unfold querystring. cbn zeta.
  destruct (existsb _ _) eqn:E; [reflexivity|]. now rewrite qd_pop_absent by exact E.
Qed.

Lemma parse_link_cases : forall p params,
  QueryDict_parse (join_amp (map enc_item (("page", p) :: qd_items (qd_lists (qd_pop "page" params)))))
  = QTooManyFields
  \/ QueryDict_parse (join_amp (map enc_item (("page", p) :: qd_items (qd_lists (qd_pop "page" params)))))
  = QOk (("page", p) :: qd_items (qd_lists (qd_pop "page" params))).
Proof.
  intros p params. set (items := ("page", p) :: _).
  assert (Hne : map enc_item items <> []) by discriminate.
  destruct (join_amp_split _ (enc_items_noamp items) Hne) as [Hs Hc].
  unfold QueryDict_parse. rewrite Hc, Hs, length_map, parse_pairs_enc.
  destruct (String.eqb (join_amp (map enc_item items)) "") eqn:E.
  - apply join_amp_enc_empty in E. discriminate.
  - cbn [negb andb]. destruct (1000 <? _)%nat; auto.
Qed.

(** The search context depends on the request data only through the values
    of the search keys. *)
Lemma search_context_keys : forall agg_render store d1 d2 st1 st2,
  (forall k, In k search_keys -> qd_get d1 k = qd_get d2 k) ->
  fst (get_context_data agg_render (mkRequest "GET" d1 []) store st1)
  = fst (get_context_data agg_render (mkRequest "GET" d2 []) store st2).
Proof.
  intros agg_render store d1 d2 st1 st2 Hk. unfold get_context_data. cbn zeta.
  assert (HG1 : request_data (mkRequest "GET" d1 []) = Some d1) by reflexivity.
  assert (HG2 : request_data (mkRequest "GET" d2 []) = Some d2) by reflexivity.
  rewrite HG1, HG2, (request_data_method _ d1 HG1), (request_data_method _ d2 HG2),
          !form_data_valid, (form_valid_keys d1 d2 Hk).
  cbn [andb]. rewrite !Hk by (simpl; tauto).
  destruct (RecipeSearchForm_is_valid (Some d2)); [|reflexivity].
  destruct (search store _ _ _ _) as [|r rs]; [reflexivity|].
  destruct (get_chart_output_indep agg_render (qd_get d2 "chart_type")
              (annotate (r :: rs)) (names_of (annotate (r :: rs))) st1 st2) as [Hc _].
  destruct (get_chart agg_render _ _ _ st1) as [c1 s1].
  destruct (get_chart agg_render _ _ _ st2) as [c2 s2].
  simpl in Hc. subst c2. destruct c1; reflexivity.
Qed.

(** X2: following a pagination link of a GET or POST request gives a GET
    request whose [page] is [p], whose other keys read as in the original
    request data, whose own [querystring] is the original one, and whose
    search context (recipes and chart) is the original request's, whatever
    the pyplot state. *)
Theorem page_link_keeps_search :
  forall (agg_render : Figure -> list byte) (req : Request) (p : string) (d' : QueryDict)
         (store : list Recipe) (st1 st2 : Pyplot),
    method req = "GET" \/ method req = "POST" ->
    QueryDict_parse (encode_pair "page" p ++ querystring req) = QOk d' ->
    qd_get d' "page" = Some p
    /\ (forall k, k <> "page" ->
          qd_get d' k = qd_get (if String.eqb (method req) "GET" then GET req else POST req) k)
    /\ querystring (mkRequest "GET" d' []) = querystring req
    /\ fst (list_get agg_render (mkRequest "GET" d' []) store st1)
       = fst (list_get agg_render req store st2).
Proof.
  intros agg_render req p d' store st1 st2 Hm Hp.
  fold (link_query p req) in Hp. rewrite link_query_items in Hp.
  set (params := if String.eqb (method req) "GET" then GET req else POST req) in *.
  assert (Hd : d' = ("page", p) :: qd_items (qd_lists (qd_pop "page" params))).
  { destruct (parse_link_cases p params) as [E|E]; rewrite E in Hp; congruence. }
  clear Hp. subst d'.
  assert (Hnopage : filter (key_is "page") (qd_items (qd_lists (qd_pop "page" params))) = []).
  { rewrite qd_items_lists_filter. apply filter_key_pop_same. }
  assert (Hget : forall k, k <> "page" ->
            qd_get (("page", p) :: qd_items (qd_lists (qd_pop "page" params))) k = qd_get params k).
  { intros k Hk. rewrite qd_get_filter, (qd_get_filter params).
    cbn [filter]. change (key_is k ("page", p)) with (String.eqb "page" k).
    destruct (String.eqb_spec "page" k) as [E|_]; [congruence|].
    rewrite qd_items_lists_filter, filter_key_pop_other by exact Hk. reflexivity. }
  split; [|split; [exact Hget|split]].
  - rewrite qd_get_filter. cbn [filter]. change (key_is "page" ("page", p)) with (String.eqb "page" "page").
    rewrite String.eqb_refl, Hnopage. reflexivity.
  - rewrite !querystring_params. cbn [method GET]. rewrite String.eqb_refl. fold params.
    cbn [qd_pop filter fst]. rewrite String.eqb_refl. cbn [negb].
    fold (qd_pop "page" (qd_items (qd_lists (qd_pop "page" params)))).
    rewrite qd_pop_nokey by exact Hnopage.
    unfold qd_urlencode. rewrite qd_lists_items. reflexivity.
  - assert (Hrd : request_data req = Some params).
    { unfold request_data, params.
      destruct Hm as [Hm|Hm]; rewrite Hm; reflexivity. }
    unfold list_get. rewrite (get_context_data_on _ req _ _ params Hrd).
    apply search_context_keys. intros k Hk. apply Hget.
    intros ->. simpl in Hk. intuition discriminate.
Qed.

Lemma page_link_keeps_search_witness :
  QueryDict_parse (encode_pair "page" "3"
       ++ querystring (mkRequest "POST" [] [("recipe_name", "tom soup"); ("page", "1")]))
    = QOk [("page", "3"); ("recipe_name", "tom soup")]
  /\ fst (list_get (fun _ => []) (mkRequest "GET" [("page", "3"); ("recipe_name", "tom soup")] [])
            sample_store st0)
     = fst (list_get (fun _ => []) (mkRequest "POST" [] [("recipe_name", "tom soup"); ("page", "1")])
            sample_store st0).
Proof.
  assert (H : QueryDict_parse (encode_pair "page" "3"
       ++ querystring (mkRequest "POST" [] [("recipe_name", "tom soup"); ("page", "1")]))
    = QOk [("page", "3"); ("recipe_name", "tom soup")]) by (vm_compute; reflexivity).
  split; [exact H|].
  exact (proj2 (proj2 (proj2 (page_link_keeps_search (fun _ => [])
           (mkRequest "POST" [] [("recipe_name", "tom soup"); ("page", "1")]) "3" _
           sample_store st0 st0 (or_intror eq_refl) H)))).
Defined.

Lemma num_pages_cover : forall count k, (0 < k)%nat -> (count <= k * num_pages count k)%nat.
Proof.
  intros count k Hk. unfold num_pages.
  pose proof (Nat.div_mod (Nat.max 1 count + k - 1) k ltac:(lia)).
  pose proof (Nat.mod_upper_bound (Nat.max 1 count + k - 1) k ltac:(lia)). lia.
Qed.

Lemma num_pages_pos : forall count k, (0 < k)%nat -> (1 <= num_pages count k)%nat.
Proof.
  intros count k Hk. unfold num_pages.
  pose proof (Nat.div_mod (Nat.max 1 count + k - 1) k ltac:(lia)).
  pose proof (Nat.mod_upper_bound (Nat.max 1 count + k - 1) k ltac:(lia)).
  destruct ((Nat.max 1 count + k - 1) / k)%nat eqn:E; [|lia].
  rewrite Nat.mul_0_r in *. lia.
Qed.

Lemma page_slice : forall {A} (l : list A) (k n : nat), (1 <= n)%nat ->
  let bottom := ((n - 1) * k)%nat in
  let top := (bottom + k)%nat in
  let top := if (List.length l <=? top)%nat then List.length l else top in
  firstn (top - bottom) (skipn bottom l) = firstn k (skipn ((n - 1) * k) l).
Proof.
  intros A l k n Hn. cbn zeta.
  destruct (Nat.leb_spec (List.length l) ((n - 1) * k + k)) as [H|H]; [|f_equal; lia].
  rewrite !firstn_all2; [reflexivity| |]; rewrite length_skipn; lia.
Qed.

Lemma paginate_number : forall {A} (l : list A) k page n,
  (0 < k)%nat ->
  match truthy page with
  | None => Some 1
  | Some s => match py_int s with
              | Some n => Some n
              | None => if String.eqb s "last" then Some (Z.of_nat (num_pages (List.length l) k)) else None
              end
  end = Some n ->
  paginate_queryset l k page
  = if (n <? 1) || (Z.of_nat (num_pages (List.length l) k) <? n) then Raise "Http404"
    else Ok (Z.to_nat n, firstn k (skipn ((Z.to_nat n - 1) * k) l)).
Proof.
  intros A l k page n Hk Hn. unfold paginate_queryset. cbn zeta. rewrite Hn.
  destruct ((n <? 1) || _) eqn:R; [reflexivity|].
  apply orb_false_iff in R as [R _]. apply Z.ltb_ge in R.
  rewrite (page_slice l k (Z.to_nat n)) by lia. reflexivity.
Qed.

Lemma chunks_concat : forall {A} k m (l : list A), (List.length l <= k * m)%nat ->
  List.concat (map (fun i => firstn k (skipn (i * k) l)) (seq 0 m)) = l.
Proof.
  intros A k m. induction m as [|m IH]; intros l Hl.
  - simpl. destruct l; [reflexivity|simpl in Hl; lia].
  - cbn [seq map List.concat]. rewrite <- seq_shift, map_map.
    rewrite (map_ext (fun x => firstn k (skipn (S x * k) l))
                     (fun x => firstn k (skipn (x * k) (skipn k l)))).
    2:{ intros x. rewrite skipn_skipn. f_equal. f_equal. lia. }
    rewrite IH by (rewrite length_skipn; lia). cbn [Nat.mul skipn]. apply firstn_skipn.
Qed.

Lemma py_int_nonempty : forall s n, py_int s = Some n -> truthy (Some s) = Some s.
Proof.
  intros s n H. unfold truthy. destruct (String.eqb_spec s "") as [->|_]; [discriminate|reflexivity].
Qed.

Lemma paginate_int : forall {A} (l : list A) s n, py_int s = Some n ->
  paginate_queryset l paginate_by (Some s)
  = if (1 <=? n) && (n <=? Z.of_nat (num_pages (List.length l) paginate_by))
    then Ok (Z.to_nat n, firstn paginate_by (skipn ((Z.to_nat n - 1) * paginate_by) l))
    else Raise "Http404".
Proof.
  intros A l s n H. rewrite (paginate_number l paginate_by (Some s) n) by
    (unfold paginate_by; try lia; rewrite (py_int_nonempty s n H), H; reflexivity).
  destruct (Z.leb_spec 1 n), (Z.leb_spec n (Z.of_nat (num_pages (List.length l) paginate_by)));
    cbn [andb];
  [rewrite (proj2 (Z.ltb_ge n 1)), (proj2 (Z.ltb_ge _ n)) by lia; reflexivity
  | rewrite (proj2 (Z.ltb_lt _ n)), orb_true_r by lia; reflexivity
  | rewrite (proj2 (Z.ltb_lt n 1)) by lia; reflexivity
  | rewrite (proj2 (Z.ltb_lt n 1)) by lia; reflexivity].
Qed.

(** X3: a page parameter that [int()] reads as [n] selects the 12 recipes at
    positions [(n-1)*12 ..] when [1 <= n <= num_pages], and raises
    [Http404] otherwise (also for [0] and negative numbers). *)
Theorem paginate_int_page : forall (store : list Recipe) (s : string) (n : Z),
  py_int s = Some n ->
  paginate_queryset store paginate_by (Some s)
  = if (1 <=? n) && (n <=? Z.of_nat (num_pages (List.length store) paginate_by))
    then Ok (Z.to_nat n, firstn 12 (skipn ((Z.to_nat n - 1) * 12) store))
    else Raise "Http404".
Proof. intros store s n H. exact (paginate_int store s n H). Qed.

Lemma py_int_last : py_int "last" = None.
Proof. reflexivity. Qed.

(** X4: with no page parameter, or an empty one, the first 12 recipes are
    shown. [last] shows the last page (page 1 of an empty table). Any other
    string that [int()] rejects raises [Http404]. *)
Theorem paginate_default_pages : forall (store : list Recipe),
  let np := num_pages (List.length store) paginate_by in
  paginate_queryset store paginate_by None = Ok (1%nat, firstn 12 store)
  /\ paginate_queryset store paginate_by (Some "") = Ok (1%nat, firstn 12 store)
  /\ paginate_queryset store paginate_by (Some "last")
     = Ok (np, firstn 12 (skipn ((np - 1) * 12) store))
  /\ (forall s, s <> "" -> s <> "last" -> py_int s = None ->
        paginate_queryset store paginate_by (Some s) = Raise "Http404").
Proof.
  intros store np. split; [|split; [|split]].
  - rewrite (paginate_number store paginate_by None 1) by (unfold paginate_by; auto with arith).
    pose proof (num_pages_pos (List.length store) paginate_by ltac:(unfold paginate_by; lia)).
    rewrite (proj2 (Z.ltb_ge (Z.of_nat (num_pages (List.length store) paginate_by)) 1)) by lia.
    reflexivity.
  - rewrite (paginate_number store paginate_by (Some "") 1) by (unfold paginate_by; auto with arith).
    pose proof (num_pages_pos (List.length store) paginate_by ltac:(unfold paginate_by; lia)).
    rewrite (proj2 (Z.ltb_ge (Z.of_nat (num_pages (List.length store) paginate_by)) 1)) by lia.
    reflexivity.
  - pose proof (num_pages_pos (List.length store) paginate_by ltac:(unfold paginate_by; lia)).
    rewrite (paginate_number store paginate_by (Some "last") (Z.of_nat np))
      by (unfold paginate_by; lia || reflexivity).
    rewrite (proj2 (Z.ltb_ge (Z.of_nat np) 1)) by (subst np; lia). rewrite Z.ltb_irrefl.
    cbn [orb]. rewrite Nat2Z.id. reflexivity.
  - intros s H1 H2 H3. unfold paginate_queryset. cbn zeta. unfold truthy.
    rewrite (proj2 (String.eqb_neq s "") H1), H3, (proj2 (String.eqb_neq s "last") H2).
    reflexivity.
Qed.

Lemma paginate_default_pages_witness :
  paginate_queryset soup_store paginate_by (Some "abc") = Raise "Http404"
  /\ paginate_queryset soup_store paginate_by (Some "last") = Ok (2%nat, skipn 12 soup_store).
Proof.
  destruct (paginate_default_pages soup_store) as [_ [_ [L R]]]. split.
  - apply R; [discriminate|discriminate|reflexivity].
  - exact L.
Defined.

Lemma paginate_int_page_witness :
  py_int " 2 " = Some 2
  /\ paginate_queryset soup_store paginate_by (Some " 2 ") = Ok (2%nat, skipn 12 soup_store)
  /\ paginate_queryset soup_store paginate_by (Some "3") = Raise "Http404".
Proof.
  split; [reflexivity|]. split.
  - rewrite (paginate_int_page soup_store " 2 " 2 eq_refl). reflexivity.
  - rewrite (paginate_int_page soup_store "3" 3 eq_refl). reflexivity.
Defined.

Lemma pages_map : forall (store : list Recipe) pages ns,
  map py_int pages = map (fun n => Some (Z.of_nat n)) ns ->
  (forall n, In n ns -> 1 <= n <= num_pages (List.length store) paginate_by)%nat ->
  map (fun s => paginate_queryset store paginate_by (Some s)) pages
  = map (fun n => Ok (n, firstn paginate_by (skipn ((n - 1) * paginate_by) store))) ns.
Proof.
  intros store. induction pages as [|s pages IH]; intros [|n ns] H Hin; try discriminate;
    [reflexivity|].
  cbn [map] in H |- *. injection H as Hs Hp.
  rewrite (paginate_int store s (Z.of_nat n) Hs), (IH ns Hp) by (intros; apply Hin; right; auto).
  destruct (Hin n (or_introl eq_refl)).
  rewrite (proj2 (Z.leb_le 1 _)), (proj2 (Z.leb_le _ _)) by lia. cbn [andb].
  rewrite Nat2Z.id. reflexivity.
Qed.

(** X5: asking for the pages [1 .. num_pages] in turn gives pages of at most
    12 recipes each. Their concatenation is the whole table in order, so
    every recipe is shown exactly once. *)
Theorem pages_cover_table : forall (store : list Recipe) (pages : list string),
  map py_int pages
  = map (fun n => Some (Z.of_nat n)) (seq 1 (num_pages (List.length store) paginate_by)) ->
  Forall (fun s => exists n objs, paginate_queryset store paginate_by (Some s) = Ok (n, objs)
                                  /\ (List.length objs <= 12)%nat) pages
  /\ List.concat (map (fun s => result_objects (paginate_queryset store paginate_by (Some s))) pages)
     = store.
Proof.
  intros store pages H.
  assert (Hin : forall n, In n (seq 1 (num_pages (List.length store) paginate_by)) ->
                (1 <= n <= num_pages (List.length store) paginate_by)%nat)
    by (intros n Hn; apply in_seq in Hn; lia).
  pose proof (pages_map store pages _ H Hin) as Hm. split.
  - apply Forall_forall. intros s Hs.
    assert (Hx : In (paginate_queryset store paginate_by (Some s))
                    (map (fun s => paginate_queryset store paginate_by (Some s)) pages))
      by (apply (in_map (fun s => paginate_queryset store paginate_by (Some s))); exact Hs).
    rewrite Hm in Hx. apply in_map_iff in Hx as (n & Hn & _).
    exists n, (firstn paginate_by (skipn ((n - 1) * paginate_by) store)). split; [auto|].
    rewrite length_firstn. unfold paginate_by. lia.
  - rewrite <- (map_map (fun s => paginate_queryset store paginate_by (Some s)) result_objects), Hm,
      map_map. cbn [result_objects].
    rewrite <- seq_shift, map_map.
    rewrite (map_ext (fun x => firstn paginate_by (skipn ((S x - 1) * paginate_by) store))
                     (fun i => firstn paginate_by (skipn (i * paginate_by) store)))
      by (intros; rewrite Nat.sub_succ, Nat.sub_0_r; reflexivity).
    apply chunks_concat. apply num_pages_cover. unfold paginate_by. lia.
Qed.

Lemma pages_cover_table_witness :
  map py_int ["1"; " 02"]
  = map (fun n => Some (Z.of_nat n)) (seq 1 (num_pages (List.length soup_store) paginate_by))
  /\ List.concat (map (fun s => result_objects (paginate_queryset soup_store paginate_by (Some s)))
                      ["1"; " 02"]) = soup_store.
Proof.
  assert (H : map py_int ["1"; " 02"]
    = map (fun n => Some (Z.of_nat n)) (seq 1 (num_pages (List.length soup_store) paginate_by)))
    by (vm_compute; reflexivity).
  split; [exact H|]. exact (proj2 (pages_cover_table soup_store ["1"; " 02"] H)).
Defined.

(** X6: the list view with a page parameter that [int()] reads as [n]. In
    range, the context holds page [n] and its slice, [is_paginated] holds
    iff there is more than one page, and the search context (the search
    never raises) and [querystring] are there. Out of range, [Http404] is
    raised before any chart is drawn, and the pyplot state is unchanged. *)
Theorem list_view_page :
  forall (agg_render : Figure -> list byte) (req : Request) (store : list Recipe) (st : Pyplot)
         (s : string) (n : Z),
    qd_get (GET req) "page" = Some s -> py_int s = Some n ->
    let np := num_pages (List.length store) paginate_by in
    exists sc, fst (get_context_data agg_render req store st) = Ok sc
    /\ list_view agg_render req store st
       = if (1 <=? n) && (n <=? Z.of_nat np) then
           (Ok (mkListContext (Z.to_nat n) (firstn 12 (skipn ((Z.to_nat n - 1) * 12) store))
                  (1 <? np)%nat sc (querystring req)),
            snd (get_context_data agg_render req store st))
         else (Raise "Http404", st).
Proof.
  intros agg_render req store st s n Hg Hs np.
  destruct (get_context_data_ok agg_render req store st) as [sc Hsc].
  exists sc. split; [exact Hsc|]. unfold list_view.
  rewrite Hg, (paginate_int store s n Hs). fold np.
  destruct ((1 <=? n) && (n <=? Z.of_nat np)) eqn:R; [|reflexivity].
  apply andb_prop in R as [R1 R2]. apply Z.leb_le in R1, R2.
  destruct (get_context_data agg_render req store st) as [r st']. cbn [fst snd] in *.
  subst r. do 3 f_equal.
  destruct (Nat.ltb_spec 1 (Z.to_nat n)), (Nat.ltb_spec (Z.to_nat n) np), (Nat.ltb_spec 1 np);
    cbn [orb]; reflexivity || lia.
Qed.

Lemma list_view_page_witness :
  exists ctx st',
    list_view (fun _ => []) (mkRequest "GET" [("page", "2")] []) soup_store st0 = (Ok ctx, st')
    /\ page_number ctx = 2%nat /\ page_objects ctx = skipn 12 soup_store
    /\ is_paginated ctx = true.
Proof.
  destruct (list_view_page (fun _ => []) (mkRequest "GET" [("page", "2")] []) soup_store st0
                "2" 2 eq_refl eq_refl) as [sc [_ E]].
  rewrite E. do 2 eexists. split; [reflexivity|]. repeat split.
Defined.

Lemma get_chart_pie_figure : forall agg_render data labels st, data <> [] ->
  let vc := value_counts (map row_difficulty data) in
  fst (get_chart agg_render (Some "#2") data labels st)
    = Ok (get_graph agg_render (snd (get_chart agg_render (Some "#2") data labels st)))
  /\ current_figure (snd (get_chart agg_render (Some "#2") data labels st))
     = mkFigure (80, 50)
         [APie (map snd vc) (map fst vc) "%1.1f%%" pie_colors 90;
          ATitle "Recipe Distribution by Difficulty" 14 "bold"] true.
Proof.
  intros agg_render data labels st Hd vc. unfold get_chart. cbn zeta.
  generalize (clf (switch_backend "AGG" st)) as st'. intros st'.
  unfold draw_chart. cbn [py_eq]. replace (String.eqb "#2" "#1") with false by reflexivity.
  replace (String.eqb "#2" "#2") with true by reflexivity. cbn zeta.
  rewrite (pie_sum_pos data Hd). fold vc. split; [reflexivity|].
  unfold tight_layout, draw, update_current, new_figure, current_figure.
  cbn [snd figures backend stdout artists figsize tight List.app]. reflexivity.
Qed.

Lemma get_chart_pie_empty : forall agg_render labels st,
  fst (get_chart agg_render (Some "#2") [] labels st) = Raise "ValueError".
Proof. intros. reflexivity. Qed.

(** X7: the pie chart ([#2]) of a non-empty table is an 8x5 figure with one
    pie and a title, and [get_chart] returns its image. The pie has one
    wedge per distinct difficulty label present in the data, sized by its
    number of rows. The wedges come in non-increasing size, and the sizes sum
    to the number of rows. With no rows, [plt.pie] raises [ValueError]
    instead. *)
Theorem pie_chart_wedges :
  forall (agg_render : Figure -> list byte) (data : list Row) (labels : list string) (st : Pyplot),
    data <> [] ->
    let vc := value_counts (map row_difficulty data) in
    (exists s, fst (get_chart agg_render (Some "#2") data labels st) = Ok s)
    /\ current_figure (snd (get_chart agg_render (Some "#2") data labels st))
       = mkFigure (80, 50)
           [APie (map snd vc) (map fst vc) "%1.1f%%" pie_colors 90;
            ATitle "Recipe Distribution by Difficulty" 14 "bold"] true
    /\ NoDup (map fst vc)
    /\ (forall x, In x (map fst vc) <-> In x (map row_difficulty data))
    /\ (forall x c, In (x, c) vc -> c = Z.of_nat (count_occ string_dec (map row_difficulty data) x))
    /\ Sorted (fun a b => b <= a) (map snd vc)
    /\ fold_right Z.add 0 (map snd vc) = Z.of_nat (List.length data)
    /\ fst (get_chart agg_render (Some "#2") [] labels st) = Raise "ValueError".
Proof.
  intros agg_render data labels st Hd vc.
  destruct (value_counts_spec (map row_difficulty data)) as (H1 & H2 & H3 & H4 & H5).
  fold vc in H1, H2, H3, H4, H5.
  destruct (get_chart_pie_figure agg_render data labels st Hd) as [Ok' Fig].
  split; [eexists; exact Ok'|]. split; [exact Fig|].
  split; [exact H1|]. split; [exact H2|]. split; [exact H3|].
  split; [|split; [|apply get_chart_pie_empty]].
  - clear -H4. induction H4 as [|a l Hs IH Hr]; cbn [map]; constructor; [exact IH|].
    destruct Hr as [|b l Hb]; cbn [map]; constructor. exact Hb.
  - rewrite length_map in H5. rewrite <- H5. apply sum_counts_map.
Qed.

Lemma pie_chart_wedges_witness :
  sample_df <> []
  /\ exists s, fst (get_chart (fun _ => []) (Some "#2") sample_df [] st0) = Ok s.
Proof.
  assert (H : sample_df <> []) by (vm_compute; discriminate).
  split; [exact H|].
  exact (proj1 (pie_chart_wedges (fun _ => []) sample_df [] st0 H)).
Defined.

Lemma difficulty_label : forall r, In (difficulty r) ["Easy"; "Medium"; "Intermediate"; "Hard"].
Proof.
  intros r. unfold difficulty, difficulty_of. cbn zeta.
  destruct (cooking_time r <? 10), (cooking_time r >=? 10),
    (Z.of_nat (List.length (ingredients_list (ingredients r))) <? 4),
    (Z.of_nat (List.length (ingredients_list (ingredients r))) >=? 4); cbn; tauto.
Qed.

(** X8: on the rows of the list view, the pie labels are among [Easy],
    [Medium], [Intermediate] and [Hard]. So there are never more wedges than
    the four colours given. *)
Theorem pie_chart_view_labels : forall (store : list Recipe),
  let vc := value_counts (map row_difficulty (annotate store)) in
  (forall x, In x (map fst vc) -> In x ["Easy"; "Medium"; "Intermediate"; "Hard"])
  /\ (List.length vc <= List.length pie_colors)%nat.
Proof.
  intros store vc.
  destruct (value_counts_spec (map row_difficulty (annotate store))) as (H1 & H2 & _).
  fold vc in H1, H2.
  assert (Hl : forall x, In x (map fst vc) -> In x ["Easy"; "Medium"; "Intermediate"; "Hard"]).
  { intros x Hx. apply H2 in Hx. unfold annotate in Hx. rewrite map_map in Hx.
    apply in_map_iff in Hx as (r & <- & _). apply difficulty_label. }
  split; [exact Hl|].
  rewrite <- (length_map fst vc).
  apply (NoDup_incl_length (l' := ["Easy"; "Medium"; "Intermediate"; "Hard"]) H1). exact Hl.
Qed.

Lemma figs_below_update : forall b r f st, figs_below b r st -> figs_below b r (update_current f st).
Proof.
  intros b r f [b' fs o] [[h E] B]. cbn in *. subst. unfold update_current. cbn.
  split; [eexists; reflexivity|reflexivity].
Qed.

Lemma figs_below_print : forall b r s st, figs_below b r st -> figs_below b r (py_print s st).
Proof. intros b r s [b' fs o] H. exact H. Qed.

Lemma figs_below_draw_chart : forall b r ct data st,
  figs_below b r st -> figs_below b r (snd (draw_chart ct data st)).
Proof.
  intros b r ct data st H. unfold draw_chart, draw.
  destruct (py_eq ct "#1"); [|destruct (py_eq ct "#2"); [|destruct (py_eq ct "#3")]];
    try destruct (Z.eqb _ 0); cbn zeta; cbn [snd];
    repeat (apply figs_below_update || apply figs_below_print); exact H.
Qed.

Lemma get_chart_figures : forall agg_render ct data labels st,
  figs_below "AGG" (figures (clf (switch_backend "AGG" st))) (snd (get_chart agg_render ct data labels st)).
Proof.
  intros. unfold get_chart. cbn zeta.
  assert (H : figs_below "AGG" (figures (clf (switch_backend "AGG" st)))
                (new_figure (80, 50) (clf (switch_backend "AGG" st)))).
  { unfold new_figure. cbn [figures backend]. split; [eexists; reflexivity|].
    unfold clf, update_current, switch_backend.
    destruct (String.eqb (backend st) "AGG"); [destruct (figures st)|]; reflexivity. }
  apply (figs_below_draw_chart _ _ ct data) in H.
  destruct (draw_chart ct data (new_figure (80, 50) (clf (switch_backend "AGG" st))))
    as [[u|e] st']; cbn [snd] in *; [unfold tight_layout; apply figs_below_update|]; exact H.
Qed.

Lemma get_chart_keeps_figures_aux :
  forall (agg_render : Figure -> list byte) (ct : option string) (data : list Row)
         (labels : list string) (st : Pyplot) (f : Figure) (rest : list Figure),
    backend st = "AGG" -> figures st = f :: rest ->
    backend (snd (get_chart agg_render ct data labels st)) = "AGG"
    /\ exists fig, figures (snd (get_chart agg_render ct data labels st))
                   = fig :: mkFigure (figsize f) [] false :: rest.
Proof.
  intros agg_render ct data labels st f rest Hb Hf.
  destruct (get_chart_figures agg_render ct data labels st) as [[h E] B].
  split; [exact B|]. exists h. rewrite E. unfold clf, switch_backend.
  rewrite Hb, String.eqb_refl.
  unfold update_current. cbn [figures]. rewrite Hf. reflexivity.
Qed.

(** X9: with matplotlib 3.10, once the backend is ["AGG"] (as after any
    earlier [get_chart] call of the process), [get_chart] on a state with an
    open figure [f] closes no figure. The cleared [f] (same size, no
    artists) stays open below the new chart figure, on top of the figures
    already open, and the backend stays ["AGG"]. *)
Theorem get_chart_keeps_figures :
  forall (agg_render : Figure -> list byte) (ct : option string) (data : list Row)
         (labels : list string) (st : Pyplot) (f : Figure) (rest : list Figure),
    backend st = "AGG" -> figures st = f :: rest ->
    backend (snd (get_chart agg_render ct data labels st)) = "AGG"
    /\ exists fig, figures (snd (get_chart agg_render ct data labels st))
                   = fig :: mkFigure (figsize f) [] false :: rest.
Proof.
  intros agg_render ct data labels st f rest Hb Hf.
  exact (get_chart_keeps_figures_aux agg_render ct data labels st f rest Hb Hf).
Qed.

Lemma get_chart_keeps_figures_witness :
  backend (snd (get_chart (fun _ => []) (Some "#1") sample_df [] (mkPyplot "AGG" [default_figure] [])))
  = "AGG"
  /\ List.length (figures (snd (get_chart (fun _ => []) (Some "#1") sample_df []
                                 (mkPyplot "AGG" [default_figure] [])))) = 2%nat.
Proof.
  destruct (get_chart_keeps_figures (fun _ => []) (Some "#1") sample_df []
              (mkPyplot "AGG" [default_figure] []) default_figure [] eq_refl eq_refl) as [B [fig F]].
  split; [exact B|]. rewrite F. reflexivity.
Defined.

(** X10: [n] successive [get_chart] calls, from a state whose backend is
    already ["AGG"] and which has an open figure, leave exactly [n] more open
    figures, also when a call raises: nothing closes them. *)
Theorem run_charts_accumulate :
  forall (agg_render : Figure -> list byte) (calls : list (option string * list Row * list string))
         (st : Pyplot),
    backend st = "AGG" -> figures st <> [] ->
    backend (run_charts agg_render calls st) = "AGG"
    /\ List.length (figures (run_charts agg_render calls st))
       = (List.length calls + List.length (figures st))%nat.
Proof.
  intros agg_render calls. unfold run_charts.
  induction calls as [|[[ct data] labels] calls IH]; intros st Hb Hf.
  - split; [exact Hb|reflexivity].
  - cbn [fold_left fst snd].
    destruct (figures st) as [|f rest] eqn:E; [congruence|].
    destruct (get_chart_keeps_figures_aux agg_render ct data labels st f rest Hb E) as [B [fig F]].
    destruct (IH _ B) as [B' L']; [rewrite F; discriminate|].
    split; [exact B'|]. rewrite L', F. cbn [List.length]. lia.
Qed.

Lemma run_charts_accumulate_witness :
  List.length (figures (run_charts (fun _ => [])
    [(Some "#1", sample_df, []); (Some "#2", [], []); (None, [], [])]
    (mkPyplot "AGG" [default_figure] []))) = 4%nat.
Proof.
  exact (proj2 (run_charts_accumulate (fun _ => [])
    [(Some "#1", sample_df, []); (Some "#2", [], []); (None, [], [])]
    (mkPyplot "AGG" [default_figure] []) eq_refl ltac:(discriminate))).
Defined.



Lemma fold_max_ge : forall (store : list Recipe) m,
  m <= fold_left (fun m r => Z.max m (id r)) store m
  /\ forall r, In r store -> id r <= fold_left (fun m r => Z.max m (id r)) store m.
Proof.
  induction store as [|r0 store IH]; intros m; cbn [fold_left]; [split; [lia|intros r []]|].
  destruct (IH (Z.max m (id r0))) as [H1 H2]. split; [lia|].
  intros r [<-|Hr]; [lia|auto].
Qed.

Lemma fold_max_le : forall (store : list Recipe) m X, m <= X ->
  (forall r, In r store -> id r <= X) -> fold_left (fun m r => Z.max m (id r)) store m <= X.
Proof.
  induction store as [|r0 store IH]; intros m X Hm Hr; cbn [fold_left]; [exact Hm|].
  apply IH; [|intros r H; apply Hr; right; exact H].
  specialize (Hr r0 (or_introl eq_refl)). lia.
Qed.

Lemma max_id_ge : forall rs r, In r rs -> id r <= max_id rs.
Proof. intros rs r Hr. exact (proj2 (fold_max_ge rs 0) r Hr). Qed.

Lemma max_id_nonneg : forall rs, 0 <= max_id rs.
Proof. intros rs. exact (proj1 (fold_max_ge rs 0)). Qed.

Lemma max_id_le : forall rs X, 0 <= X -> (forall r, In r rs -> id r <= X) -> max_id rs <= X.
Proof. intros rs X H0 H. exact (fold_max_le rs 0 X H0 H). Qed.

Lemma next_id_fresh : forall t i r, next_id t = Some i -> In r (rows t) -> id r < i.
Proof.
  intros t i r Hi Hr. unfold next_id in Hi.
  destruct (_ <=? _); [discriminate|]. injection Hi as <-.
  pose proof (max_id_ge _ r Hr). lia.
Qed.

Lemma next_id_seq : forall t i, next_id t = Some i -> max_id (rows t) <= sqlite_seq t ->
  i = sqlite_seq t + 1.
Proof.
  intros t i Hi H. unfold next_id in Hi.
  destruct (_ <=? _); [discriminate|]. injection Hi as <-. lia.
Qed.

Lemma fresh_nodup : forall (store : list Recipe) r,
  NoDup (map id store) -> (forall r', In r' store -> id r' < id r) ->
  NoDup (map id (store ++ [r])).
Proof.
  intros store r Hnd Hlt. rewrite map_app. apply NoDup_app; [exact Hnd|repeat constructor; auto|].
  intros x Hx [<-|[]]. apply in_map_iff in Hx as (r' & E & Hr'). specialize (Hlt r' Hr'). lia.
Qed.

Lemma ids_ok_refl : forall t, max_id (rows t) <= sqlite_seq t -> ids_ok t t.
Proof.
  intros t H. split; [auto|]. split; [exact H|]. split; [lia|].
  intros r Hr. left. apply in_map. exact Hr.
Qed.

Lemma ids_ok_trans : forall t1 t2 t3, ids_ok t1 t2 -> ids_ok t2 t3 -> ids_ok t1 t3.
Proof.
  intros t1 t2 t3 (N1 & M1 & S1 & F1) (N2 & M2 & S2 & F2).
  split; [auto|]. split; [exact M2|]. split; [lia|].
  intros r Hr. destruct (F2 r Hr) as [Hin|Hlt]; [|right; lia].
  apply in_map_iff in Hin as (r2 & E & Hr2). rewrite <- E.
  exact (F1 r2 Hr2).
Qed.

Lemma insert_ids : forall t mk t',
  (forall i, id (mk i) = i) -> max_id (rows t) <= sqlite_seq t ->
  insert_row t mk = Some t' -> ids_ok t t'.
Proof.
  intros t mk t' Hmk Hm Hins. destruct (insert_row_rows _ _ _ Hins) as [i [Hi ->]].
  pose proof (next_id_seq t i Hi Hm) as Ei.
  assert (Hlt : forall r, In r (rows t) -> id r < i) by (intros r Hr; exact (next_id_fresh t i r Hi Hr)).
  unfold ids_ok. cbn [rows sqlite_seq]. split; [|split; [|split]].
  - intros Hnd. apply fresh_nodup; [exact Hnd|]. rewrite Hmk. exact Hlt.
  - apply max_id_le; [pose proof (max_id_nonneg (rows t)); lia|].
    intros r Hr. apply in_app_or in Hr as [Hr|[<-|[]]]; [pose proof (Hlt r Hr); lia|].
    rewrite Hmk. lia.
  - lia.
  - intros r Hr. apply in_app_or in Hr as [Hr|[<-|[]]]; [left; apply in_map; exact Hr|].
    right. rewrite Hmk. lia.
Qed.

Lemma nodup_ids_filter : forall (f : Recipe -> bool) rs,
  NoDup (map id rs) -> NoDup (map id (filter f rs)).
Proof.
  intros f rs. induction rs as [|r rs IH]; intros H; [constructor|].
  cbn [map] in H. inversion H as [|? ? Hn Hnd]; subst. cbn [filter].
  destruct (f r); [|exact (IH Hnd)]. cbn [map]. constructor; [|exact (IH Hnd)].
  intros Hin. apply Hn. apply in_map_iff in Hin as (r' & E & Hr').
  apply filter_In in Hr' as [Hr' _]. rewrite <- E. apply in_map. exact Hr'.
Qed.

Lemma filter_ids : forall t (f : Recipe -> bool),
  max_id (rows t) <= sqlite_seq t -> ids_ok t (mkTable (filter f (rows t)) (sqlite_seq t)).
Proof.
  intros t f Hm. unfold ids_ok. cbn [rows sqlite_seq]. split; [apply nodup_ids_filter|]. split; [|split; [lia|]].
  - apply max_id_le; [pose proof (max_id_nonneg (rows t)); lia|].
    intros r Hr. apply filter_In in Hr as [Hr _]. pose proof (max_id_ge _ r Hr). lia.
  - intros r Hr. apply filter_In in Hr as [Hr _]. left. apply in_map. exact Hr.
Qed.

Lemma max_id_same_ids : forall rs rs', map id rs = map id rs' -> max_id rs = max_id rs'.
Proof.
  intros rs rs'. unfold max_id. generalize 0. revert rs'.
  induction rs as [|r rs IH]; intros [|r' rs'] m E; cbn in E; try discriminate; [reflexivity|].
  injection E as E1 E2. cbn [fold_left]. rewrite E1. apply IH. exact E2.
Qed.

Lemma change_ids : forall t pk d, max_id (rows t) <= sqlite_seq t -> ids_ok t (change_via_admin t pk d).
Proof.
  intros t pk d Hm. unfold change_via_admin.
  destruct (clean_recipe_form d) as [[[[[nm ct] ingr] descr] cat]|]; [|exact (ids_ok_refl t Hm)].
  assert (E : map id (map (fun r => if Z.eqb (id r) pk
                                     then mkRecipe (id r) nm ct ingr (Some descr) cat (user r) else r)
                           (rows t)) = map id (rows t)).
  { rewrite map_map. apply map_ext. intros r. destruct (Z.eqb (id r) pk); reflexivity. }
  unfold ids_ok. cbn [rows sqlite_seq]. split; [rewrite E; auto|]. split; [rewrite (max_id_same_ids _ _ E); exact Hm|].
  split; [lia|]. intros r Hr. left. rewrite <- E. apply in_map. exact Hr.
Qed.

Lemma create_ids : forall t d owner, max_id (rows t) <= sqlite_seq t ->
  ids_ok t (create_via_form t d owner).
Proof.
  intros t d owner Hm. unfold create_via_form.
  destruct (clean_recipe_form d) as [[[[[nm ct] ingr] descr] cat]|]; [|exact (ids_ok_refl t Hm)].
  destruct (insert_row t _) as [t'|] eqn:Ei; [|exact (ids_ok_refl t Hm)].
  refine (insert_ids t _ t' _ Hm Ei). intros i; reflexivity.
Qed.

Lemma load_ids : forall samples t owner, max_id (rows t) <= sqlite_seq t ->
  ids_ok t (load_samples samples t owner).
Proof.
  induction samples as [|[[[nm ct] ingr] cat] rest IH]; intros t owner Hm;
    cbn [load_samples]; [exact (ids_ok_refl t Hm)|].
  unfold get_or_create.
  destruct (filter (fun r => String.eqb (name r) nm) (rows t)) as [|x [|y l]].
  - destruct (insert_row t _) as [t'|] eqn:Ei; [|exact (ids_ok_refl t Hm)].
    assert (H1 : ids_ok t t') by (refine (insert_ids t _ t' _ Hm Ei); intros i; reflexivity).
    apply (ids_ok_trans _ _ _ H1). apply IH. exact (proj1 (proj2 H1)).
  - apply IH. exact Hm.
  - exact (ids_ok_refl t Hm).
Qed.

Lemma step_ids : forall t op, max_id (rows t) <= sqlite_seq t -> ids_ok t (store_step t op).
Proof.
  intros t [d owner|pk d|pk|u|owner] Hm; cbn [store_step].
  - apply create_ids. exact Hm.
  - apply change_ids. exact Hm.
  - apply filter_ids. exact Hm.
  - apply filter_ids. exact Hm.
  - apply load_ids. exact Hm.
Qed.

(** X11: on a table whose [sqlite_sequence] value is at least its largest
    key (as SQLite keeps it), every sequence of writes (form creation, admin
    change and delete, the cascade of a user's deletion, sample loading)
    keeps primary keys unique and that bound, never lowers the sequence
    value, and never reuses a key: a key not in the old table is above the
    old [sqlite_sequence] value, so above every key the table ever had. *)
Theorem store_ids_stable : forall (t : Table) (ops : list StoreOp),
  NoDup (map id (rows t)) -> max_id (rows t) <= sqlite_seq t ->
  NoDup (map id (rows (run_ops t ops)))
  /\ max_id (rows (run_ops t ops)) <= sqlite_seq (run_ops t ops)
  /\ sqlite_seq t <= sqlite_seq (run_ops t ops)
  /\ (forall r, In r (rows (run_ops t ops)) ->
        In (id r) (map id (rows t)) \/ sqlite_seq t < id r).
Proof.
  intros t ops Hnd Hm.
  assert (H : ids_ok t (run_ops t ops)).
  { unfold run_ops. revert t Hnd Hm.
    induction ops as [|op ops IH]; intros t Hnd Hm; cbn [fold_left]; [exact (ids_ok_refl t Hm)|].
    pose proof (step_ids t op Hm) as H1. destruct H1 as (N1 & M1 & S1 & F1).
    apply (ids_ok_trans _ _ _ (conj N1 (conj M1 (conj S1 F1)))).
    apply IH; [exact (N1 Hnd)|exact M1]. }
  destruct H as (N & M & S & F). auto.
Qed.

Lemma store_ids_stable_witness :
  NoDup (map id sample_store) /\ max_id sample_store <= 5
  /\ NoDup (map id (rows (run_ops (mkTable sample_store 5)
       [LoadSampleRecipes 1; AdminDelete 20;
        FormCreate [("name", "Pancakes"); ("cooking_time", "15");
                    ("ingredients", "flour, milk"); ("category", "breakfast")] 2;
        UserDelete 2; LoadSampleRecipes 2]))).
Proof.
  assert (H : NoDup (map id sample_store)) by (repeat constructor; simpl; intuition discriminate).
  assert (H5 : max_id sample_store <= 5) by (vm_compute; discriminate).
  split; [exact H|]. split; [exact H5|].
  exact (proj1 (store_ids_stable (mkTable sample_store 5) _ H H5)).
Defined.

(** X12: a recipe created through a valid form gets the key SQLite gives
    the new row (one more than the larger of [sqlite_sequence] and the
    largest key), which becomes the sequence value. The row holds the cleaned
    fields (a blank description is stored as ['']) and the current user, and
    [get_recipename_from_id] finds it under that key; the lookup of any other
    key gives what it gave before. *)
Theorem create_then_lookup :
  forall (t : Table) (d : QueryDict) (owner i : Z)
         (nm : string) (ct : Z) (ingr descr cat : string),
    clean_recipe_form d = Some (nm, ct, ingr, descr, cat) ->
    next_id t = Some i ->
    rows (create_via_form t d owner)
      = (rows t ++ [mkRecipe i nm ct ingr (Some descr) cat owner])%list
    /\ sqlite_seq (create_via_form t d owner) = i
    /\ get_recipename_from_id (rows (create_via_form t d owner)) i = Ok nm
    /\ (forall v, v <> i ->
          get_recipename_from_id (rows (create_via_form t d owner)) v
          = get_recipename_from_id (rows t) v).
Proof.
  intros t d owner i nm ct ingr descr cat H Hi.
  assert (Hc : create_via_form t d owner
               = mkTable (rows t ++ [mkRecipe i nm ct ingr (Some descr) cat owner])%list i)
    by (unfold create_via_form, insert_row; rewrite H, Hi; reflexivity).
  rewrite Hc. cbn [rows sqlite_seq]. split; [reflexivity|]. split; [reflexivity|].
  unfold get_recipename_from_id, objects_get_id. rewrite !filter_app. split.
  - replace (filter (fun r => Z.eqb (id r) i) (rows t)) with (@nil Recipe).
    + cbn. rewrite Z.eqb_refl. reflexivity.
    + symmetry. rewrite (filter_ext_in _ (fun _ => false)); [apply filter_false|].
      intros r Hr. apply Z.eqb_neq. pose proof (next_id_fresh t i r Hi Hr). lia.
  - intros v Hv. rewrite filter_app. cbn [filter id].
    replace (Z.eqb i v) with false by (symmetry; apply Z.eqb_neq; congruence).
    now rewrite app_nil_r.
Qed.

Lemma create_then_lookup_witness :
  clean_recipe_form [("name", String (ascii_of_nat 160) "Pancakes "); ("cooking_time", "15.0");
                     ("ingredients", "flour, milk"); ("category", "breakfast")]
    = Some ("Pancakes", 15, "flour, milk", "", "breakfast")
  /\ next_id (mkTable sample_store 5) = Some 6
  /\ get_recipename_from_id
       (rows (create_via_form (mkTable sample_store 5)
          [("name", String (ascii_of_nat 160) "Pancakes "); ("cooking_time", "15.0");
           ("ingredients", "flour, milk"); ("category", "breakfast")] 1)) 6 = Ok "Pancakes".
Proof.
  assert (H : clean_recipe_form [("name", String (ascii_of_nat 160) "Pancakes ");
                                 ("cooking_time", "15.0");
                                 ("ingredients", "flour, milk"); ("category", "breakfast")]
    = Some ("Pancakes", 15, "flour, milk", "", "breakfast")) by (vm_compute; reflexivity).
  assert (Hi : next_id (mkTable sample_store 5) = Some 6) by reflexivity.
  split; [exact H|]. split; [exact Hi|].
  exact (proj1 (proj2 (proj2 (create_then_lookup (mkTable sample_store 5) _ 1 6 _ _ _ _ _ H Hi)))).
Defined.

Lemma load_ext : forall samples t owner,
  exists ext, rows (load_samples samples t owner) = (rows t ++ ext)%list
  /\ Forall (fun r => In (name r) (map sample_name samples)) ext.
Proof.
  induction samples as [|[[[nm ct] ingr] cat] rest IH]; intros t owner.
  - exists []. rewrite app_nil_r. auto.
  - cbn [load_samples]. unfold get_or_create.
    destruct (filter (fun r => String.eqb (name r) nm) (rows t)) as [|x [|y l]].
    + destruct (insert_row t _) as [t'|] eqn:Ei; [|exists []; rewrite app_nil_r; auto].
      destruct (insert_row_rows _ _ _ Ei) as [i [_ ->]].
      destruct (IH (mkTable (rows t ++ [new_recipe i nm ct ingr
          (Some ("Delicious " ++ nm ++ " recipe. Easy to make and perfect for any occasion!")%string)
          (Some cat) owner])%list i) owner) as [ext [E F]].
      eexists. rewrite E. cbn [rows]. rewrite <- app_assoc. split; [reflexivity|].
      constructor; [left; reflexivity|].
      eapply Forall_impl; [|exact F]. intros r Hr. right. exact Hr.
    + destruct (IH t owner) as [ext [E F]]. exists ext. split; [exact E|].
      eapply Forall_impl; [|exact F]. intros r Hr. right. exact Hr.
    + exists []. rewrite app_nil_r. auto.
Qed.

Lemma filter_name_load : forall rest t owner nm,
  ~ In nm (map sample_name rest) ->
  filter (fun r => String.eqb (name r) nm) (rows (load_samples rest t owner))
  = filter (fun r => String.eqb (name r) nm) (rows t).
Proof.
  intros rest t owner nm Hn. destruct (load_ext rest t owner) as [ext [E F]].
  rewrite E, filter_app. rewrite (filter_ext_in _ (fun _ => false) ext).
  - now rewrite filter_false, app_nil_r.
  - intros r Hr. rewrite Forall_forall in F. specialize (F r Hr).
    apply String.eqb_neq. intros Heq. apply Hn. now rewrite <- Heq.
Qed.

Lemma load_samples_idem_gen : forall samples,
  NoDup (map sample_name samples) ->
  forall t o1 o2,
    load_samples samples (load_samples samples t o1) o2 = load_samples samples t o1.
Proof.
  induction samples as [|[[[nm ct] ingr] cat] rest IH]; intros Hnd t o1 o2; [reflexivity|].
  cbn [map sample_name fst] in Hnd. inversion Hnd as [|? ? Hnin Hrest]; subst.
  cbn [load_samples].
  set (descr := Some ("Delicious " ++ nm ++ " recipe. Easy to make and perfect for any occasion!")).
  destruct (filter (fun r => String.eqb (name r) nm) (rows t)) as [|x [|y l]] eqn:Ef.
  - destruct (next_id t) as [i|] eqn:Ei.
    + set (r0 := new_recipe i nm ct ingr descr (Some cat) o1).
      assert (G : get_or_create t nm ct ingr descr cat o1 = Some (mkTable (rows t ++ [r0])%list i))
        by (unfold get_or_create, insert_row; rewrite Ef, Ei; reflexivity).
      rewrite G. unfold get_or_create at 1.
      rewrite (filter_name_load rest _ o1 nm Hnin). cbn [rows]. rewrite filter_app, Ef.
      cbn [filter app]. unfold r0 at 1. cbn [new_recipe name]. rewrite String.eqb_refl.
      apply IH; exact Hrest.
    + assert (G : forall o, get_or_create t nm ct ingr descr cat o = None)
        by (intros o; unfold get_or_create, insert_row; rewrite Ef, Ei; reflexivity).
      rewrite !G. reflexivity.
  - assert (G : get_or_create t nm ct ingr descr cat o1 = Some t)
      by (unfold get_or_create; rewrite Ef; reflexivity).
    rewrite G. unfold get_or_create at 1. rewrite (filter_name_load rest _ o1 nm Hnin), Ef.
    apply IH; exact Hrest.
  - assert (G : forall o, get_or_create t nm ct ingr descr cat o = None)
      by (intros o; unfold get_or_create; rewrite Ef; reflexivity).
    rewrite !G. reflexivity.
Qed.

(** X13: [load_sample_recipes] is idempotent. A second run, by any user,
    leaves the table (its rows and its [sqlite_sequence] value) exactly as
    the first run left it. *)
Theorem load_sample_recipes_idempotent : forall (store : Table) (o1 o2 : Z),
  store_step (store_step store (LoadSampleRecipes o1)) (LoadSampleRecipes o2)
  = store_step store (LoadSampleRecipes o1).
Proof.
  intros store o1 o2. cbn [store_step]. apply load_samples_idem_gen.
  vm_compute. repeat constructor; cbn; intuition discriminate.
Qed.

Lemma b64_char_mod : forall k, b64_char k = b64_char (k mod 64)%N.
Proof. intros k. unfold b64_char. rewrite N.Div0.mod_mod. reflexivity. Qed.

Lemma to_nat_lt_64 : forall m, (m < 64)%N -> (N.to_nat m < 64)%nat.
Proof.
  intros m Hm. change 64%nat with (N.to_nat 64). apply Nat.compare_lt_iff.
  rewrite <- N2Nat.inj_compare. apply N.compare_lt_iff. exact Hm.
Qed.

Lemma b64_index_char_small : forall m, (m < 64)%N -> b64_index (b64_char m) = Some m.
Proof.
  intros m Hm.
  assert (H : forallb (fun k => match b64_index (b64_char (N.of_nat k)) with
                                | Some j => N.eqb j (N.of_nat k) | None => false end)
                      (seq 0 64) = true) by (vm_compute; reflexivity).
  rewrite forallb_forall in H. specialize (H (N.to_nat m)).
  rewrite N2Nat.id in H. destruct (b64_index (b64_char m)) as [j|].
  - apply N.eqb_eq in H; [now subst|]. apply in_seq. split; [apply Nat.le_0_l|exact (to_nat_lt_64 m Hm)].
  - discriminate H. apply in_seq. split; [apply Nat.le_0_l|exact (to_nat_lt_64 m Hm)].
Qed.

Lemma b64_index_char : forall k, b64_index (b64_char k) = Some (k mod 64)%N.
Proof.
  intros k. rewrite b64_char_mod. apply b64_index_char_small. apply N.mod_lt. lia.
Qed.

Lemma b64_eq_char : forall k, Ascii.eqb (b64_char k) "=" = false.
Proof.
  intros k. rewrite b64_char_mod.
  assert (H : forallb (fun k => negb (Ascii.eqb (b64_char (N.of_nat k)) "=")) (seq 0 64) = true)
    by (vm_compute; reflexivity).
  rewrite forallb_forall in H. specialize (H (N.to_nat (k mod 64)%N)).
  rewrite N2Nat.id in H. rewrite <- (negb_involutive (Ascii.eqb _ _)), H; [reflexivity|].
  apply in_seq. split; [apply Nat.le_0_l|exact (to_nat_lt_64 _ (N.mod_lt k 64 ltac:(lia)))].
Qed.

Lemma byte_lt_256 : forall b : byte, (Byte.to_N b < 256)%N.
Proof. intros b. destruct b; vm_compute; reflexivity. Qed.

(** Splitting a 24-bit number into its sextets and joining them back. *)
Lemma sextets_join : forall n, (n < 16777216)%N ->
  ((n / 262144) mod 64 * 262144 + (n / 4096) mod 64 * 4096 + (n / 64) mod 64 * 64 + n mod 64)%N = n.
Proof.
  intros n Hn.
  assert (Hc : (n / 262144 < 64)%N) by (apply N.div_lt_upper_bound; lia).
  rewrite (N.mod_small (n / 262144)) by exact Hc.
  assert (E1 : (n / 4096 = n / 64 / 64)%N) by (rewrite N.div_div by lia; reflexivity).
  assert (E2 : (n / 262144 = n / 4096 / 64)%N) by (rewrite N.div_div by lia; reflexivity).
  pose proof (N.div_mod n 64 ltac:(lia)).
  pose proof (N.div_mod (n / 64) 64 ltac:(lia)).
  pose proof (N.div_mod (n / 4096) 64 ltac:(lia)).
  rewrite <- E1 in *. rewrite <- E2 in *. lia.
Qed.

Lemma bytes_of_triple : forall b1 b2 b3, (b1 < 256)%N -> (b2 < 256)%N -> (b3 < 256)%N ->
  let n := (b1 * 65536 + b2 * 256 + b3)%N in
  (n / 65536 = b1 /\ (n / 256) mod 256 = b2 /\ n mod 256 = b3)%N.
Proof.
  intros b1 b2 b3 H1 H2 H3 n. subst n.
  assert (D1 : ((b1 * 65536 + b2 * 256 + b3) / 65536 = b1)%N)
    by (symmetry; apply (N.div_unique _ _ _ (b2 * 256 + b3)); lia).
  assert (D2 : ((b1 * 65536 + b2 * 256 + b3) / 256 = b1 * 256 + b2)%N)
    by (symmetry; apply (N.div_unique _ _ _ b3); lia).
  rewrite D1, D2. split; [reflexivity|]. split.
  - symmetry. apply (N.mod_unique _ _ b1); lia.
  - symmetry. apply (N.mod_unique _ _ (b1 * 256 + b2)); lia.
Qed.

Lemma b64_round_trip_len : forall k (bs : list byte), (List.length bs <= k)%nat ->
  b64decode (b64encode bs) = Some (map Byte.to_N bs).
Proof.
  induction k as [|k IH]; intros bs Hl.
  { destruct bs; [reflexivity|cbn in Hl; lia]. }
  destruct bs as [|b1 [|b2 [|b3 rest]]]; [reflexivity| | |].
  - cbn [b64encode]. set (n := (Byte.to_N b1 * 65536)%N).
    pose proof (byte_lt_256 b1) as H1.
    cbn [b64decode]. rewrite !b64_index_char. cbn [Ascii.eqb Bool.eqb andb String.eqb].
    assert (M1 : (n mod 64 = 0)%N)
      by (symmetry; apply (N.mod_unique _ _ (Byte.to_N b1 * 1024)); unfold n; lia).
    assert (M2 : ((n / 64) mod 64 = 0)%N).
    { assert (D : (n / 64 = Byte.to_N b1 * 1024)%N)
        by (symmetry; apply (N.div_unique _ _ _ 0); unfold n; lia).
      rewrite D. symmetry. apply (N.mod_unique _ _ (Byte.to_N b1 * 16)); lia. }
    pose proof (sextets_join n ltac:(unfold n; lia)) as J. rewrite M1, M2 in J.
    rewrite N.add_0_r, N.mul_0_l, N.add_0_r in J. rewrite J.
    destruct (bytes_of_triple (Byte.to_N b1) 0 0 H1 ltac:(lia) ltac:(lia)) as [A _].
    replace (Byte.to_N b1 * 65536 + 0 * 256 + 0)%N with n in A by (unfold n; lia).
    cbn [map]. rewrite A. reflexivity.
  - cbn [b64encode]. set (n := (Byte.to_N b1 * 65536 + Byte.to_N b2 * 256)%N).
    pose proof (byte_lt_256 b1) as H1. pose proof (byte_lt_256 b2) as H2.
    cbn [b64decode]. rewrite !b64_index_char, b64_eq_char. cbn [Ascii.eqb Bool.eqb andb String.eqb].
    assert (M1 : (n mod 64 = 0)%N)
      by (symmetry; apply (N.mod_unique _ _ (Byte.to_N b1 * 1024 + Byte.to_N b2 * 4)); unfold n; lia).
    pose proof (sextets_join n ltac:(unfold n; lia)) as J. rewrite M1, N.add_0_r in J. rewrite J.
    destruct (bytes_of_triple (Byte.to_N b1) (Byte.to_N b2) 0 H1 H2 ltac:(lia)) as [A [B _]].
    rewrite N.add_0_r in A, B. fold n in A, B. rewrite A, B. reflexivity.
  - cbn [b64encode].
    set (n := (Byte.to_N b1 * 65536 + Byte.to_N b2 * 256 + Byte.to_N b3)%N).
    pose proof (byte_lt_256 b1) as H1. pose proof (byte_lt_256 b2) as H2.
    pose proof (byte_lt_256 b3) as H3.
    cbn [b64decode]. rewrite !b64_index_char, b64_eq_char. cbn [andb].
    rewrite IH by (cbn in Hl; lia).
    rewrite (sextets_join n ltac:(unfold n; lia)).
    destruct (bytes_of_triple (Byte.to_N b1) (Byte.to_N b2) (Byte.to_N b3) H1 H2 H3) as [A [B C]].
    fold n in A, B, C. cbn [option_map map]. rewrite A, B, C. reflexivity.
Qed.

Lemma b64_round_trip : forall bs : list byte, b64decode (b64encode bs) = Some (map Byte.to_N bs).
Proof. intros bs. exact (b64_round_trip_len (List.length bs) bs (le_n _)). Qed.

(** X14: the string [get_chart] returns (when it returns one) is base64
    that decodes to the PNG signature followed by the renderer's bytes for
    the figure [get_chart] leaves current. *)
Theorem get_chart_png_data : forall (agg_render : Figure -> list byte) (chart_type : option string)
    (data : list Row) (labels : list string) (st : Pyplot) (s : string),
  fst (get_chart agg_render chart_type data labels st) = Ok s ->
  b64decode s
  = Some (List.app [137; 80; 78; 71; 13; 10; 26; 10]
          (map Byte.to_N (agg_render (current_figure (snd (get_chart agg_render chart_type data labels st))))))%N.
Proof.
  intros agg_render chart_type data labels st s H.
  destruct (get_chart_cases agg_render chart_type data labels st) as [E|[E _]];
    rewrite H in E; [|discriminate].
  injection E as ->. unfold get_graph.
  rewrite b64_round_trip. unfold savefig_png. rewrite map_app. reflexivity.
Qed.

Lemma get_chart_png_data_witness :
  exists s, fst (get_chart (fun _ => []) (Some "#3") sample_df [] st0) = Ok s
  /\ b64decode s = Some [137; 80; 78; 71; 13; 10; 26; 10]%N.
Proof.
  eexists. split; [reflexivity|].
  exact (get_chart_png_data (fun _ => []) (Some "#3") sample_df [] st0 _ eq_refl).
Defined.
